(** * google-search-scraper: the scraper core, embedded and verified

    The development follows the two [GoogleScraper] classes of the
    repository: the REST one ([api/google_scraper_api.py], module [Api]) and
    the tool-server copy ([mcp/google_scraper_mcp.py], module [Mcp]).

    Conventions of the embedding
    - a Python [str] is a list of Unicode code points ([pystr]);
    - wall-clock time and delays are rationals ([Q]), in seconds;
    - the outside world (random draws, the HTTP exchange, elapsed time) is an
      oracle indexed by the attempt number;
    - what the interpreter and the libraries bring is an interface: the
      Unicode tables beyond ASCII ([Unicode]) and the HTML tree builder
      ([TreeBuilder]);
    - the depth of the interpreter's stack is a parameter of the search: the
      number of nested retries it has room for. *)

From Stdlib Require Import String Ascii List NArith ZArith QArith Bool Lia Lqa.
From Stdlib Require Import DecimalString.
Import ListNotations.
Open Scope string_scope.
Open Scope list_scope.

Set Implicit Arguments.
Set Warnings "-register-all".

(* ================================================================= *)
(** ** Python strings *)

Abbreviation char := N (only parsing).
Abbreviation pystr := (list N) (only parsing).

(** A literal of the source, read byte by byte (the literals used below are
    ASCII, except the accented letters, given by code point). *)
Definition str (s : string) : pystr :=
  List.map N_of_ascii (list_ascii_of_string s).

Definition pystr_eqb (a b : pystr) : bool :=
  if list_eq_dec N.eq_dec a b then true else false.

(** [not text]: the empty string is falsy. *)
Definition truthy (s : pystr) : bool :=
  match s with [] => false | _ :: _ => true end.

(** [s.startswith(p)] *)
Fixpoint startswith (s p : pystr) {struct p} : bool :=
  match p, s with
  | [], _ => true
  | _ :: _, [] => false
  | b :: p', a :: s' => N.eqb a b && startswith s' p'
  end.

(** [s.find(sub)], as an option. *)
Fixpoint find (sub s : pystr) : option nat :=
  if startswith s sub then Some 0%nat
  else match s with
       | [] => None
       | _ :: s' => option_map S (find sub s')
       end.

(** [sub in s] *)
Definition contains (sub s : pystr) : bool :=
  match find sub s with Some _ => true | None => false end.

(** [s.split(sep)] for a non-empty separator: cut at each occurrence, left to
    right, occurrences not overlapping. *)
Fixpoint split_fuel (fuel : nat) (sep s : pystr) : list pystr :=
  match fuel with
  | O => [s]
  | S fuel' =>
      match find sep s with
      | None => [s]
      | Some i => firstn i s :: split_fuel fuel' sep (skipn (i + length sep) s)
      end
  end.

Definition split (sep s : pystr) : list pystr :=
  split_fuel (S (length s)) sep s.

Fixpoint dropwhile (p : char -> bool) (s : pystr) : pystr :=
  match s with
  | [] => []
  | c :: s' => if p c then dropwhile p s' else s
  end.

(** The slice [l[:n]] of a Python list, for any integer [n]: a negative [n]
    counts from the end. *)
Definition slice_to {A} (l : list A) (n : Z) : list A :=
  if (0 <=? n)%Z then firstn (Z.to_nat n) l
  else firstn (length l - Z.to_nat (- n)) l.

(** *** Character tables *)

Local Open Scope N_scope.

(** [str.isspace], which is also what [\s] and [strip()] use. *)
Definition is_space (c : char) : bool :=
  ((9 <=? c) && (c <=? 13)) || ((28 <=? c) && (c <=? 32))
  || (c =? 133) || (c =? 160) || (c =? 5760)
  || ((8192 <=? c) && (c <=? 8202)) || (c =? 8232) || (c =? 8233)
  || (c =? 8239) || (c =? 8287) || (c =? 12288).

Definition ascii_digit (c : char) : bool := (48 <=? c) && (c <=? 57).
Definition ascii_upper (c : char) : bool := (65 <=? c) && (c <=? 90).
Definition ascii_lower (c : char) : bool := (97 <=? c) && (c <=? 122).
Definition ascii_alnum (c : char) : bool :=
  ascii_digit c || ascii_upper c || ascii_lower c.

(** What the interpreter and the libraries supply: the Unicode tables beyond
    ASCII (the tree builder of BeautifulSoup comes with the document model
    below). *)
Class Unicode := {
  uni_alnum : char -> bool;      (* str.isalnum, code points >= 128 *)
  uni_decimal : char -> bool;    (* category Nd, code points >= 128 *)
  uni_tolower : char -> char;    (* simple lower-case mapping of [re] *)
  uni_lower : char -> pystr      (* full lower-casing of [str.lower] *)
}.

Section Text.
Context {U : Unicode}.

(** [\w] of a [str] pattern: alphanumeric or underscore. *)
Definition is_word (c : char) : bool :=
  if c <? 128 then ascii_alnum c || (c =? 95) else uni_alnum c.

(** [\d] of a [str] pattern. *)
Definition is_digit (c : char) : bool :=
  if c <? 128 then ascii_digit c else uni_decimal c.

(** Lower-casing of one character as [re.IGNORECASE] applies it. *)
Definition re_lower (c : char) : char :=
  if c <? 128 then (if ascii_upper c then c + 32 else c) else uni_tolower c.

(** [s.lower()] *)
Definition lower (s : pystr) : pystr :=
  flat_map (fun c => if c <? 128 then [if ascii_upper c then c + 32 else c]
                     else uni_lower c) s.

(** [s.strip()] *)
Definition strip (s : pystr) : pystr :=
  rev (dropwhile is_space (rev (dropwhile is_space s))).

(** [re.sub(r'\s+', ' ', s)]: every maximal run of whitespace becomes one
    space. [in_run] tells that the previous character was whitespace. *)
Fixpoint collapse_from (in_run : bool) (s : pystr) : pystr :=
  match s with
  | [] => []
  | c :: s' =>
      if is_space c
      then (if in_run then collapse_from true s' else 32 :: collapse_from true s')
      else c :: collapse_from false s'
  end.

Definition collapse_ws (s : pystr) : pystr := collapse_from false s.

End Text.

Local Close Scope N_scope.

(** Literal members of the two character classes. *)
Definition punctuation : pystr := str ".,!?;:-()'" ++ [34%N].
Definition accents_lower : pystr := [225; 233; 237; 243; 250; 241; 252]%N.
Definition accents_upper : pystr := [193; 201; 205; 211; 218; 209; 220]%N.

Definition mem (c : char) (l : pystr) : bool := existsb (N.eqb c) l.


(* ================================================================= *)
(** ** Exceptions *)

(** A computation that may raise; an exception is kept as its message, which
    is all the scraper ever reads of it ([str(e)]). *)
Inductive outcome (A : Type) : Type :=
| Ok (a : A)
| Raised (e : pystr).
Arguments Ok {A} a.
Arguments Raised {A} e.

Definition bind {A B} (m : outcome A) (k : A -> outcome B) : outcome B :=
  match m with
  | Ok a => k a
  | Raised e => Raised e
  end.

Notation "x <- m ;; k" := (bind m (fun x => k))
  (at level 61, m at next level, right associativity).

(** [default] when an optional value is absent. *)
Definition or_else {A} (o : option A) (d : A) : A :=
  match o with Some a => a | None => d end.

(** Python's [a or b] on optional objects that are truthy when present. *)
Definition por {A} (a b : option A) : option A :=
  match a with Some _ => a | None => b end.

(* ================================================================= *)
(** ** The document tree of BeautifulSoup *)

(** The classes of the strings of a tree: [NavigableString] itself and the
    subclasses the parser tells apart. *)
Inductive string_class : Type :=
| NavigableString | CData | Comment | Declaration | Doctype | ProcessingInstruction
| Stylesheet | Script | TemplateString | RubyTextString | RubyParenthesisString.

Definition class_code (k : string_class) : nat :=
  match k with
  | NavigableString => 0 | CData => 1 | Comment => 2 | Declaration => 3
  | Doctype => 4 | ProcessingInstruction => 5 | Stylesheet => 6 | Script => 7
  | TemplateString => 8 | RubyTextString => 9 | RubyParenthesisString => 10
  end.

Definition class_eqb (a b : string_class) : bool :=
  Nat.eqb (class_code a) (class_code b).

Inductive node : Type :=
| Text (k : string_class) (s : pystr)
| Elem (name : string) (attrs : list (string * pystr)) (children : list node).

(** A [Tag] object: an element together with the chain of its ancestors,
    nearest first; the chain of the BeautifulSoup object itself is empty. *)
Record tag : Type := Tag { here : node; above : list node }.

Definition name (t : tag) : string :=
  match here t with Elem n _ _ => n | Text _ _ => EmptyString end.

Definition attrs_of (n : node) : list (string * pystr) :=
  match n with Elem _ a _ => a | Text _ _ => [] end.

Definition children_of (n : node) : list node :=
  match n with Elem _ _ cs => cs | Text _ _ => [] end.

(** [t.parent]; [None] above the BeautifulSoup object. *)
Definition parent (t : tag) : option tag :=
  match above t with
  | [] => None
  | p :: up => Some (Tag p up)
  end.

Fixpoint get_attr (a : list (string * pystr)) (k : string) : option pystr :=
  match a with
  | [] => None
  | (k', v) :: a' => if String.eqb k k' then Some v else get_attr a' k
  end.

(** [k in t.attrs] *)
Definition has_attr (n : node) (k : string) : bool :=
  match get_attr (attrs_of n) k with Some _ => true | None => false end.

(** The whitespace-separated tokens of an attribute value (the [class]
    attribute is multi-valued). [cur] is the token being read, reversed. *)
Fixpoint tokens_from (cur : pystr) (s : pystr) : list pystr :=
  match s with
  | [] => match cur with [] => [] | _ => [rev cur] end
  | c :: s' =>
      if is_space c
      then match cur with [] => tokens_from [] s' | _ => rev cur :: tokens_from [] s' end
      else tokens_from (c :: cur) s'
  end.

Definition classes (n : node) : list pystr :=
  match get_attr (attrs_of n) "class" with
  | Some v => tokens_from [] v
  | None => []
  end.

Definition has_class (n : node) (c : pystr) : bool :=
  existsb (pystr_eqb c) (classes n).

(** [t.interesting_string_types], set from the name of the tag when the
    tree is built: the classes of strings that count as the text of [t]. *)
Definition interesting_string_types (nm : string) : list string_class :=
  if String.eqb nm "rt" then [RubyTextString]
  else if String.eqb nm "rp" then [RubyParenthesisString]
  else if String.eqb nm "style" then [Stylesheet]
  else if String.eqb nm "script" then [Script]
  else if String.eqb nm "template" then [TemplateString]
  else [NavigableString; CData].

(** [_all_strings(types=types)], joined: the strings below whose class is
    one of [types], in document order. Comments, declarations and the
    like, and scripts and style sheets seen from outside, are left out. *)
Fixpoint all_strings (types : list string_class) (n : node) : pystr :=
  match n with
  | Text k s => if existsb (class_eqb k) types then s else []
  | Elem _ _ cs => flat_map (all_strings types) cs
  end.

(** [t.get_text()] *)
Definition get_text (t : tag) : pystr :=
  all_strings (interesting_string_types (name t)) (here t).

(** The elements of a subtree in document order, the root first. *)
Fixpoint elements (up : list node) (n : node) : list tag :=
  match n with
  | Text _ _ => []
  | Elem _ _ cs => Tag n up :: flat_map (elements (n :: up)) cs
  end.

Definition descendants (t : tag) : list tag :=
  flat_map (elements (here t :: above t)) (children_of (here t)).

(** [t.string]: the single string below a tag, of whatever class, if there
    is exactly one. *)
Fixpoint string_of (n : node) : option pystr :=
  match n with
  | Text _ s => Some s
  | Elem _ _ [c] => string_of c
  | Elem _ _ _ => None
  end.

(** *** find and find_all *)

Definition is_named (nm : string) (t : tag) : bool := String.eqb (name t) nm.

(** [t.find_all(nm, test)] and [t.find(nm, test)] *)
Definition find_all (t : tag) (nm : string) (test : node -> bool) : list tag :=
  filter (fun d => is_named nm d && test (here d)) (descendants t).

Definition find_tag (t : tag) (nm : string) (test : node -> bool) : option tag :=
  hd_error (find_all t nm test).

Definition any_node (n : node) : bool := true.

(** *** CSS selectors: compound selectors joined by the descendant combinator *)

Record compound : Type := Compound {
  sel_name : option string;              (* [div] *)
  sel_classes : list pystr;              (* [.g] *)
  sel_has : list string;                 (* [[data-ved]] *)
  sel_contains : list (string * pystr)   (* [[style*=color]] *)
}.

Definition matches_compound (c : compound) (n : node) : bool :=
  match n with
  | Text _ _ => false
  | Elem nm _ _ =>
      match sel_name c with Some x => String.eqb nm x | None => true end
      && forallb (has_class n) (sel_classes c)
      && forallb (has_attr n) (sel_has c)
      && forallb (fun '(k, sub) =>
                    match get_attr (attrs_of n) k with
                    | Some v => contains sub v
                    | None => false
                    end) (sel_contains c)
  end.

(** The compounds left of the subject, nearest first, against the ancestors,
    nearest first. *)
Fixpoint match_up (cs : list compound) (up : list node) : bool :=
  match cs with
  | [] => true
  | c :: cs' =>
      (fix climb (up : list node) : bool :=
         match up with
         | [] => false
         | a :: up' => if matches_compound c a then match_up cs' up' else climb up'
         end) up
  end.

Definition selector := list compound.

Definition matches (sel : selector) (t : tag) : bool :=
  match rev sel with
  | [] => false
  | subject :: cs => matches_compound subject (here t) && match_up cs (above t)
  end.

(** [t.select(sel)] and [t.select_one(sel)] *)
Definition select (t : tag) (sel : selector) : list tag :=
  filter (matches sel) (descendants t).

Definition select_one (t : tag) (sel : selector) : option tag :=
  hd_error (select t sel).

Definition by_name (nm : string) : compound := Compound (Some nm) [] [] [].
Definition by_class (c : string) : compound := Compound None [str c] [] [].
Definition name_class (nm c : string) : compound := Compound (Some nm) [str c] [] [].
Definition name_attr (nm a : string) : compound := Compound (Some nm) [] [a] [].


(** The tree builder: [BeautifulSoup(html, 'html.parser')] makes a tree out of
    the markup, the list of its top-level nodes, or raises when the parser
    rejects the markup. *)
Class TreeBuilder := { BeautifulSoup : pystr -> outcome (list node) }.

(** The BeautifulSoup object: the root, named [[document]], without parent. *)
Definition soup_of (top : list node) : tag := Tag (Elem "[document]" [] top) [].

(* ================================================================= *)
(** ** Regular expressions of the date patterns

    The patterns are sequences of bounded repetitions of one character class;
    matching is greedy with backtracking, leftmost start first. *)

Inductive cclass : Type := Digit | Word | Space | Lit (c : char).

Record piece : Type := Piece { p_class : cclass; p_min : nat; p_max : option nat }.

Definition regex := list piece.

Section Regex.
Context {U : Unicode}.

Definition in_class (k : cclass) (c : char) : bool :=
  match k with
  | Digit => is_digit c
  | Word => is_word c
  | Space => is_space c
  | Lit x => N.eqb c x
  end.

(** Length of the longest prefix of [s] made of characters of [k]. *)
Fixpoint run_length (k : cclass) (s : pystr) : nat :=
  match s with
  | [] => O
  | c :: s' => if in_class k c then S (run_length k s') else O
  end.

(** Length of the match of [r] at the start of [s], if any. *)
Fixpoint match_here (r : regex) (s : pystr) : option nat :=
  match r with
  | [] => Some O
  | p :: r' =>
      let avail := run_length (p_class p) s in
      let hi := match p_max p with Some m => Nat.min m avail | None => avail end in
      if Nat.ltb hi (p_min p) then None
      else
        (fix try (d : nat) : option nat :=
           let k := (p_min p + d)%nat in
           match match_here r' (skipn k s) with
           | Some n => Some (k + n)%nat
           | None => match d with O => None | S d' => try d' end
           end) (hi - p_min p)%nat
  end.

(** [re.search(r, s)], returning [match.group()]. *)
Fixpoint re_search (r : regex) (s : pystr) : option pystr :=
  match match_here r s with
  | Some n => Some (firstn n s)
  | None => match s with [] => None | _ :: s' => re_search r s' end
  end.

End Regex.

Definition rep (k : cclass) (lo : nat) (hi : option nat) : piece := Piece k lo hi.
Definition one (c : string) : piece :=
  Piece (Lit (hd 0%N (str c))) 1 (Some 1%nat).

(** [\d{1,2}\s+\w+\s+\d{4}], [\d{1,2}/\d{1,2}/\d{4}], [\w+\s+\d{1,2},\s+\d{4}] *)
Definition date_day_month_year : regex :=
  [rep Digit 1 (Some 2%nat); rep Space 1 None; rep Word 1 None; rep Space 1 None;
   rep Digit 4 (Some 4%nat)].
Definition date_slashes : regex :=
  [rep Digit 1 (Some 2%nat); one "/"; rep Digit 1 (Some 2%nat); one "/";
   rep Digit 4 (Some 4%nat)].
Definition date_month_day_year : regex :=
  [rep Word 1 None; rep Space 1 None; rep Digit 1 (Some 2%nat); one ",";
   rep Space 1 None; rep Digit 4 (Some 4%nat)].

(* ================================================================= *)
(** ** The world around the scraper *)

(** What one attempt of a search meets: the random draws, the HTTP exchange
    and the time it takes. [random.uniform(a, b)] is [a + (b - a) * u] for a
    draw [u] of [random.random()]; [random.choice(l)] indexes [l]. *)
Record attempt : Type := Attempt {
  u_delay : Q;          (* behind the jitter of the pacing delay *)
  pick_domain : nat;    (* behind the choice of the mirror *)
  pick_agent : nat;     (* behind the choice of the User-Agent *)
  exchange : outcome (Z * outcome pystr);
                        (* [session.get]: it raises, or answers with a status,
                           and [response.text()] raises or gives the body *)
  elapsed : Q;          (* seconds spent in the exchange *)
  u_extra : Q;          (* behind the extra delay: before a retry (REST), or
                           after more than ten requests (tool server) *)
  recursion_error : pystr
                        (* [str(e)] of the RecursionError, should the stack of
                           the interpreter end at the retry of this attempt *)
}.

Definition oracle := nat -> attempt.

(** The oracle after its first attempt. *)
Definition rest (env : oracle) : oracle := fun k => env (S k).

Definition uniform (a b u : Q) : Q := a + (b - a) * u.

Definition choice (l : list pystr) (k : nat) : pystr :=
  nth (k mod List.length l) l [].

(** What the scraper does to the world, in order. *)
Inductive event : Type :=
| EvSleep (seconds : Q)
| EvGet (url : pystr) (user_agent : pystr).

Definition is_get (e : event) : bool :=
  match e with EvGet _ _ => true | EvSleep _ => false end.

(** Number of fetches in a trace. *)
Definition fetches (tr : list event) : nat := List.length (filter is_get tr).

Inductive session_state : Type := NoSession | SessionOpen | SessionClosed.

Definition Qlt_bool (a b : Q) : bool := negb (Qle_bool b a).

Definition USER_AGENTS : list pystr := List.map str [
  "Mozilla/5.0 (Windows NT 10.0; Win64; x64) AppleWebKit/537.36 (KHTML, like Gecko) Chrome/120.0.0.0 Safari/537.36";
  "Mozilla/5.0 (Macintosh; Intel Mac OS X 10_15_7) AppleWebKit/537.36 (KHTML, like Gecko) Chrome/120.0.0.0 Safari/537.36";
  "Mozilla/5.0 (X11; Linux x86_64) AppleWebKit/537.36 (KHTML, like Gecko) Chrome/120.0.0.0 Safari/537.36";
  "Mozilla/5.0 (Windows NT 10.0; Win64; x64; rv:121.0) Gecko/20100101 Firefox/121.0";
  "Mozilla/5.0 (Macintosh; Intel Mac OS X 10.15; rv:121.0) Gecko/20100101 Firefox/121.0";
  "Mozilla/5.0 (X11; Linux x86_64; rv:121.0) Gecko/20100101 Firefox/121.0";
  "Mozilla/5.0 (Macintosh; Intel Mac OS X 10_15_7) AppleWebKit/605.1.15 (KHTML, like Gecko) Version/17.1 Safari/605.1.15";
  "Mozilla/5.0 (Windows NT 10.0; Win64; x64) AppleWebKit/537.36 (KHTML, like Gecko) Edge/120.0.0.0 Safari/537.36"
].

Definition GOOGLE_DOMAINS : list pystr := List.map str [
  "www.google.com"; "www.google.es"; "www.google.co.uk"; "www.google.ca";
  "www.google.com.au"; "www.google.de"; "www.google.fr"
].

(** *** URL encoding *)

Inductive pyval : Type := VStr (s : pystr) | VInt (n : Z).

(** [str(v)] *)
Definition str_of (v : pyval) : pystr :=
  match v with
  | VStr s => s
  | VInt n => str (NilZero.string_of_int (Z.to_int n))
  end.

Local Open Scope N_scope.

(** The surrogates, which a [str] may hold and UTF-8 does not encode. *)
Definition is_surrogate (c : char) : bool := (55296 <=? c) && (c <=? 57343).

(** The UTF-8 bytes of a code point. *)
Definition utf8 (c : char) : list N :=
  if c <? 128 then [c]
  else if c <? 2048 then [192 + c / 64; 128 + c mod 64]
  else if c <? 65536 then [224 + c / 4096; 128 + (c / 64) mod 64; 128 + c mod 64]
  else [240 + c / 262144; 128 + (c / 4096) mod 64; 128 + (c / 64) mod 64;
        128 + c mod 64].

Definition hex_digit (d : N) : char := if d <? 10 then 48 + d else 55 + d.

(** [quote_plus(s)]: letters, digits and [_.-~] stay, a space becomes a plus
    sign, every other byte is percent-encoded. *)
Definition quote_byte (b : N) : pystr :=
  if ascii_alnum b || mem b (str "_.-~") then [b]
  else if b =? 32 then [43]
  else [37; hex_digit (b / 16); hex_digit (b mod 16)].

Definition hex_lower (d : N) : char := if d <? 10 then 48 + d else 87 + d.

(** The escape [\uXXXX] of a code point, as the message of the error shows
    it. *)
Definition escape (c : char) : pystr :=
  [92; 117; hex_lower (c / 4096); hex_lower ((c / 256) mod 16);
   hex_lower ((c / 16) mod 16); hex_lower (c mod 16)].

Local Close Scope N_scope.

(** Where the first run of surrogates of [s] starts, counted from [i], its
    first character and its length. *)
Fixpoint first_surrogates (i : nat) (s : pystr) : option (nat * char * nat) :=
  match s with
  | [] => None
  | c :: s' =>
      if is_surrogate c
      then Some (i, c, S (List.length s' - List.length (dropwhile is_surrogate s')))
      else first_surrogates (S i) s'
  end.

(** [s.encode('utf-8')], strict: the bytes, or the UnicodeEncodeError, whose
    message names the first run of surrogates. *)
Definition encode (s : pystr) : outcome (list N) :=
  match first_surrogates 0 s with
  | None => Ok (flat_map utf8 s)
  | Some (start, c, run) =>
      Raised
        (str "'utf-8' codec can't encode "
         ++ (if Nat.eqb run 1
             then str "character '" ++ escape c ++ str "' in position "
                  ++ str_of (VInt (Z.of_nat start))
             else str "characters in position " ++ str_of (VInt (Z.of_nat start))
                  ++ str "-" ++ str_of (VInt (Z.of_nat (start + run - 1))))
         ++ str ": surrogates not allowed")
  end.

(** [quote_plus(s)]: the string is encoded, which raises on a surrogate, and
    its bytes are quoted. *)
Definition quote_plus (s : pystr) : outcome pystr :=
  bytes <- encode s ;; Ok (flat_map quote_byte bytes).

(** The steps of a comprehension [[f(x) for x in l]], in order; the first
    exception ends it. *)
Fixpoint for_each {A B} (f : A -> outcome B) (l : list A) : outcome (list B) :=
  match l with
  | [] => Ok []
  | x :: l' => y <- f x ;; ys <- for_each f l' ;; Ok (y :: ys)
  end.

(** [sep.join(l)] *)
Fixpoint join (sep : pystr) (l : list pystr) : pystr :=
  match l with
  | [] => []
  | [x] => x
  | x :: l' => x ++ sep ++ join sep l'
  end.

(** A dict with string keys, in insertion order; [d[k] = v]. *)
Fixpoint dict_set {V} (d : list (string * V)) (k : string) (v : V) : list (string * V) :=
  match d with
  | [] => [(k, v)]
  | (k', v') :: d' =>
      if String.eqb k k' then (k, v) :: d' else (k', v') :: dict_set d' k v
  end.

Fixpoint dict_get {V} (d : list (string * V)) (k : string) : option V :=
  match d with
  | [] => None
  | (k', v) :: d' => if String.eqb k k' then Some v else dict_get d' k
  end.

(** One extracted result and the dict a search returns (absent keys are
    [None]). *)
Record result : Type := Result {
  title : pystr;
  url : pystr;
  snippet : pystr;
  date : pystr;
  position : nat
}.

Record response : Type := Response {
  success : bool;
  query : pystr;
  results_count : option nat;
  results : option (list result);
  timestamp : Q;
  source : option pystr;
  total_found : option nat;
  error : option pystr
}.

(* ================================================================= *)
(** ** The REST scraper: [api/google_scraper_api.py] *)

Module Api.

(** The [GoogleScraper] object. *)
Record scraper : Type := Scraper {
  session : session_state;
  last_request_time : Q;
  request_count : Z;
  rate_limit_reset : Q
}.

(** The object together with the clock it reads and the trace it leaves. *)
Record machine : Type := Machine {
  self : scraper;
  clock : Q;
  trace : list event
}.

(** [GoogleScraper()] at time [t]. *)
Definition init (t : Q) : scraper := Scraper NoSession 0 0 t.

Definition sleep (d : Q) (m : machine) : machine :=
  Machine (self m) (clock m + d) (trace m ++ [EvSleep d]).

Definition get_session (m : machine) : machine :=
  match session (self m) with
  | SessionOpen => m
  | _ =>
      let s := self m in
      Machine (Scraper SessionOpen (last_request_time s) (request_count s)
                 (rate_limit_reset s)) (clock m) (trace m)
  end.

Definition get_headers (pick : nat) : list (string * pystr) :=
  [("User-Agent", choice USER_AGENTS pick);
   ("Accept", str "text/html,application/xhtml+xml,application/xml;q=0.9,image/webp,*/*;q=0.8");
   ("Accept-Language", str "en-US,en;q=0.9,es;q=0.8");
   ("Accept-Encoding", str "gzip, deflate, br");
   ("Connection", str "keep-alive");
   ("Upgrade-Insecure-Requests", str "1");
   ("Sec-Fetch-Dest", str "document");
   ("Sec-Fetch-Mode", str "navigate");
   ("Sec-Fetch-Site", str "none");
   ("Cache-Control", str "max-age=0");
   ("DNT", str "1")].

(** *** smart_delay *)

(** The hourly reset of the counter. *)
Definition reset_if_due (s : scraper) (current_time : Q) : scraper :=
  if Qlt_bool 3600 (current_time - rate_limit_reset s)
  then Scraper (session s) (last_request_time s) 0 current_time
  else s.

(** [total_delay], from the counter (after the reset) and the draw [u]. *)
Definition total_delay (count : Z) (u : Q) : Q :=
  let base_delay := 2.0 in
  let random_delay := uniform 0.5 2.5 u in
  let base_delay :=
    if (20 <? count)%Z then base_delay + 2.0
    else if (10 <? count)%Z then base_delay + 1.0
    else base_delay in
  base_delay + random_delay.

(** The delay [smart_delay] computes in state [m]. *)
Definition computed_delay (u : Q) (m : machine) : Q :=
  total_delay (request_count (reset_if_due (self m) (clock m))) u.

Definition smart_delay (u : Q) (m : machine) : machine :=
  let current_time := clock m in
  let time_since_last := current_time - last_request_time (self m) in
  let s := reset_if_due (self m) current_time in
  let total := total_delay (request_count s) u in
  let m := Machine s (clock m) (trace m) in
  let m :=
    if Qlt_bool time_since_last total
    then sleep (total - time_since_last) m
    else m in
  Machine (Scraper (session s) (clock m) (request_count s + 1) (rate_limit_reset s))
    (clock m) (trace m).

Section Defs.
Context {U : Unicode} {B : TreeBuilder}.

(** *** clean_text *)

(** The character class of the second [re.sub]: word characters, whitespace,
    the punctuation marks, the accented letters in both cases, and the at
    sign. *)
Definition char_class (c : char) : bool :=
  is_word c || is_space c || mem c punctuation
  || mem c accents_lower || mem c accents_upper || (c =? 64)%N.

(** Under [re.IGNORECASE] the negated class matches (and [re.sub] deletes) a
    character when its lower-case form is outside the class. *)
Definition permitted (c : char) : bool := char_class (re_lower c).

Definition clean_text (text : pystr) : pystr :=
  if negb (truthy text) then []
  else
    let text := collapse_ws (strip text) in
    let text := filter permitted text in
    firstn 500 text.

(** *** extract_url *)

(** The [try] block: an index out of range raises, and the bare [except]
    answers the empty string. *)
Definition extract_url (href : pystr) : pystr :=
  if negb (truthy href) then []
  else if startswith href (str "/url?q=") then
    match nth_error (split (str "/url?q=") href) 1 with
    | Some rest =>
        match nth_error (split (str "&") rest) 0 with
        | Some url => url
        | None => []
        end
    | None => []
    end
  else if startswith href (str "http") then href
  else if startswith href (str "/search") then []
  else href.

(** *** parse_search_results *)

Definition selectors : list selector := [
  [name_attr "div" "data-ved"; by_name "h3"];
  [name_class "div" "g"; by_name "h3"];
  [name_class "div" "rc"; by_name "h3"];
  [name_attr "div" "data-hveid"; by_name "h3"];
  [by_class "g"; by_class "r"; by_name "h3"]
].

Definition snippet_selectors : list selector := [
  [name_attr "span" "data-ved"];
  [by_class "s"];
  [by_class "st"];
  [name_attr "div" "data-sncf"];
  [Compound (Some "div") [] [] [("style", str "color")]]
].

Definition date_patterns : list regex :=
  [date_day_month_year; date_slashes; date_month_day_year].

(** The first selector with any match gives the candidates. *)
Fixpoint first_matching (soup : tag) (sels : list selector) : list tag :=
  match sels with
  | [] => []
  | sel :: sels' =>
      match select soup sel with
      | [] => first_matching soup sels'
      | elements => elements
      end
  end.

(** Up to [n] levels up, stopping at a [div] with a [data-ved] or a [class]
    attribute. Above the BeautifulSoup object the parent is [None], and
    reading its name raises an AttributeError. *)
Fixpoint find_container (n : nat) (container : tag) : outcome tag :=
  match n with
  | O => Ok container
  | S n' =>
      match parent container with
      | None => Raised (str "'NoneType' object has no attribute 'name'")
      | Some container =>
          if String.eqb (name container) "div"
             && (has_attr (here container) "data-ved"
                 || has_attr (here container) "class")
          then Ok container
          else find_container n' container
      end
  end.

Fixpoint first_snippet (container : tag) (sels : list selector) : pystr :=
  match sels with
  | [] => []
  | sel :: sels' =>
      match select_one container sel with
      | Some snippet_elem =>
          if truthy (strip (get_text snippet_elem))
          then clean_text (get_text snippet_elem)
          else first_snippet container sels'
      | None => first_snippet container sels'
      end
  end.

Fixpoint first_date (container_text : pystr) (patterns : list regex) : pystr :=
  match patterns with
  | [] => []
  | pattern :: patterns' =>
      match re_search pattern container_text with
      | Some m => m
      | None => first_date container_text patterns'
      end
  end.

(** The body of the loop, inside its [try]: the list of results after the
    candidate [title_elem], or the exception. *)
Definition parse_candidate (results : list result) (title_elem : tag)
  : outcome (list result) :=
  container <- find_container 5 title_elem ;;
  let title := clean_text (get_text title_elem) in
  if negb (truthy title) then Ok results
  else
    let link_elem := find_tag container "a" (fun n => has_attr n "href") in
    let url :=
      match link_elem with
      | Some a => extract_url (or_else (get_attr (attrs_of (here a)) "href") [])
      | None => []
      end in
    let snippet := first_snippet container snippet_selectors in
    let date := first_date (get_text container) date_patterns in
    if truthy title && truthy url && startswith url (str "http")
    then Ok (results ++ [Result title url snippet date (List.length results + 1)])
    else Ok results.

(** The loop: an exception in one candidate is logged and the loop goes on. *)
Fixpoint parse_loop (results : list result) (candidates : list tag) : list result :=
  match candidates with
  | [] => results
  | title_elem :: candidates' =>
      match parse_candidate results title_elem with
      | Ok results' => parse_loop results' candidates'
      | Raised _ => parse_loop results candidates'
      end
  end.

(** The extractor on the tree, and on the markup: the tree is built outside
    the [try] of the loop, and its exception leaves the extractor. *)
Definition parse_soup (soup : tag) : list result :=
  let found_results := first_matching soup selectors in
  parse_loop [] (firstn 20 found_results).

Definition parse_search_results (html : pystr) : outcome (list result) :=
  top <- BeautifulSoup html ;;
  Ok (parse_soup (soup_of top)).

(** *** search *)

(** [**kwargs]: the optional filters, each absent, [None] or a string. *)
Definition kwargs := list (string * option pystr).

(** [k in kwargs and kwargs[k]]: the value, when there is one and it is
    truthy. *)
Definition kwarg (kw : kwargs) (k : string) : option pystr :=
  match dict_get kw k with
  | Some (Some v) => if truthy v then Some v else None
  | _ => None
  end.

Definition date_params : list (pystr * pystr) :=
  [(str "day", str "d"); (str "week", str "w");
   (str "month", str "m"); (str "year", str "y")].

Fixpoint lookup (d : list (pystr * pystr)) (k : pystr) : option pystr :=
  match d with
  | [] => None
  | (k', v) :: d' => if pystr_eqb k k' then Some v else lookup d' k
  end.

(** [params[k] += suffix] on a string entry. *)
Definition append_to (params : list (string * pyval)) (k : string) (suffix : pystr)
  : list (string * pyval) :=
  match dict_get params k with
  | Some v => dict_set params k (VStr (str_of v ++ suffix))
  | None => params
  end.

Definition build_params (query : pystr) (num_results : Z) (language : pystr)
    (safe_search : bool) (kw : kwargs) : list (string * pyval) :=
  let params :=
    [("q", VStr query);
     ("num", VInt (Z.min (num_results + 5) 50));
     ("hl", VStr language);
     ("lr", VStr (str "lang_" ++ language));
     ("safe", VStr (if safe_search then str "active" else str "off"));
     ("start", VInt 0)] in
  let params :=
    match kwarg kw "site" with
    | Some site => append_to params "q" (str " site:" ++ site)
    | None => params
    end in
  let params :=
    match kwarg kw "filetype" with
    | Some filetype => append_to params "q" (str " filetype:" ++ filetype)
    | None => params
    end in
  match kwarg kw "date_range" with
  | Some date_range =>
      match lookup date_params date_range with
      | Some token => dict_set params "tbs" (VStr (str "qdr:" ++ token))
      | None => params
      end
  | None => params
  end.

Definition query_string (params : list (string * pyval)) : outcome pystr :=
  parts <- for_each (fun '(k, v) =>
                       quoted <- quote_plus (str_of v) ;;
                       Ok (str k ++ str "=" ++ quoted)) params ;;
  Ok (join (str "&") parts).

Definition build_url (domain : pystr) (query_string : pystr) : pystr :=
  str "https://" ++ domain ++ str "/search?" ++ query_string.

(** The block test on the body. *)
Definition blocked (html : pystr) : bool :=
  contains (str "detected unusual traffic") (lower html)
  || contains (str "captcha") (lower html).

Definition failure (e : pystr) (query : pystr) (now : Q) : response :=
  Response false query None None now None None (Some e).

(** The request leaves: the exchange is logged and takes its time. *)
Definition send (url : pystr) (headers : list (string * pystr)) (a : attempt)
    (m : machine) : machine :=
  Machine (self m) (clock m + elapsed a)
    (trace m ++ [EvGet url (or_else (dict_get headers "User-Agent") [])]).

(** The retry: an extra delay, then the search again. [search] is the
    search on the rest of the oracle. *)
Definition _retry_with_different_domain
    (search : pystr -> Z -> pystr -> bool -> kwargs -> machine ->
              outcome response * machine)
    (u : Q) (query : pystr) (num_results : Z) (language : pystr)
    (safe_search : bool) (kw : kwargs) (m : machine)
  : outcome response * machine :=
  let m := sleep (uniform 3 7 u) m in
  search query num_results language safe_search kw m.

(** [search]. The recursion of the source has no bound of its own: each
    retry is a call nested in the [try] of the attempt before, and what ends
    a run of block pages is the stack of the interpreter. [stack] is the
    number of nested retries the stack has room for; at the retry that does
    not fit the interpreter raises a RecursionError, inside the [try]. The
    query string is built before the [try]: an exception of [quote_plus]
    leaves [search]. The answer is a response or a raised exception. *)
Fixpoint search (stack : nat) (env : oracle) (query : pystr) (num_results : Z)
    (language : pystr) (safe_search : bool) (kw : kwargs) (m : machine)
  : outcome response * machine :=
  let a := env O in
  let m := smart_delay (u_delay a) m in
  let m := get_session m in
  let domain := choice GOOGLE_DOMAINS (pick_domain a) in
  let params := build_params query num_results language safe_search kw in
  match query_string params with
  | Raised e => (Raised e, m)
  | Ok query_string =>
      let url := build_url domain query_string in
      (* try: *)
      let body : outcome response * machine :=
        let headers := get_headers (pick_agent a) in
        let m := send url headers a m in
        match exchange a with
        | Raised e => (Raised e, m)
        | Ok (status, text) =>
            if (status =? 200)%Z then
              match text with
              | Raised e => (Raised e, m)
              | Ok html =>
                  if blocked html then
                    match stack with
                    | O => (Raised (recursion_error a), m)
                    | S stack' =>
                        _retry_with_different_domain
                          (search stack' (rest env))
                          (u_extra a) query num_results language safe_search kw m
                    end
                  else
                    match parse_search_results html with
                    | Raised e => (Raised e, m)
                    | Ok results =>
                        (Ok (Response true query (Some (List.length results))
                               (Some (slice_to results num_results))
                               (clock m) (Some domain)
                               (Some (List.length results)) None), m)
                    end
              end
            else
              (Ok (failure (str "HTTP " ++ str_of (VInt status)) query (clock m)), m)
        end in
      (* except Exception as e: *)
      match body with
      | (Ok r, m) => (Ok r, m)
      | (Raised e, m) => (Ok (failure e query (clock m)), m)
      end
  end.

End Defs.
End Api.

(* ================================================================= *)
(** ** The tool-server scraper: [mcp/google_scraper_mcp.py] *)

Module Mcp.

Record scraper : Type := Scraper {
  session : session_state;
  last_request_time : Q;
  request_count : Z
}.

Record machine : Type := Machine {
  self : scraper;
  clock : Q;
  trace : list event
}.

Definition init : scraper := Scraper NoSession 0 0.

Definition sleep (d : Q) (m : machine) : machine :=
  Machine (self m) (clock m + d) (trace m ++ [EvSleep d]).

Definition get_session (m : machine) : machine :=
  match session (self m) with
  | SessionOpen => m
  | _ =>
      let s := self m in
      Machine (Scraper SessionOpen (last_request_time s) (request_count s))
        (clock m) (trace m)
  end.

Definition get_headers (pick : nat) : list (string * pystr) :=
  [("User-Agent", choice USER_AGENTS pick);
   ("Accept", str "text/html,application/xhtml+xml,application/xml;q=0.9,image/webp,*/*;q=0.8");
   ("Accept-Language", str "en-US,en;q=0.5");
   ("Accept-Encoding", str "gzip, deflate");
   ("Connection", str "keep-alive");
   ("Upgrade-Insecure-Requests", str "1");
   ("Sec-Fetch-Dest", str "document");
   ("Sec-Fetch-Mode", str "navigate");
   ("Sec-Fetch-Site", str "none");
   ("Cache-Control", str "max-age=0")].

(** *** delay_request *)

Definition min_delay (count : Z) (u1 u2 : Q) : Q :=
  let min_delay := 1.5 + uniform 0.5 2.0 u1 in
  if (10 <? count)%Z then min_delay + uniform 1.0 3.0 u2 else min_delay.

Definition delay_request (u1 u2 : Q) (m : machine) : machine :=
  let current_time := clock m in
  let s := self m in
  let time_since_last := current_time - last_request_time s in
  let min_delay := min_delay (request_count s) u1 u2 in
  let m :=
    if Qlt_bool time_since_last min_delay
    then sleep (min_delay - time_since_last) m
    else m in
  Machine (Scraper (session s) (clock m) (request_count s + 1)) (clock m) (trace m).

Section Defs.
Context {U : Unicode} {B : TreeBuilder}.

(** *** clean_text *)

(** The character class of the second [re.sub]: as in the REST copy, without
    the upper-case accented letters and without the at sign. *)
Definition char_class (c : char) : bool :=
  is_word c || is_space c || mem c punctuation || mem c accents_lower.

Definition permitted (c : char) : bool := char_class (re_lower c).

Definition clean_text (text : pystr) : pystr :=
  if negb (truthy text) then []
  else
    let text := collapse_ws (strip text) in
    let text := filter permitted text in
    text.

(** *** parse_search_results *)

(** The unwrapping of the link, written in line in the loop; an index out of
    range raises an IndexError. *)
Definition link_url (href : pystr) : outcome pystr :=
  if startswith href (str "/url?q=") then
    match nth_error (split (str "/url?q=") href) 1 with
    | Some rest =>
        match nth_error (split (str "&") rest) 0 with
        | Some url => Ok url
        | None => Raised (str "list index out of range")
        end
    | None => Raised (str "list index out of range")
    end
  else if startswith href (str "http") then Ok href
  else Ok [].

Definition with_data_ved (n : node) : bool := has_attr n "data-ved".
Definition with_class (c : string) (n : node) : bool := has_class n (str c).

(** A [span] whose single string holds a date. *)
Definition holds_date (n : node) : bool :=
  match string_of n with
  | Some s => match re_search date_day_month_year s with
              | Some _ => true
              | None => false
              end
  | None => false
  end.

Definition parse_candidate (results : list result) (container : tag)
  : outcome (list result) :=
  let title_elem :=
    por (find_tag container "h3" any_node) (find_tag container "a" with_data_ved) in
  let title :=
    match title_elem with
    | Some t => clean_text (get_text t)
    | None => []
    end in
  let link_elem := find_tag container "a" (fun n => has_attr n "href") in
  url <- match link_elem with
         | Some a =>
             match get_attr (attrs_of (here a)) "href" with
             | Some href => if truthy href then link_url href else Ok []
             | None => Ok []
             end
         | None => Ok []
         end ;;
  let snippet_elem :=
    por (find_tag container "span" with_data_ved)
        (find_tag container "div" (with_class "s")) in
  let snippet_elem :=
    match snippet_elem with
    | Some _ => snippet_elem
    | None =>
        match find_all container "div" any_node with
        | [] => None
        | divs => Some (last divs container)
        end
    end in
  let snippet :=
    match snippet_elem with
    | Some t => clean_text (get_text t)
    | None => []
    end in
  let date_elem := find_tag container "span" holds_date in
  let date :=
    match date_elem with
    | Some t => get_text t
    | None => []
    end in
  if truthy title && truthy url
  then Ok (results ++ [Result title url snippet date (List.length results + 1)])
  else Ok results.

Fixpoint parse_loop (results : list result) (containers : list tag) : list result :=
  match containers with
  | [] => results
  | container :: containers' =>
      match parse_candidate results container with
      | Ok results' => parse_loop results' containers'
      | Raised _ => parse_loop results containers'
      end
  end.

Definition parse_soup (soup : tag) : list result :=
  let result_containers :=
    match find_all soup "div" (with_class "g") with
    | [] => find_all soup "div" with_data_ved
    | found => found
    end in
  parse_loop [] (firstn 15 result_containers).

Definition parse_search_results (html : pystr) : outcome (list result) :=
  top <- BeautifulSoup html ;;
  Ok (parse_soup (soup_of top)).

(** *** search *)

Definition build_params (query : pystr) (num_results : Z) (lang : pystr)
  : list (string * pyval) :=
  [("q", VStr query);
   ("num", VInt (Z.min num_results 20));
   ("hl", VStr lang);
   ("lr", VStr (str "lang_" ++ lang));
   ("safe", VStr (str "off"))].

Definition query_string (params : list (string * pyval)) : outcome pystr :=
  parts <- for_each (fun '(k, v) =>
                       quoted <- quote_plus (str_of v) ;;
                       Ok (str k ++ str "=" ++ quoted)) params ;;
  Ok (join (str "&") parts).

Definition build_url (domain : pystr) (query_string : pystr) : pystr :=
  str "https://" ++ domain ++ str "/search?" ++ query_string.

Definition failure (e : pystr) (query : pystr) (now : Q) : response :=
  Response false query None None now None None (Some e).

Definition send (url : pystr) (headers : list (string * pystr)) (a : attempt)
    (m : machine) : machine :=
  Machine (self m) (clock m + elapsed a)
    (trace m ++ [EvGet url (or_else (dict_get headers "User-Agent") [])]).

(** [search]: one attempt, no block test and no retry. The query string is
    built before the [try]: an exception of [quote_plus] leaves [search]. *)
Definition search (a : attempt) (query : pystr) (num_results : Z) (lang : pystr)
    (m : machine) : outcome response * machine :=
  let m := delay_request (u_delay a) (u_extra a) m in
  let m := get_session m in
  let domain := choice GOOGLE_DOMAINS (pick_domain a) in
  let params := build_params query num_results lang in
  match query_string params with
  | Raised e => (Raised e, m)
  | Ok query_string =>
      let url := build_url domain query_string in
      (* try: *)
      let body : outcome response * machine :=
        let headers := get_headers (pick_agent a) in
        let m := send url headers a m in
        match exchange a with
        | Raised e => (Raised e, m)
        | Ok (status, text) =>
            if (status =? 200)%Z then
              match text with
              | Raised e => (Raised e, m)
              | Ok html =>
                  match parse_search_results html with
                  | Raised e => (Raised e, m)
                  | Ok results =>
                      (Ok (Response true query (Some (List.length results))
                             (Some (slice_to results num_results))
                             (clock m) (Some domain) None None), m)
                  end
              end
            else
              (Ok (failure (str "HTTP " ++ str_of (VInt status)) query (clock m)), m)
        end in
      (* except Exception as e: *)
      match body with
      | (Ok r, m) => (Ok r, m)
      | (Raised e, m) => (Ok (failure e query (clock m)), m)
      end
  end.

(** The query the [google_search_advanced] tool builds before it calls
    [search]; its [date_range] argument is read and not used. *)
Definition advanced_query (query site filetype date_range : pystr) : pystr :=
  let advanced_query := query in
  let advanced_query :=
    if truthy site then advanced_query ++ str " site:" ++ site else advanced_query in
  let advanced_query :=
    if truthy filetype then advanced_query ++ str " filetype:" ++ filetype
    else advanced_query in
  advanced_query.

End Defs.
End Mcp.

(** A table set that knows nothing beyond ASCII, and a tree builder that
    keeps the markup as one string; for evaluating examples. *)
Definition ascii_tables : Unicode :=
  {| uni_alnum := fun _ => false;
     uni_decimal := fun _ => false;
     uni_tolower := fun c => c;
     uni_lower := fun c => [c] |}.

Definition plain_text : TreeBuilder :=
  {| BeautifulSoup := fun s => Ok [Text NavigableString s] |}.

(* ================================================================= *)
(** ** The REST application around the scraper: the endpoints of
    [api/google_scraper_api.py] *)

(** What pydantic brings: the message of the ValidationError for a list of
    missing fields. *)
Class Pydantic := { validation_error : list string -> pystr }.

Module Rest.

(** [GoogleScraper.close]: an open session is closed. *)
Definition close (m : Api.machine) : Api.machine :=
  match Api.session (Api.self m) with
  | SessionOpen =>
      let s := Api.self m in
      Api.Machine
        (Api.Scraper SessionClosed (Api.last_request_time s) (Api.request_count s)
           (Api.rate_limit_reset s))
        (Api.clock m) (Api.trace m)
  | _ => m
  end.

(** The model [SearchResponse]: all its fields but [error] are required. *)
Record SearchResponse : Type := Validated {
  v_success : bool;
  v_query : pystr;
  v_results_count : nat;
  v_results : list result;
  v_timestamp : Q;
  v_source : pystr;
  v_error : option pystr
}.

(** What an endpoint answers: the validated model, an HTTPException, or the
    rejection of the request by the declared bounds of its parameters. *)
Inductive http_reply : Type :=
| Reply (body : SearchResponse)
| HTTPException (status_code : Z) (detail : pystr)
| Unprocessable.

Section Defs.
Context {U : Unicode} {B : TreeBuilder} {P : Pydantic}.

Definition missing {A} (k : string) (o : option A) : list string :=
  match o with Some _ => [] | None => [k] end.

(** The model built from the dict of a search: the keys the model does not
    declare are ignored, a missing required key raises. *)
Definition validate (d : response) : outcome SearchResponse :=
  match results_count d, results d, source d with
  | Some n, Some rs, Some src =>
      Ok (Validated (success d) (query d) n rs (timestamp d) src (error d))
  | _, _, _ =>
      Raised (validation_error
                (missing "results_count" (results_count d)
                 ++ missing "results" (results d)
                 ++ missing "source" (source d)))
  end.

(** The body shared by the four search endpoints: the search, then the model;
    any exception becomes an HTTPException with status 500. *)
Definition answer (run : outcome response * Api.machine)
  : http_reply * Api.machine :=
  let (o, m) := run in
  match (result <- o ;; validate result) with
  | Ok body => (Reply body, m)
  | Raised e => (HTTPException 500 e, m)
  end.

(** The bounds declared for the count: [ge=1, le=50]. *)
Definition count_in_bounds (num : Z) : bool := (1 <=? num)%Z && (num <=? 50)%Z.

(** [GET /search] *)
Definition search_google (stack : nat) (env : oracle) (q : pystr) (num : Z)
    (lang : pystr) (safe : bool) (m : Api.machine)
  : http_reply * Api.machine :=
  if count_in_bounds num
  then answer (Api.search stack env q num lang safe [] m)
  else (Unprocessable, m).

(** [AdvancedSearchRequest] *)
Record AdvancedSearchRequest : Type := Request {
  req_query : pystr;
  req_site : option pystr;
  req_filetype : option pystr;
  req_date_range : option pystr;
  req_language : pystr;
  req_num_results : Z;
  req_safe_search : bool
}.

(** [POST /search/advanced] *)
Definition advanced_search (stack : nat) (env : oracle) (request : AdvancedSearchRequest)
    (m : Api.machine) : http_reply * Api.machine :=
  if count_in_bounds (req_num_results request)
  then answer (Api.search stack env (req_query request) (req_num_results request)
                 (req_language request) (req_safe_search request)
                 [("site", req_site request);
                  ("filetype", req_filetype request);
                  ("date_range", req_date_range request)] m)
  else (Unprocessable, m).

(** [GET /search/site/{site_domain}] *)
Definition search_in_site (stack : nat) (env : oracle) (site_domain q : pystr)
    (num : Z) (lang : pystr) (m : Api.machine)
  : http_reply * Api.machine :=
  if count_in_bounds num
  then answer (Api.search stack env q num lang false [("site", Some site_domain)] m)
  else (Unprocessable, m).

(** [GET /search/filetype/{file_type}] *)
Definition search_filetype (stack : nat) (env : oracle) (file_type q : pystr)
    (num : Z) (lang : pystr) (m : Api.machine)
  : http_reply * Api.machine :=
  if count_in_bounds num
  then answer (Api.search stack env q num lang false [("filetype", Some file_type)] m)
  else (Unprocessable, m).

End Defs.

(** [POST /reset]: the session is closed and forgotten, the counter is set to
    zero and the reset timestamp to now. *)
Definition reset_scraper (m : Api.machine) : Api.machine :=
  let m := close m in
  let s := Api.self m in
  Api.Machine (Api.Scraper NoSession (Api.last_request_time s) 0 (Api.clock m))
    (Api.clock m) (Api.trace m).

(** [GET /stats], the timestamps as clock readings. *)
Record stats : Type := Stats {
  total_requests : Z;
  last_request : option Q;
  stats_rate_limit_reset : Q;
  session_active : bool;
  available_domains : nat;
  user_agents : nat
}.

Definition get_stats (m : Api.machine) : stats :=
  let s := Api.self m in
  Stats (Api.request_count s)
    (if Qlt_bool 0 (Api.last_request_time s) then Some (Api.last_request_time s)
     else None)
    (Api.rate_limit_reset s)
    (match Api.session s with SessionOpen => true | _ => false end)
    (List.length GOOGLE_DOMAINS) (List.length USER_AGENTS).

End Rest.

(* ================================================================= *)
(** ** The tool handler of [mcp/google_scraper_mcp.py] *)

Module Tools.

(** [GoogleScraper.close] *)
Definition close (m : Mcp.machine) : Mcp.machine :=
  match Mcp.session (Mcp.self m) with
  | SessionOpen =>
      let s := Mcp.self m in
      Mcp.Machine
        (Mcp.Scraper SessionClosed (Mcp.last_request_time s) (Mcp.request_count s))
        (Mcp.clock m) (Mcp.trace m)
  | _ => m
  end.

(** The arguments of a tool call, as the input schemas declare them; an
    absent key is [None]. *)
Record arguments : Type := Arguments {
  arg_query : option pystr;
  arg_num_results : option Z;
  arg_language : option pystr;
  arg_site : option pystr;
  arg_filetype : option pystr;
  arg_date_range : option pystr
}.

(** The dict a tool call serialises with [json.dumps] into its one text
    content. *)
Inductive payload : Type :=
| ErrorPayload (error : pystr)
| ResultPayload (result : response).

Section Defs.
Context {U : Unicode} {B : TreeBuilder}.

Definition handle_call_tool (tool : pystr) (args : arguments) (a : attempt)
    (m : Mcp.machine) : outcome payload * Mcp.machine :=
  if pystr_eqb tool (str "google_search") then
    let query := or_else (arg_query args) [] in
    let num_results := or_else (arg_num_results args) 10%Z in
    let language := or_else (arg_language args) (str "es") in
    if negb (truthy query)
    then (Ok (ErrorPayload (str "Query parameter is required")), m)
    else
      match Mcp.search a query num_results language m with
      | (Ok result, m) => (Ok (ResultPayload result), m)
      | (Raised e, m) => (Raised e, m)
      end
  else if pystr_eqb tool (str "google_search_advanced") then
    let query := or_else (arg_query args) [] in
    let site := or_else (arg_site args) [] in
    let filetype := or_else (arg_filetype args) [] in
    let date_range := or_else (arg_date_range args) [] in
    let num_results := or_else (arg_num_results args) 10%Z in
    if negb (truthy query)
    then (Ok (ErrorPayload (str "Query parameter is required")), m)
    else
      let advanced_query := Mcp.advanced_query query site filetype date_range in
      match Mcp.search a advanced_query num_results (str "es") m with
      | (Ok result, m) => (Ok (ResultPayload result), m)
      | (Raised e, m) => (Raised e, m)
      end
  else (Ok (ErrorPayload (str "Unknown tool: " ++ tool)), m).

End Defs.
End Tools.

(* ================================================================= *)
(** ** Predicates of the statements *)

(** A text is tidy when it neither starts nor ends with whitespace and holds
    no two whitespace characters in a row. *)
Definition starts_clean (s : pystr) : bool :=
  match s with [] => true | c :: _ => negb (is_space c) end.

Fixpoint single_spaced (s : pystr) : bool :=
  match s with
  | a :: (b :: _) as t => negb (is_space a && is_space b) && single_spaced t
  | _ => true
  end.

Definition tidy (s : pystr) : bool :=
  starts_clean s && starts_clean (rev s) && single_spaced s.

(** The pacing delay in the words of the specification: base 2.0 s plus the
    jitter, plus 2.0 s above 20 requests, else plus 1.0 s above 10. *)
Definition pacing_delay (count : Z) (jitter : Q) : Q :=
  2.0 + jitter
  + (if (20 <? count)%Z then 2.0 else if (10 <? count)%Z then 1.0 else 0).

(** Positions 1, 2, ... in order. *)
Definition numbered (rs : list result) : Prop :=
  List.map position rs = seq 1 (List.length rs).

(** What the REST extractor checks before it accepts a record, and what the
    tool-server copy checks. *)
Definition accepted (r : result) : Prop :=
  truthy (title r) = true /\ truthy (url r) = true
  /\ startswith (url r) (str "http") = true.

Definition accepted_mcp (r : result) : Prop :=
  truthy (title r) = true /\ truthy (url r) = true.

(** A result block of a page: a [div] of class [g] with a linked title and a
    snippet; the same block without its link; a result block marked by
    [data-hveid] and a class; a block that has neither link nor a container
    the extractor recognises. *)
Definition block (ttl href snip : string) : node :=
  Elem "div" [("class", str "g")]
    [Elem "a" [("href", str href)] [Elem "h3" [] [Text NavigableString (str ttl)]];
     Elem "span" [("class", str "st")] [Text NavigableString (str snip)]].

Definition block_without_link (ttl snip : string) : node :=
  Elem "div" [("class", str "g")]
    [Elem "h3" [] [Text NavigableString (str ttl)];
     Elem "span" [("class", str "st")] [Text NavigableString (str snip)]].

Definition marked_block (ttl href : string) : node :=
  Elem "div" [("data-hveid", str "CAA"); ("class", str "x")]
    [Elem "a" [("href", str href)] [Elem "h3" [] [Text NavigableString (str ttl)]]].

Definition bare_block (ttl : string) : node :=
  Elem "div" [("data-hveid", str "CAB")] [Elem "h3" [] [Text NavigableString (str ttl)]].

(** Three well-formed blocks and a malformed one, the third of four. *)
Definition page_missing_link : tag :=
  soup_of
    [Elem "html" []
       [Elem "body" []
          [block "First result" "/url?q=https://one.example/a&sa=U" "about one";
           block "Second result" "https://two.example/" "about two";
           block_without_link "No link here" "nothing";
           block "Third result" "/url?q=http://three.example/c&ved=2" "about three"]]].

(** The same with a block whose extraction raises. *)
Definition page_faulty_block : tag :=
  soup_of
    [marked_block "First result" "/url?q=https://one.example/a&sa=U";
     marked_block "Second result" "https://two.example/";
     bare_block "Broken";
     marked_block "Third result" "/url?q=http://three.example/c&ved=2"].

(** A result whose link is wrapped around something that is no web address,
    and one wrapped around an internal link. *)
Definition page_odd_scheme : tag :=
  soup_of [block "Odd" "/url?q=httpx://example.org/&sa=U" "odd"].

Definition page_internal_link : tag :=
  soup_of [block "More results" "/url?q=/search?q=x&sa=U" "more"].

(** The records of the candidates that give one, in order, numbered from
    [n]. *)
Fixpoint numbered_from (n : nat) (rs : list (option result)) : list result :=
  match rs with
  | [] => []
  | None :: rs' => numbered_from n rs'
  | Some r :: rs' =>
      Result (title r) (url r) (snippet r) (date r) n :: numbered_from (S n) rs'
  end.

(** What a loop makes of one candidate taken alone: its record, or nothing
    when its extraction raises or one of the tests fails. *)
Definition alone (o : outcome (list result)) : option result :=
  match o with
  | Ok [r] => Some r
  | _ => None
  end.

(** What the statements read of a record. *)
Definition summary (r : result) : nat * pystr * pystr :=
  (position r, title r, url r).

Definition three_results : list (nat * pystr * pystr) :=
  [(1%nat, str "First result", str "https://one.example/a");
   (2%nat, str "Second result", str "https://two.example/");
   (3%nat, str "Third result", str "http://three.example/c")].

(** The requests of a trace, in order. *)
Definition requests (tr : list event) : list event := filter is_get tr.

Section SearchPredicates.
Context {U : Unicode}.

(** The candidates of the two extractors in a tree: the title elements of
    the first selector that matches, the first twenty; the containers, the
    first fifteen. *)
Definition api_candidates (soup : tag) : list tag :=
  firstn 20 (Api.first_matching soup Api.selectors).

Definition mcp_candidates (soup : tag) : list tag :=
  firstn 15 (match find_all soup "div" (Mcp.with_class "g") with
             | [] => find_all soup "div" Mcp.with_data_ved
             | found => found
             end).

Definition api_record (title_elem : tag) : option result :=
  alone (Api.parse_candidate [] title_elem).

Definition mcp_record (container : tag) : option result :=
  alone (Mcp.parse_candidate [] container).

(** The reply of an attempt is a block page: status 200 and a body with a
    block phrase. *)
Definition blocked_reply (a : attempt) : bool :=
  match exchange a with
  | Ok (status, Ok html) => (status =? 200)%Z && Api.blocked html
  | _ => false
  end.

(** The request an attempt of the REST search sends with the query string
    [qs], and the machine once the attempt has paced, opened its session and
    sent it. *)
Definition request_of (a : attempt) (qs : pystr) : event :=
  EvGet (Api.build_url (choice GOOGLE_DOMAINS (pick_domain a)) qs)
    (choice USER_AGENTS (pick_agent a)).

Definition after_fetch (a : attempt) (qs : pystr) (m : Api.machine) : Api.machine :=
  Api.send (Api.build_url (choice GOOGLE_DOMAINS (pick_domain a)) qs)
    (Api.get_headers (pick_agent a)) a
    (Api.get_session (Api.smart_delay (u_delay a) m)).

(** The response to a page that is not blocked, from the records extracted
    from it. *)
Definition page_response (a : attempt) (query : pystr) (num_results : Z)
    (results : list result) (now : Q) : response :=
  Response true query (Some (List.length results))
    (Some (slice_to results num_results)) now
    (Some (choice GOOGLE_DOMAINS (pick_domain a)))
    (Some (List.length results)) None.

(** The answer to a reply that ends the search with the attempt that got it,
    at machine [m1]; [None] for a block page. *)
Definition final_answer {B : TreeBuilder} (query : pystr) (num_results : Z)
    (a : attempt) (m1 : Api.machine) : option response :=
  match exchange a with
  | Raised e => Some (Api.failure e query (Api.clock m1))
  | Ok (status, text) =>
      if (status =? 200)%Z then
        match text with
        | Raised e => Some (Api.failure e query (Api.clock m1))
        | Ok html =>
            if Api.blocked html then None
            else
              match Api.parse_search_results html with
              | Ok results =>
                  Some (page_response a query num_results results (Api.clock m1))
              | Raised e => Some (Api.failure e query (Api.clock m1))
              end
        end
      else Some (Api.failure (str "HTTP " ++ str_of (VInt status)) query
                   (Api.clock m1))
  end.

(** The machine after the first [k] attempts of an oracle, each followed by
    the extra delay of a retry. *)
Fixpoint after_blocks (k : nat) (env : oracle) (qs : pystr) (m : Api.machine)
  : Api.machine :=
  match k with
  | O => m
  | S k' =>
      after_blocks k' (rest env) qs
        (Api.sleep (uniform 3 7 (u_extra (env O))) (after_fetch (env O) qs m))
  end.

(** What a response must satisfy for a requested count [n]. *)
Definition well_formed (n : Z) (r : response) : Prop :=
  (success r = false -> results r = None /\ or_else (results r) [] = [])
  /\ (success r = true ->
      exists rs, results r = Some rs
                 /\ (Z.of_nat (List.length rs) <= n)%Z /\ numbered rs).

End SearchPredicates.

(** The oracle from its [k]-th attempt on. *)
Definition from (k : nat) (env : oracle) : oracle := fun i => env (k + i)%nat.

(** The message of the RecursionError in the examples. *)
Definition RecursionError : pystr := str "maximum recursion depth exceeded".

(** An oracle whose every reply is a block page, and one whose first [k]
    replies are, the next being an empty page. *)
Definition block_page : attempt :=
  Attempt (1 # 2) 0 0 (Ok (200%Z, Ok (str "Our systems have detected unusual traffic")))
    1 (1 # 2) RecursionError.

Definition empty_page : attempt :=
  Attempt (1 # 2) 1 1 (Ok (200%Z, Ok [])) 1 (1 # 2) RecursionError.

Definition always_blocked : oracle := fun _ => block_page.

Definition blocked_times (k : nat) : oracle :=
  fun i => if Nat.ltb i k then block_page else empty_page.

(** The scraper just created, at time 1000. *)
Definition fresh : Api.machine := Api.Machine (Api.init 1000) 1000 [].

(** From [s] to [s']: [n] requests were counted, unless the hourly reset
    fired, which moves the reset timestamp forward. *)
Definition counted (n : Z) (s s' : Api.scraper) : Prop :=
  Api.rate_limit_reset s <= Api.rate_limit_reset s'
  /\ (Api.rate_limit_reset s' == Api.rate_limit_reset s ->
      Api.request_count s' = (Api.request_count s + n)%Z).

(** A filter as a modifier of the search term. *)
Definition modifier (label : string) (filter : option pystr) : pystr :=
  match filter with
  | Some v => str " " ++ str label ++ str ":" ++ v
  | None => []
  end.

(** The recency token of a date range. *)
Definition recency_token (date_range : option pystr) : option pystr :=
  match date_range with
  | Some d =>
      if pystr_eqb d (str "day") then Some (str "d")
      else if pystr_eqb d (str "week") then Some (str "w")
      else if pystr_eqb d (str "month") then Some (str "m")
      else if pystr_eqb d (str "year") then Some (str "y")
      else None
  | None => None
  end.

(** Replies that end a search: a transport fault, a status other than 200. *)
Definition timed_out : attempt :=
  Attempt (1 # 2) 0 0 (Raised (str "Connection timeout to host")) 30 (1 # 2)
    RecursionError.

Definition unavailable : attempt :=
  Attempt (1 # 2) 0 0 (Ok (503%Z, Ok (str "Service Unavailable"))) 1 (1 # 2)
    RecursionError.

(** A tree builder that answers the page with the three results, whatever
    the markup. *)
Definition canned_page : TreeBuilder :=
  {| BeautifulSoup := fun _ => Ok (children_of (here page_missing_link)) |}.

(** A tree builder that rejects, as [html.parser] does, a marked section
    that is left open, and keeps any other markup as one string; its message
    is abridged. *)
Definition strict_parser : TreeBuilder :=
  {| BeautifulSoup := fun s =>
       if startswith s (str "<![")
       then Raised (str "The markup you provided was rejected by the parser.")
       else Ok [Text NavigableString s] |}.

(** A string that UTF-8 encodes: it holds no surrogate. *)
Definition encodable (s : pystr) : bool :=
  forallb (fun c => negb (is_surrogate c)) s.

(** What the REST search encodes of its arguments: the term, the language
    and the filters in use. *)
Definition api_encodable (query language : pystr) (kw : Api.kwargs) : bool :=
  encodable query && encodable language
  && encodable (or_else (Api.kwarg kw "site") [])
  && encodable (or_else (Api.kwarg kw "filetype") []).

(** The machine of the tool-server search once it has paced, opened its
    session and sent its request with the query string [qs]. *)
Definition mcp_after_fetch (a : attempt) (qs : pystr) (m : Mcp.machine)
  : Mcp.machine :=
  Mcp.send (Mcp.build_url (choice GOOGLE_DOMAINS (pick_domain a)) qs)
    (Mcp.get_headers (pick_agent a)) a
    (Mcp.get_session (Mcp.delay_request (u_delay a) (u_extra a) m)).

(** A pair of a query string, its value quoted byte by byte. *)
Definition quoted_pair (p : string * pyval) : pystr :=
  str (fst p) ++ str "=" ++ flat_map quote_byte (flat_map utf8 (str_of (snd p))).

(** The characters that delimit the parts of a URL and of its query. *)
Definition url_delimiter (c : N) : bool := mem c (str "&=?#/ ").

(** How often a character occurs in a string. *)
Definition occurrences (c : N) (s : pystr) : nat := count_occ N.eq_dec s c.

(** [a] is [b] with some elements left out, the order kept. *)
Inductive subseq {A : Type} : list A -> list A -> Prop :=
| subseq_nil : subseq [] []
| subseq_skip (x : A) (a b : list A) : subseq a b -> subseq a (x :: b)
| subseq_keep (x : A) (a b : list A) : subseq a b -> subseq (x :: a) (x :: b).

(** The elements at which the search for the container of a title stops: a
    [div] with a [data-ved] or a [class] attribute. *)
Definition marked_div (n : node) : bool :=
  String.eqb (name (Tag n [])) "div" && (has_attr n "data-ved" || has_attr n "class").

(** What the REST extractor guarantees of the titles and snippets. *)
Definition capped {U : Unicode} (r : result) : Prop :=
  (List.length (title r) <= 500)%nat /\ (List.length (snippet r) <= 500)%nat
  /\ forallb Api.permitted (title r) = true
  /\ forallb Api.permitted (snippet r) = true.

(** What a search endpoint may answer to a requested count [num], from
    machine [m] to machine [m'], [built] being the query string of the search
    or the exception of its encoding: the rejection of a count out of
    bounds, nothing being done; a model whose success flag is set, with
    numbered results, no more than requested, than 20 and than counted; the
    status 500 with the message of the validation, after at least one
    request; or the status 500 with the message of the encoding, no request
    being sent. *)
Definition endpoint_reply {P : Pydantic} (num : Z) (built : outcome pystr)
    (m m' : Api.machine) (reply : Rest.http_reply) : Prop :=
  match reply with
  | Rest.Unprocessable => Rest.count_in_bounds num = false /\ m' = m
  | Rest.Reply body =>
      Rest.count_in_bounds num = true
      /\ (exists qs, built = Ok qs)
      /\ Rest.v_success body = true /\ Rest.v_error body = None
      /\ numbered (Rest.v_results body)
      /\ (Z.of_nat (List.length (Rest.v_results body)) <= Z.min num 20)%Z
      /\ (List.length (Rest.v_results body) <= Rest.v_results_count body)%nat
  | Rest.HTTPException status_code detail =>
      Rest.count_in_bounds num = true
      /\ status_code = 500%Z
      /\ ((exists qs, built = Ok qs)
          /\ detail = validation_error ["results_count"; "results"; "source"]
          /\ (fetches (Api.trace m) < fetches (Api.trace m'))%nat
          \/ built = Raised detail
             /\ fetches (Api.trace m') = fetches (Api.trace m))
  end.

(** The arguments of a tool call with another date range. *)
Definition with_date_range (d : option pystr) (args : Tools.arguments)
  : Tools.arguments :=
  Tools.Arguments (Tools.arg_query args) (Tools.arg_num_results args)
    (Tools.arg_language args) (Tools.arg_site args) (Tools.arg_filetype args) d.

(** A pydantic whose messages list the missing fields; for evaluating
    examples. *)
Definition plain_messages : Pydantic :=
  {| validation_error := fun fields =>
       str "validation errors for SearchResponse: "
       ++ join (str ", ") (List.map str fields) |}.

(** The least number of characters a pattern matches. *)
Definition least (r : regex) : nat := list_sum (List.map p_min r).

(* ================================================================= *)
(** * Properties *)

(** ** Strings *)

Lemma startswith_app (p s : pystr) : startswith (p ++ s) p = true.
Proof.
  induction p as [|c p IH]; simpl; [reflexivity|].
  now rewrite N.eqb_refl.
Qed.

Lemma startswith_inv (s p : pystr) :
  startswith s p = true -> exists t, s = p ++ t.
Proof.
  revert s; induction p as [|b p IH]; intros s H.
  - now exists s.
  - destruct s as [|a s]; simpl in H; [discriminate|].
    apply andb_true_iff in H as [Hab Hs].
    apply N.eqb_eq in Hab; subst b.
    destruct (IH _ Hs) as [t ->]. now exists t.
Qed.

Lemma find_bound (sub s : pystr) (i : nat) :
  find sub s = Some i -> (i <= List.length s)%nat.
Proof.
  revert i; induction s as [|c s IH]; intros i; simpl.
  - destruct (startswith [] sub); intros [= <-]; lia.
  - destruct (startswith (c :: s) sub); [intros [= <-]; lia|].
    destruct (find sub s) as [j|]; simpl; [|discriminate].
    intros [= <-]. specialize (IH j eq_refl). lia.
Qed.

(** The first piece of a split is what comes before the first occurrence of
    the separator. *)
Lemma split_first (sep s : pystr) :
  nth_error (split sep s) 0 =
  Some (match find sep s with Some i => firstn i s | None => s end).
Proof.
  unfold split; simpl. now destruct (find sep s).
Qed.

(** After a leading separator, the second piece is the first piece of what
    follows. *)
Lemma split_second (sep s : pystr) :
  sep <> [] ->
  nth_error (split sep (sep ++ s)) 1 =
  Some (match find sep s with Some i => firstn i s | None => s end).
Proof.
  intros Hsep. unfold split.
  assert (Hf : find sep (sep ++ s) = Some 0%nat).
  { destruct sep as [|c sep]; [contradiction|].
    change (find (c :: sep) ((c :: sep) ++ s))
      with (if startswith ((c :: sep) ++ s) (c :: sep) then Some 0%nat
            else option_map S (find (c :: sep) (sep ++ s))).
    now rewrite startswith_app. }
  cbn [split_fuel]. rewrite Hf. cbn [Nat.add nth_error].
  rewrite skipn_app, Nat.sub_diag, skipn_all. cbn [app skipn].
  destruct sep as [|c sep]; [contradiction|].
  rewrite length_app. cbn [List.length Nat.add split_fuel].
  now destruct (find (c :: sep) s).
Qed.

(** A single character is found where the characters before it differ. *)
Lemma find_char (c : char) (a b : pystr) :
  ~ In c a -> find [c] (a ++ c :: b) = Some (List.length a).
Proof.
  induction a as [|x a IH]; intros Hn.
  - simpl. now rewrite N.eqb_refl.
  - cbn [app find startswith].
    destruct (N.eqb_spec x c) as [->|Hx]; [exfalso; apply Hn; now left|].
    cbn [andb]. rewrite IH; [reflexivity|]. intros Hi; apply Hn; now right.
Qed.

Lemma find_char_none (c : char) (a : pystr) :
  ~ In c a -> find [c] a = None.
Proof.
  induction a as [|x a IH]; intros Hn; [reflexivity|].
  cbn [find startswith].
  destruct (N.eqb_spec x c) as [->|Hx]; [exfalso; apply Hn; now left|].
  cbn [andb]. rewrite IH; [reflexivity|]. intros Hi; apply Hn; now right.
Qed.

Lemma starts_http_not_redirect (href : pystr) :
  startswith href (str "http") = true ->
  truthy href = true /\ startswith href (str "/url?q=") = false.
Proof.
  intros H. apply startswith_inv in H as [t ->]. split; reflexivity.
Qed.

(** C5. Redirect unwrapping: the href of the example is unwrapped to the URL
    it embeds; in general a redirect href loses its prefix and everything
    from the next ampersand on (when no second prefix follows); an href that
    already starts with http comes back unchanged; the internal link of the
    example gives the empty string. The unwrapping written in line in the
    tool-server copy agrees on all of these. *)
Theorem extract_url_unwraps_redirects :
  Api.extract_url (str "/url?q=https://example.com/page&sa=X")
    = str "https://example.com/page"
  /\ (forall target tail : pystr,
        ~ In 38%N target ->
        find (str "/url?q=") (target ++ 38%N :: tail) = None ->
        Api.extract_url (str "/url?q=" ++ target ++ 38%N :: tail) = target
        /\ Mcp.link_url (str "/url?q=" ++ target ++ 38%N :: tail) = Ok target)
  /\ (forall href : pystr,
        startswith href (str "http") = true ->
        Api.extract_url href = href /\ Mcp.link_url href = Ok href)
  /\ Api.extract_url (str "/search?q=x") = []
  /\ Mcp.link_url (str "/url?q=https://example.com/page&sa=X")
       = Ok (str "https://example.com/page")
  /\ Mcp.link_url (str "/search?q=x") = Ok [].
Proof.
  split; [vm_compute; reflexivity|].
  split.
  { intros target tail Hamp Hfind.
    assert (Hsep : str "/url?q=" <> []) by discriminate.
    unfold Api.extract_url, Mcp.link_url.
    replace (truthy (str "/url?q=" ++ target ++ 38%N :: tail)) with true
      by reflexivity.
    rewrite startswith_app. cbn [negb].
    rewrite (@split_second _ _ Hsep), Hfind.
    change (str "&") with [38%N].
    rewrite split_first, (@find_char _ _ tail Hamp).
    rewrite firstn_app, Nat.sub_diag, firstn_all. cbn [firstn].
    now rewrite app_nil_r. }
  split.
  { intros href H.
    destruct (@starts_http_not_redirect href H) as [Ht Hr].
    unfold Api.extract_url, Mcp.link_url. now rewrite Ht, Hr, H. }
  repeat split; vm_compute; reflexivity.
Qed.

Lemma extract_url_unwraps_redirects_witness :
  Api.extract_url (str "/url?q=https://example.com/page&sa=X")
    = str "https://example.com/page"
  /\ Api.extract_url (str "https://direct.example") = str "https://direct.example".
Proof.
  split.
  - apply (proj1 (proj1 (proj2 extract_url_unwraps_redirects)
             (str "https://example.com/page") (str "sa=X")
             ltac:(vm_compute; intuition discriminate)
             ltac:(vm_compute; reflexivity))).
  - apply (proj1 (proj1 (proj2 (proj2 extract_url_unwraps_redirects))
             (str "https://direct.example") ltac:(vm_compute; reflexivity))).
Defined.

(** ** Text normalization *)


Lemma dropwhile_split (p : N -> bool) (s : pystr) :
  exists w, s = w ++ dropwhile p s.
Proof.
  induction s as [|c s [w IH]]; simpl.
  - now exists [].
  - destruct (p c); [exists (c :: w); simpl; now f_equal | now exists []].
Qed.

Lemma dropwhile_starts_clean (s : pystr) : starts_clean (dropwhile is_space s) = true.
Proof.
  induction s as [|c s IH]; simpl; [reflexivity|].
  destruct (is_space c) eqn:E; [assumption|]. simpl. now rewrite E.
Qed.

Lemma strip_ends_clean (s : pystr) : starts_clean (rev (strip s)) = true.
Proof. unfold strip. rewrite rev_involutive. apply dropwhile_starts_clean. Qed.

Lemma strip_starts_clean (s : pystr) : starts_clean (strip s) = true.
Proof.
  unfold strip.
  pose proof (dropwhile_starts_clean s) as Hu.
  set (u := dropwhile is_space s) in *.
  destruct (dropwhile_split is_space (rev u)) as [w Hw].
  set (v := dropwhile is_space (rev u)) in *.
  assert (Hu' : u = rev v ++ rev w).
  { rewrite <- rev_app_distr, <- Hw. now rewrite rev_involutive. }
  destruct (rev v) as [|x t]; [reflexivity|].
  rewrite Hu' in Hu. exact Hu.
Qed.

Lemma In_dropwhile (p : N -> bool) (c : N) (s : pystr) :
  In c (dropwhile p s) -> In c s.
Proof.
  induction s as [|x s IH]; simpl; [tauto|].
  destruct (p x); simpl; tauto.
Qed.

Lemma In_strip (c : N) (s : pystr) : In c (strip s) -> In c s.
Proof.
  unfold strip. intros H.
  apply in_rev, In_dropwhile, in_rev in H. now apply In_dropwhile in H.
Qed.

Lemma length_dropwhile (p : N -> bool) (s : pystr) :
  (List.length (dropwhile p s) <= List.length s)%nat.
Proof. induction s as [|x s IH]; simpl; [lia|]. destruct (p x); simpl; lia. Qed.

Lemma length_strip (s : pystr) : (List.length (strip s) <= List.length s)%nat.
Proof.
  unfold strip. rewrite length_rev.
  etransitivity; [apply length_dropwhile|]. rewrite length_rev.
  apply length_dropwhile.
Qed.

Lemma In_collapse (c : N) (b : bool) (s : pystr) :
  In c (collapse_from b s) -> c = 32%N \/ In c s.
Proof.
  revert b; induction s as [|x s IH]; intros b; simpl; [tauto|].
  destruct (is_space x); [destruct b|]; simpl; intros H.
  - destruct (IH _ H); tauto.
  - destruct H as [<-|H]; [tauto|]. destruct (IH _ H); tauto.
  - destruct H as [<-|H]; [tauto|]. destruct (IH _ H); tauto.
Qed.

Lemma length_collapse (b : bool) (s : pystr) :
  (List.length (collapse_from b s) <= List.length s)%nat.
Proof.
  revert b; induction s as [|x s IH]; intros b; simpl; [lia|].
  destruct (is_space x); [destruct b|]; simpl;
    [specialize (IH true)|specialize (IH true)|specialize (IH false)]; lia.
Qed.

(** Inside a run of whitespace nothing is written until the run ends. *)
Lemma collapse_in_run_starts_clean (s : pystr) :
  starts_clean (collapse_from true s) = true.
Proof.
  induction s as [|x s IH]; simpl; [reflexivity|].
  destruct (is_space x) eqn:E; [assumption|]. simpl. now rewrite E.
Qed.

Lemma single_spaced_cons (a b : N) (t : pystr) :
  single_spaced (a :: b :: t) = negb (is_space a && is_space b) && single_spaced (b :: t).
Proof. reflexivity. Qed.

Lemma collapse_single_spaced (b : bool) (s : pystr) :
  single_spaced (collapse_from b s) = true.
Proof.
  revert b; induction s as [|x s IH]; intros b; [reflexivity|].
  cbn [collapse_from].
  destruct (is_space x) eqn:E; [destruct b|].
  - apply IH.
  - pose proof (collapse_in_run_starts_clean s) as Hc.
    specialize (IH true).
    destruct (collapse_from true s) as [|y t]; [reflexivity|].
    rewrite single_spaced_cons, IH.
    simpl in Hc. apply negb_true_iff in Hc. rewrite Hc.
    now rewrite andb_false_r.
  - specialize (IH false).
    destruct (collapse_from false s) as [|y t]; [reflexivity|].
    now rewrite single_spaced_cons, IH, E.
Qed.

(** A final character that is not whitespace is written as it is. *)
Lemma collapse_snoc (b : bool) (s : pystr) (c : N) :
  is_space c = false ->
  collapse_from b (s ++ [c]) = collapse_from b s ++ [c].
Proof.
  intros Hc. revert b; induction s as [|x s IH]; intros b; simpl.
  - now rewrite Hc.
  - destruct (is_space x); [destruct b|]; simpl; now rewrite IH.
Qed.

Lemma collapse_strip_tidy (s : pystr) : tidy (collapse_ws (strip s)) = true.
Proof.
  unfold tidy, collapse_ws.
  rewrite collapse_single_spaced, andb_true_r.
  apply andb_true_iff; split.
  - pose proof (strip_starts_clean s) as H.
    destruct (strip s) as [|c t]; [reflexivity|].
    simpl in H. apply negb_true_iff in H. simpl. rewrite H. simpl. now rewrite H.
  - pose proof (strip_ends_clean s) as H.
    rewrite <- (rev_involutive (strip s)).
    destruct (rev (strip s)) as [|c t]; [reflexivity|].
    simpl in H. apply negb_true_iff in H.
    cbn [rev]. rewrite (@collapse_snoc false (rev t) c H), rev_app_distr. simpl. now rewrite H.
Qed.

Lemma filter_id {A} (p : A -> bool) (l : list A) :
  (forall x, In x l -> p x = true) -> filter p l = l.
Proof.
  induction l as [|x l IH]; intros H; simpl; [reflexivity|].
  rewrite (H x (or_introl eq_refl)), IH; [reflexivity|].
  intros y Hy; apply H; now right.
Qed.

Lemma In_firstn {A} (n : nat) (l : list A) (x : A) : In x (firstn n l) -> In x l.
Proof.
  revert l; induction n as [|n IH]; intros [|y l]; simpl; try tauto.
  intros [H|H]; [now left | right; now apply IH].
Qed.


(** *** Collapsing and stripping commute *)

Lemma dropwhile_snoc (p : N -> bool) (l : pystr) (x : N) :
  dropwhile p (l ++ [x]) =
  match dropwhile p l with
  | [] => if p x then [] else [x]
  | d => d ++ [x]
  end.
Proof.
  induction l as [|y l IH]; simpl; [reflexivity|].
  destruct (p y); [exact IH | reflexivity].
Qed.

(** Stripping on the right, one character further to the left. *)
Lemma rstrip_cons (x : N) (t : pystr) :
  rev (dropwhile is_space (rev (x :: t))) =
  match rev (dropwhile is_space (rev t)) with
  | [] => if is_space x then [] else [x]
  | r => x :: r
  end.
Proof.
  cbn [rev]. rewrite dropwhile_snoc.
  destruct (dropwhile is_space (rev t)) as [|d ds] eqn:E.
  - simpl. now destruct (is_space x).
  - rewrite rev_app_distr. simpl.
    destruct (rev ds ++ [d]) eqn:E'; [|reflexivity].
    now destruct (rev ds).
Qed.

Lemma rstrip_ends_clean (t : pystr) :
  starts_clean (dropwhile is_space (rev t)) = true.
Proof. apply dropwhile_starts_clean. Qed.

Lemma collapse_rstrip_nonempty (b : bool) (t : pystr) :
  rev (dropwhile is_space (rev t)) <> [] ->
  collapse_from b (rev (dropwhile is_space (rev t))) <> [].
Proof.
  pose proof (rstrip_ends_clean t) as H.
  destruct (dropwhile is_space (rev t)) as [|c v]; [intros Hn; now elim Hn|].
  intros _. simpl in H. apply negb_true_iff in H.
  cbn [rev]. rewrite (@collapse_snoc b (rev v) c H).
  now destruct (collapse_from b (rev v)).
Qed.

Lemma collapse_from_cons (b : bool) (x : N) (s : pystr) :
  collapse_from b (x :: s) =
  if is_space x
  then (if b then collapse_from true s else 32%N :: collapse_from true s)
  else x :: collapse_from false s.
Proof. reflexivity. Qed.

Lemma collapse_rstrip (b : bool) (u : pystr) :
  rev (dropwhile is_space (rev (collapse_from b u))) =
  collapse_from b (rev (dropwhile is_space (rev u))).
Proof.
  revert b; induction u as [|x t IH]; intros b; [reflexivity|].
  rewrite (rstrip_cons x t). cbn [collapse_from].
  destruct (is_space x) eqn:E.
  - destruct b.
    + rewrite IH.
      destruct (rev (dropwhile is_space (rev t))) as [|r rs]; [reflexivity|].
      cbn [collapse_from]. now rewrite E.
    + rewrite rstrip_cons, IH.
      pose proof (@collapse_rstrip_nonempty true t) as Hne.
      destruct (rev (dropwhile is_space (rev t))) as [|r rs]; [reflexivity|].
      specialize (Hne ltac:(discriminate)).
      rewrite (collapse_from_cons false x), E.
      destruct (collapse_from true (r :: rs)); [now elim Hne|reflexivity].
  - rewrite rstrip_cons, IH, E.
    destruct (rev (dropwhile is_space (rev t))) as [|r rs].
    + simpl. now rewrite E.
    + rewrite (collapse_from_cons b x), E.
      now destruct (collapse_from false (r :: rs)).
Qed.

Lemma collapse_lstrip (b : bool) (s : pystr) :
  dropwhile is_space (collapse_from b s) = collapse_from false (dropwhile is_space s).
Proof.
  revert b; induction s as [|x s IH]; intros b; [reflexivity|].
  cbn [collapse_from dropwhile].
  destruct (is_space x) eqn:E.
  - destruct b; [apply IH|]. cbn [dropwhile].
    change (is_space 32) with true. apply IH.
  - cbn [dropwhile collapse_from]. now rewrite E.
Qed.

(** Stripping first, as the source does, or collapsing first, as the
    specification lists the steps, gives the same text. *)
Lemma collapse_strip_comm (s : pystr) :
  collapse_ws (strip s) = strip (collapse_ws s).
Proof.
  unfold strip, collapse_ws.
  now rewrite collapse_lstrip, collapse_rstrip.
Qed.

Lemma permitted_space {U : Unicode} : Api.permitted 32%N = true.
Proof. reflexivity. Qed.

(** C6, as the code has it. The REST [clean_text] is the composition of the
    four steps of the specification: collapse the whitespace runs, strip,
    delete the characters outside the permitted set, keep the first 500
    characters. Every character of its output is permitted and the output
    has at most 500 characters. The whitespace is normalised on the input,
    before the deletion: the output is free of leading, trailing and repeated
    whitespace when nothing is deleted and nothing is cut. The two examples
    hold. The tool-server copy does the same with a permitted set that lacks
    the at sign, and without the cap. *)
Theorem clean_text_normalizes {U : Unicode} :
  (forall s : pystr,
     Api.clean_text s = firstn 500 (filter Api.permitted (strip (collapse_ws s))))
  /\ (forall (s : pystr) (c : N), In c (Api.clean_text s) -> Api.permitted c = true)
  /\ (forall s : pystr, (List.length (Api.clean_text s) <= 500)%nat)
  /\ (forall s : pystr,
        forallb Api.permitted s = true -> (List.length s <= 500)%nat ->
        Api.clean_text s = strip (collapse_ws s)
        /\ tidy (Api.clean_text s) = true)
  /\ Api.clean_text (str "  Hello   World!! ") = str "Hello World!!"
  /\ Api.clean_text (repeat 97%N 1000) = repeat 97%N 500
  /\ (forall s : pystr,
        Mcp.clean_text s = filter Mcp.permitted (strip (collapse_ws s)))
  /\ (forall (s : pystr) (c : N), In c (Mcp.clean_text s) -> Mcp.permitted c = true)
  /\ Mcp.permitted 64%N = false
  /\ Mcp.clean_text (str "  Hello   World!! ") = str "Hello World!!"
  /\ Mcp.clean_text (repeat 97%N 1000) = repeat 97%N 1000.
Proof.
  assert (Hsteps : forall s : pystr,
            Api.clean_text s
            = firstn 500 (filter Api.permitted (strip (collapse_ws s)))).
  { intros s. unfold Api.clean_text. rewrite <- collapse_strip_comm.
    now destruct s. }
  assert (Hin : forall (s : pystr) (c : N),
            In c (Api.clean_text s) -> Api.permitted c = true).
  { intros s c H. rewrite Hsteps in H.
    apply In_firstn, filter_In in H. tauto. }
  repeat split; try assumption; try (vm_compute; reflexivity).
  - intros s. rewrite Hsteps. apply firstn_le_length.
  - rewrite Hsteps, <- collapse_strip_comm.
    rewrite filter_id, firstn_all2; [reflexivity| |].
    + etransitivity; [apply length_collapse|].
      etransitivity; [apply length_strip|]. assumption.
    + intros c Hc. apply In_collapse in Hc as [->|Hc]; [apply permitted_space|].
      apply In_strip in Hc. rewrite forallb_forall in H. now apply H.
  - rewrite Hsteps, <- collapse_strip_comm.
    rewrite filter_id, firstn_all2; [apply collapse_strip_tidy| |].
    + etransitivity; [apply length_collapse|].
      etransitivity; [apply length_strip|]. assumption.
    + intros c Hc. apply In_collapse in Hc as [->|Hc]; [apply permitted_space|].
      apply In_strip in Hc. rewrite forallb_forall in H. now apply H.
  - intros s. unfold Mcp.clean_text. rewrite <- collapse_strip_comm. now destruct s.
  - intros s c H. unfold Mcp.clean_text in H.
    destruct (negb (truthy s)); [now destruct H|].
    apply filter_In in H. tauto.
Qed.

Lemma clean_text_normalizes_witness :
  @Api.clean_text ascii_tables (str "  Hello   World!! ")
    = strip (collapse_ws (str "  Hello   World!! "))
  /\ tidy (@Api.clean_text ascii_tables (str "  Hello   World!! ")) = true.
Proof.
  apply (proj1 (proj2 (proj2 (proj2 (@clean_text_normalizes ascii_tables))))
           (str "  Hello   World!! ")).
  - vm_compute; reflexivity.
  - vm_compute; lia.
Defined.

(** C6 fails as stated: in the REST copy a deleted character leaves the
    whitespace around it side by side; the tool-server copy does not cap its
    output and deletes the at sign. *)
Lemma clean_text_not_as_stated :
  @Api.clean_text ascii_tables (str "a # b") = str "a  b"
  /\ tidy (@Api.clean_text ascii_tables (str "# a")) = false
  /\ ~ (List.length (@Mcp.clean_text ascii_tables (repeat 97%N 1000)) <= 500)%nat
  /\ @Mcp.clean_text ascii_tables (str "a@b") = str "ab".
Proof.
  repeat split; try (vm_compute; reflexivity).
  vm_compute. intros H. repeat (apply le_S_n in H). inversion H.
Qed.

(** ** Pacing *)

Lemma Qlt_bool_iff (a b : Q) : Qlt_bool a b = true <-> a < b.
Proof.
  unfold Qlt_bool. rewrite negb_true_iff.
  split.
  - intros H. apply Qnot_le_lt. intros Hle.
    apply Qle_bool_iff in Hle. congruence.
  - intros H. destruct (Qle_bool b a) eqn:E; [|reflexivity].
    apply Qle_bool_iff in E. exfalso. now apply (Qlt_not_le a b).
Qed.

Lemma Qlt_bool_false (a b : Q) : Qlt_bool a b = false <-> b <= a.
Proof.
  unfold Qlt_bool. rewrite negb_false_iff. apply Qle_bool_iff.
Qed.

Lemma uniform_range (a b u : Q) :
  a <= b -> 0 <= u <= 1 -> a <= uniform a b u <= b.
Proof. unfold uniform. intros Hab [H0 H1]. split; nra. Qed.

Lemma total_delay_spec (count : Z) (u : Q) :
  Api.total_delay count u == pacing_delay count (uniform 0.5 2.5 u).
Proof.
  unfold Api.total_delay, pacing_delay.
  destruct (20 <? count)%Z; [|destruct (10 <? count)%Z]; lra.
Qed.

Lemma reset_if_due_count (s : Api.scraper) (t : Q) :
  Api.request_count (Api.reset_if_due s t)
  = if Qlt_bool 3600 (t - Api.rate_limit_reset s) then 0%Z else Api.request_count s.
Proof. unfold Api.reset_if_due. now destruct (Qlt_bool _ _). Qed.

(** C7. The delay [smart_delay] computes is the base 2.0 s plus the jitter
    drawn in [0.5 s, 2.5 s], plus 2.0 s when the counter exceeds 20, else
    plus 1.0 s when it exceeds 10, the counter being set to zero first when
    more than an hour has passed since the reset timestamp. With counter 0
    it lies in [2.5 s, 4.5 s] for every draw; with counter 25 and the hour
    not yet over it lies in [4.5 s, 6.5 s]. After [smart_delay] at least the
    computed delay separates the clock from the previous request. *)
Theorem smart_delay_computed_delay :
  (forall (u : Q) (m : Api.machine),
     Api.computed_delay u m ==
     pacing_delay
       (if Qlt_bool 3600 (Api.clock m - Api.rate_limit_reset (Api.self m))
        then 0%Z else Api.request_count (Api.self m))
       (uniform 0.5 2.5 u))
  /\ (forall u : Q, 0 <= u <= 1 -> 0.5 <= uniform 0.5 2.5 u <= 2.5)
  /\ (forall (u : Q) (m : Api.machine),
        0 <= u <= 1 ->
        Api.request_count (Api.self m) = 0%Z ->
        2.5 <= Api.computed_delay u m <= 4.5)
  /\ (forall (u : Q) (m : Api.machine),
        0 <= u <= 1 ->
        Api.request_count (Api.self m) = 25%Z ->
        Api.clock m - Api.rate_limit_reset (Api.self m) <= 3600 ->
        4.5 <= Api.computed_delay u m <= 6.5)
  /\ (forall (u : Q) (m : Api.machine),
        Api.computed_delay u m
        <= Api.clock (Api.smart_delay u m) - Api.last_request_time (Api.self m)).
Proof.
  assert (Hj : forall u : Q, 0 <= u <= 1 -> 0.5 <= uniform 0.5 2.5 u <= 2.5).
  { intros u Hu. apply uniform_range; [lra|assumption]. }
  assert (Hd : forall (u : Q) (m : Api.machine),
            Api.computed_delay u m ==
            pacing_delay
              (if Qlt_bool 3600 (Api.clock m - Api.rate_limit_reset (Api.self m))
               then 0%Z else Api.request_count (Api.self m))
              (uniform 0.5 2.5 u)).
  { intros u m. unfold Api.computed_delay.
    now rewrite total_delay_spec, reset_if_due_count. }
  split; [exact Hd|]. split; [exact Hj|]. split; [|split].
  - intros u m Hu H0. rewrite Hd, H0.
    specialize (Hj u Hu).
    assert (E : (if Qlt_bool 3600 (Api.clock m - Api.rate_limit_reset (Api.self m))
                 then 0%Z else 0%Z) = 0%Z) by now destruct (Qlt_bool _ _).
    rewrite E. unfold pacing_delay. simpl. lra.
  - intros u m Hu H25 Hwin. rewrite Hd, H25.
    specialize (Hj u Hu).
    apply Qlt_bool_false in Hwin. rewrite Hwin.
    unfold pacing_delay. simpl. lra.
  - intros u m. unfold Api.smart_delay, Api.computed_delay.
    set (s := Api.reset_if_due (Api.self m) (Api.clock m)).
    set (total := Api.total_delay (Api.request_count s) u).
    destruct (Qlt_bool (Api.clock m - Api.last_request_time (Api.self m)) total) eqn:E.
    + simpl. lra.
    + apply Qlt_bool_false in E. simpl. lra.
Qed.

Lemma smart_delay_computed_delay_witness :
  2.5 <= Api.computed_delay (1 # 2) (Api.Machine (Api.init 0) 100000 []) <= 4.5
  /\ 4.5 <= Api.computed_delay (1 # 2)
              (Api.Machine (Api.Scraper SessionOpen 990 25 0) 1000 []) <= 6.5.
Proof.
  split.
  - apply (proj1 (proj2 (proj2 smart_delay_computed_delay))).
    + split; vm_compute; discriminate.
    + reflexivity.
  - apply (proj1 (proj2 (proj2 (proj2 smart_delay_computed_delay)))).
    + split; vm_compute; discriminate.
    + reflexivity.
    + vm_compute; discriminate.
Defined.

(** ** The extractors *)

Section Extractors.
Context {U : Unicode}.

(** One candidate leaves the results as they are or appends one accepted
    record, numbered after the last. *)
Lemma api_candidate_cases (rs rs' : list result) (t : tag) :
  Api.parse_candidate rs t = Ok rs' ->
  rs' = rs \/
  exists r, rs' = rs ++ [r] /\ position r = (List.length rs + 1)%nat /\ accepted r.
Proof.
  unfold Api.parse_candidate, bind.
  destruct (Api.find_container 5 t) as [container|e]; [|discriminate].
  destruct (negb (truthy (Api.clean_text (get_text t)))) eqn:Et;
    [intros [= <-]; now left|].
  match goal with
  | |- (if ?c then _ else _) = _ -> _ => destruct c eqn:Ec
  end; intros [= <-]; [right|now left].
  apply andb_true_iff in Ec as [Ec Eh]. apply andb_true_iff in Ec as [Ec Eu].
  eexists; split; [reflexivity|]. split; [reflexivity|].
  repeat split; assumption.
Qed.

(** Whether a candidate raises does not depend on the results so far. *)
Lemma api_candidate_raises (rs : list result) (t : tag) (e : pystr) :
  Api.parse_candidate rs t = Raised e <-> Api.find_container 5 t = Raised e.
Proof.
  unfold Api.parse_candidate, bind.
  destruct (Api.find_container 5 t) as [container|e'].
  - split; [|discriminate].
    destruct (negb _); [discriminate|].
    match goal with |- (if ?c then _ else _) = _ -> _ => destruct c end; discriminate.
  - split; intros [= ->]; reflexivity.
Qed.

Lemma mcp_link_url_ok (href : pystr) : exists url, Mcp.link_url href = Ok url.
Proof.
  unfold Mcp.link_url.
  destruct (startswith href (str "/url?q=")) eqn:E.
  - apply startswith_inv in E as [t ->].
    rewrite (@split_second (str "/url?q=") t) by discriminate.
    rewrite split_first. eauto.
  - destruct (startswith href (str "http")); eauto.
Qed.

Lemma mcp_candidate_cases (rs : list result) (t : tag) :
  Mcp.parse_candidate rs t = Ok rs \/
  exists r, Mcp.parse_candidate rs t = Ok (rs ++ [r])
            /\ position r = (List.length rs + 1)%nat /\ accepted_mcp r.
Proof.
  unfold Mcp.parse_candidate, bind.
  match goal with
  | |- context [match ?m with Ok a => _ | Raised e => Raised e end] =>
      assert (Hm : exists url, m = Ok url)
  end.
  { destruct (find_tag t "a" _) as [a|]; [|eauto].
    destruct (get_attr _ _) as [href|]; [|eauto].
    destruct (truthy href); [apply mcp_link_url_ok|eauto]. }
  destruct Hm as [url ->].
  match goal with |- context [if ?c then _ else _] => destruct c eqn:Ec end;
    [right|now left].
  apply andb_true_iff in Ec as [Et Eu].
  eexists; split; [reflexivity|]. split; [reflexivity|]. split; assumption.
Qed.

Lemma numbered_snoc (rs : list result) (r : result) :
  numbered rs -> position r = (List.length rs + 1)%nat -> numbered (rs ++ [r]).
Proof.
  unfold numbered. intros H Hp.
  rewrite map_app, length_app, H. simpl.
  rewrite Nat.add_1_r, seq_S, Hp. now rewrite Nat.add_1_r.
Qed.

(** The loops keep the numbering and only add records that pass the test. *)
Lemma api_loop_invariant (cs : list tag) (rs : list result) :
  numbered rs -> Forall accepted rs ->
  numbered (Api.parse_loop rs cs) /\ Forall accepted (Api.parse_loop rs cs).
Proof.
  revert rs; induction cs as [|c cs IH]; intros rs Hn Ha; [now split|].
  cbn [Api.parse_loop].
  destruct (Api.parse_candidate rs c) as [rs'|e] eqn:E; [|now apply IH].
  apply api_candidate_cases in E as [->|(r & -> & Hp & Hr)]; [now apply IH|].
  apply IH; [now apply numbered_snoc|].
  apply Forall_app; split; [assumption|now constructor].
Qed.

Lemma mcp_loop_invariant (cs : list tag) (rs : list result) :
  numbered rs -> Forall accepted_mcp rs ->
  numbered (Mcp.parse_loop rs cs) /\ Forall accepted_mcp (Mcp.parse_loop rs cs).
Proof.
  revert rs; induction cs as [|c cs IH]; intros rs Hn Ha; [now split|].
  cbn [Mcp.parse_loop].
  destruct (mcp_candidate_cases rs c) as [E|(r & E & Hp & Hr)]; rewrite E.
  - now apply IH.
  - apply IH; [now apply numbered_snoc|].
    apply Forall_app; split; [assumption|now constructor].
Qed.

Lemma api_parse_soup_invariant (soup : tag) :
  numbered (Api.parse_soup soup) /\ Forall accepted (Api.parse_soup soup).
Proof. apply api_loop_invariant; [reflexivity|constructor]. Qed.

Lemma mcp_parse_soup_invariant (soup : tag) :
  numbered (Mcp.parse_soup soup) /\ Forall accepted_mcp (Mcp.parse_soup soup).
Proof. apply mcp_loop_invariant; [reflexivity|constructor]. Qed.

(** A candidate that raises is skipped, wherever it stands: the loop gives
    what it gives without it. *)
Lemma api_loop_skips (pre post : list tag) (c : tag) (e : pystr) (rs : list result) :
  Api.find_container 5 c = Raised e ->
  Api.parse_loop rs (pre ++ c :: post) = Api.parse_loop rs (pre ++ post).
Proof.
  intros Hc. revert rs; induction pre as [|p pre IH]; intros rs.
  - cbn [app Api.parse_loop].
    now rewrite (proj2 (api_candidate_raises rs c e) Hc).
  - cbn [app Api.parse_loop].
    destruct (Api.parse_candidate rs p); apply IH.
Qed.

(** The tool-server loop meets no exception at all. *)
Lemma mcp_candidate_never_raises (rs : list result) (t : tag) :
  exists rs', Mcp.parse_candidate rs t = Ok rs'.
Proof.
  destruct (mcp_candidate_cases rs t) as [E|(r & E & _)]; eauto.
Qed.

(** A tree without elements has no candidates. *)
Lemma no_elements_no_results (k : string_class) (texts : list pystr) :
  Api.parse_soup (soup_of (List.map (Text k) texts)) = []
  /\ Mcp.parse_soup (soup_of (List.map (Text k) texts)) = [].
Proof.
  assert (Hd : descendants (soup_of (List.map (Text k) texts)) = []).
  { unfold descendants, soup_of. cbn [here above children_of].
    generalize (Elem "[document]" [] (List.map (Text k) texts) :: @nil node).
    intros up. induction texts as [|x texts IH]; [reflexivity|exact IH]. }
  split.
  - unfold Api.parse_soup.
    assert (Hs : forall sels,
               Api.first_matching (soup_of (List.map (Text k) texts)) sels = []).
    { induction sels as [|sel sels IH]; [reflexivity|].
      cbn [Api.first_matching]. unfold select. now rewrite Hd. }
    now rewrite Hs.
  - unfold Mcp.parse_soup, find_all. now rewrite Hd.
Qed.

(** *** Each candidate on its own *)

(** What a candidate adds does not depend on the results so far, their
    number aside. *)
Lemma api_candidate_alone (rs : list result) (t : tag) :
  Api.parse_candidate rs t =
  match Api.parse_candidate [] t with
  | Ok [r] =>
      Ok (rs ++ [Result (title r) (url r) (snippet r) (date r) (List.length rs + 1)])
  | Ok _ => Ok rs
  | Raised e => Raised e
  end.
Proof.
  unfold Api.parse_candidate, bind.
  destruct (Api.find_container 5 t) as [container|e]; [|reflexivity].
  destruct (negb (truthy (Api.clean_text (get_text t)))); [reflexivity|].
  match goal with |- context [if ?c then _ else _] => destruct c end; reflexivity.
Qed.

Lemma mcp_candidate_alone (rs : list result) (t : tag) :
  Mcp.parse_candidate rs t =
  match Mcp.parse_candidate [] t with
  | Ok [r] =>
      Ok (rs ++ [Result (title r) (url r) (snippet r) (date r) (List.length rs + 1)])
  | Ok _ => Ok rs
  | Raised e => Raised e
  end.
Proof.
  unfold Mcp.parse_candidate, bind.
  match goal with
  | |- context [match ?m with Ok a => _ | Raised e => Raised e end] => destruct m
  end; [|reflexivity].
  match goal with |- context [if ?c then _ else _] => destruct c end; reflexivity.
Qed.

Lemma api_loop_alone (cs : list tag) :
  forall rs : list result,
    Api.parse_loop rs cs =
    rs ++ numbered_from (List.length rs + 1) (List.map api_record cs).
Proof.
  induction cs as [|c cs IH]; intros rs; [cbn; now rewrite app_nil_r|].
  cbn [Api.parse_loop List.map]. rewrite api_candidate_alone. unfold api_record at 1.
  destruct (Api.parse_candidate [] c) as [[|r [|r' l]]|e]; cbn [alone numbered_from];
    try apply IH.
  rewrite IH, length_app, <- app_assoc. cbn [List.length app].
  do 3 f_equal. lia.
Qed.

Lemma mcp_loop_alone (cs : list tag) :
  forall rs : list result,
    Mcp.parse_loop rs cs =
    rs ++ numbered_from (List.length rs + 1) (List.map mcp_record cs).
Proof.
  induction cs as [|c cs IH]; intros rs; [cbn; now rewrite app_nil_r|].
  cbn [Mcp.parse_loop List.map]. rewrite mcp_candidate_alone. unfold mcp_record at 1.
  destruct (Mcp.parse_candidate [] c) as [[|r [|r' l]]|e]; cbn [alone numbered_from];
    try apply IH.
  rewrite IH, length_app, <- app_assoc. cbn [List.length app].
  do 3 f_equal. lia.
Qed.

Lemma api_parse_soup_alone (soup : tag) :
  Api.parse_soup soup = numbered_from 1 (List.map api_record (api_candidates soup)).
Proof. unfold Api.parse_soup. now rewrite api_loop_alone. Qed.

Lemma mcp_parse_soup_alone (soup : tag) :
  Mcp.parse_soup soup = numbered_from 1 (List.map mcp_record (mcp_candidates soup)).
Proof. unfold Mcp.parse_soup. now rewrite mcp_loop_alone. Qed.

(** A candidate whose extraction raises gives no record. *)
Lemma api_record_raises (t : tag) (e : pystr) :
  Api.find_container 5 t = Raised e -> api_record t = None.
Proof.
  intros H. unfold api_record.
  now rewrite (proj2 (api_candidate_raises [] t e) H).
Qed.

End Extractors.

Lemma http_is_not_internal (u : pystr) :
  startswith u (str "http") = true -> startswith u (str "/") = false.
Proof. intros H. apply startswith_inv in H as [t ->]. reflexivity. Qed.

Section Bodies.
Context {U : Unicode} {B : TreeBuilder}.

(** The extractors on a body: the exception of the tree builder, or the
    records of the tree. *)
Lemma api_parse_body (html : pystr) :
  Api.parse_search_results html =
  match BeautifulSoup html with
  | Ok top => Ok (Api.parse_soup (soup_of top))
  | Raised e => Raised e
  end.
Proof. unfold Api.parse_search_results, bind. now destruct (BeautifulSoup html). Qed.

Lemma mcp_parse_body (html : pystr) :
  Mcp.parse_search_results html =
  match BeautifulSoup html with
  | Ok top => Ok (Mcp.parse_soup (soup_of top))
  | Raised e => Raised e
  end.
Proof. unfold Mcp.parse_search_results, bind. now destruct (BeautifulSoup html). Qed.

Lemma api_parse_ok (html : pystr) (rs : list result) :
  Api.parse_search_results html = Ok rs ->
  exists top, BeautifulSoup html = Ok top /\ rs = Api.parse_soup (soup_of top).
Proof.
  rewrite api_parse_body. destruct (BeautifulSoup html) as [top|e]; [|discriminate].
  intros [= <-]. eauto.
Qed.

Lemma mcp_parse_ok (html : pystr) (rs : list result) :
  Mcp.parse_search_results html = Ok rs ->
  exists top, BeautifulSoup html = Ok top /\ rs = Mcp.parse_soup (soup_of top).
Proof.
  rewrite mcp_parse_body. destruct (BeautifulSoup html) as [top|e]; [|discriminate].
  intros [= <-]. eauto.
Qed.

End Bodies.

(** C3, as the code has it. The tree is built outside every [try] of the
    extractors: on a body the tree builder rejects, both raise its
    exception. On every other body they return the records of the tree, which
    are those of the candidates taken one by one, in source order and
    numbered from 1: a candidate whose extraction raises (REST: no parent
    within the climb) or fails a test gives no record and changes nothing for
    the others, wherever it stands (in the tool-server copy no candidate
    raises). A tree without any element gives the empty sequence; the page
    with three well-formed blocks and a block without link, and the page with
    a block that raises, give the three records, positions 1 to 3, in source
    order. *)
Theorem extraction_skips_faulty_candidates {U : Unicode} {B : TreeBuilder} :
  (forall (html : pystr) (e : pystr),
     BeautifulSoup html = Raised e ->
     Api.parse_search_results html = Raised e
     /\ Mcp.parse_search_results html = Raised e)
  /\ (forall (html : pystr) (top : list node),
        BeautifulSoup html = Ok top ->
        Api.parse_search_results html
        = Ok (numbered_from 1 (List.map api_record (api_candidates (soup_of top))))
        /\ Mcp.parse_search_results html
           = Ok (numbered_from 1 (List.map mcp_record (mcp_candidates (soup_of top)))))
  /\ (forall (html : pystr) (rs : list result),
        Api.parse_search_results html = Ok rs \/ Mcp.parse_search_results html = Ok rs ->
        numbered rs)
  /\ (forall (pre post : list tag) (c : tag) (e : pystr) (rs : list result),
        Api.find_container 5 c = Raised e ->
        api_record c = None
        /\ Api.parse_loop rs (c :: post) = Api.parse_loop rs post
        /\ Api.parse_loop rs (pre ++ c :: post) = Api.parse_loop rs (pre ++ post))
  /\ (forall (rs : list result) (c : tag),
        exists rs', Mcp.parse_candidate rs c = Ok rs')
  /\ (forall (k : string_class) (texts : list pystr),
        Api.parse_soup (soup_of (List.map (Text k) texts)) = []
        /\ Mcp.parse_soup (soup_of (List.map (Text k) texts)) = [])
  /\ List.map summary (Api.parse_soup page_missing_link) = three_results
  /\ List.map summary (Mcp.parse_soup page_missing_link) = three_results
  /\ List.map summary (Api.parse_soup page_faulty_block) = three_results
  /\ (exists e, nth_error (List.map (Api.find_container 5)
                              (Api.first_matching page_faulty_block Api.selectors)) 2
                = Some (Raised e)).
Proof.
  split; [|split; [|split; [|split; [|split; [|split]]]]].
  - intros html e He. rewrite api_parse_body, mcp_parse_body, He. now split.
  - intros html top He.
    rewrite api_parse_body, mcp_parse_body, He.
    now rewrite api_parse_soup_alone, mcp_parse_soup_alone.
  - intros html rs [H|H].
    + apply api_parse_ok in H as (top & _ & ->). apply api_parse_soup_invariant.
    + apply mcp_parse_ok in H as (top & _ & ->). apply mcp_parse_soup_invariant.
  - intros pre post c e rs Hc. split; [now apply api_record_raises with (e := e)|].
    split.
    + apply (@api_loop_skips _ [] post c e rs Hc).
    + now apply api_loop_skips with (e := e).
  - apply mcp_candidate_never_raises.
  - apply no_elements_no_results.
  - repeat split; try (vm_compute; reflexivity).
    eexists. vm_compute. reflexivity.
Qed.

Lemma extraction_skips_faulty_candidates_witness :
  @Api.parse_search_results ascii_tables canned_page (str "<html></html>")
  = Ok (numbered_from 1
          (List.map (@api_record ascii_tables) (@api_candidates page_missing_link)))
  /\ @Api.parse_search_results ascii_tables strict_parser (str "<![x y")
     = Raised (str "The markup you provided was rejected by the parser.")
  /\ (let cands := Api.first_matching page_faulty_block Api.selectors in
      @Api.parse_loop ascii_tables []
        (firstn 2 cands ++ nth 2 cands page_faulty_block :: skipn 3 cands)
      = @Api.parse_loop ascii_tables [] (firstn 2 cands ++ skipn 3 cands)).
Proof.
  split; [|split].
  - apply (proj1 (proj1 (proj2 (@extraction_skips_faulty_candidates ascii_tables
                                   canned_page))
                    (str "<html></html>") (children_of (here page_missing_link))
                    eq_refl)).
  - apply (proj1 (proj1 (@extraction_skips_faulty_candidates ascii_tables strict_parser)
                    (str "<![x y")
                    (str "The markup you provided was rejected by the parser.")
                    eq_refl)).
  - intros cands.
    apply (proj2 (proj2 (proj1 (proj2 (proj2 (proj2
             (@extraction_skips_faulty_candidates ascii_tables plain_text))))
             (firstn 2 cands) (skipn 3 cands) (nth 2 cands page_faulty_block)
             (str "'NoneType' object has no attribute 'name'") []
             ltac:(vm_compute; reflexivity)))).
Defined.

(** C3 fails as stated: the extractors do throw. The tree is built before
    the loop and outside its [try]; on a body the tree builder rejects, an
    unclosed marked section here, both extractors raise its exception. *)
Lemma extractor_raises_on_rejected_markup :
  @Api.parse_search_results ascii_tables strict_parser (str "<![x y")
  = Raised (str "The markup you provided was rejected by the parser.")
  /\ @Mcp.parse_search_results ascii_tables strict_parser (str "<![x y")
     = Raised (str "The markup you provided was rejected by the parser.").
Proof. split; vm_compute; reflexivity. Qed.

(** C4, as the code has it. Every record of the REST extractor has a title
    and a url that are not empty, and its url starts with the four characters
    http, so that it is never a relative, internal link; the records of the
    tool-server extractor have a title and a url that are not empty. *)
Theorem emitted_records_pass_the_tests {U : Unicode} {B : TreeBuilder} :
  (forall soup : tag,
     Forall accepted (Api.parse_soup soup)
     /\ Forall (fun r => startswith (url r) (str "/") = false) (Api.parse_soup soup))
  /\ (forall (html : pystr) (rs : list result),
        Api.parse_search_results html = Ok rs -> Forall accepted rs)
  /\ (forall soup : tag, Forall accepted_mcp (Mcp.parse_soup soup))
  /\ (forall (html : pystr) (rs : list result),
        Mcp.parse_search_results html = Ok rs -> Forall accepted_mcp rs).
Proof.
  split; [|split; [|split]].
  - intros soup. split.
    + exact (proj2 (api_parse_soup_invariant soup)).
    + eapply Forall_impl; [|exact (proj2 (api_parse_soup_invariant soup))].
      intros r (_ & _ & H). now apply http_is_not_internal.
  - intros html rs H. apply api_parse_ok in H as (top & _ & ->).
    exact (proj2 (api_parse_soup_invariant _)).
  - intros soup. exact (proj2 (mcp_parse_soup_invariant soup)).
  - intros html rs H. apply mcp_parse_ok in H as (top & _ & ->).
    exact (proj2 (mcp_parse_soup_invariant _)).
Qed.

Lemma emitted_records_pass_the_tests_witness :
  Forall accepted
    (@Api.parse_soup ascii_tables (soup_of (children_of (here page_missing_link))))
  /\ Forall (@accepted_mcp)
       (@Mcp.parse_soup ascii_tables (soup_of (children_of (here page_missing_link)))).
Proof.
  split.
  - apply (proj1 (proj2 (@emitted_records_pass_the_tests ascii_tables canned_page))
             [] _ eq_refl).
  - apply (proj2 (proj2 (proj2 (@emitted_records_pass_the_tests ascii_tables canned_page)))
             [] _ eq_refl).
Defined.

(** C4 fails as stated: the REST extractor emits a record whose url starts
    with http without being an http or https address, and the tool-server
    extractor emits a record whose url is an internal link. *)
Lemma emitted_url_not_http_scheme :
  (exists r, In r (@Api.parse_soup ascii_tables page_odd_scheme)
             /\ url r = str "httpx://example.org/"
             /\ startswith (url r) (str "http://") = false
             /\ startswith (url r) (str "https://") = false)
  /\ (exists r, In r (@Mcp.parse_soup ascii_tables page_internal_link)
                /\ url r = str "/search?q=x").
Proof.
  split.
  - eexists; split; [vm_compute; left; reflexivity|].
    repeat split.
  - eexists; split; [vm_compute; left; reflexivity|]. reflexivity.
Qed.

(** ** The search *)

(** [quote_plus] raises exactly on the strings that hold a surrogate. *)
Lemma first_surrogates_none (s : pystr) (i : nat) :
  first_surrogates i s = None <-> encodable s = true.
Proof.
  revert i; induction s as [|c s IH]; intros i; cbn; [tauto|].
  destruct (is_surrogate c); cbn; [split; discriminate|apply IH].
Qed.

Lemma quote_plus_ok (s : pystr) :
  encodable s = true ->
  quote_plus s = Ok (flat_map quote_byte (flat_map utf8 s)).
Proof.
  intros H. unfold quote_plus, encode.
  now rewrite (proj2 (first_surrogates_none s 0) H).
Qed.

Lemma quote_plus_value (s r : pystr) :
  quote_plus s = Ok r ->
  encodable s = true /\ r = flat_map quote_byte (flat_map utf8 s).
Proof.
  unfold quote_plus, encode, bind.
  destruct (first_surrogates 0 s) as [[[start c] run]|] eqn:E; [discriminate|].
  intros [= <-]. split; [now apply (first_surrogates_none s 0)|reflexivity].
Qed.

Lemma quote_plus_raises (s : pystr) :
  encodable s = false -> exists e, quote_plus s = Raised e.
Proof.
  intros H. unfold quote_plus, encode, bind.
  destruct (first_surrogates 0 s) as [[[start c] run]|] eqn:E; [eauto|].
  apply first_surrogates_none in E. congruence.
Qed.

(** The query string, when it is built, is the pairs joined. *)
Lemma for_each_ok {A B} (f : A -> outcome B) (g : A -> B) (l : list A) :
  (forall x, In x l -> f x = Ok (g x)) -> for_each f l = Ok (List.map g l).
Proof.
  induction l as [|x l IH]; intros H; [reflexivity|].
  cbn. rewrite (H x) by now left. cbn.
  rewrite IH by (intros y Hy; apply H; now right). reflexivity.
Qed.

Lemma for_each_value {A B} (f : A -> outcome B) (l : list A) (r : list B) :
  for_each f l = Ok r -> Forall2 (fun x y => f x = Ok y) l r.
Proof.
  revert r; induction l as [|x l IH]; intros r; cbn.
  - intros [= <-]. constructor.
  - unfold bind. destruct (f x) as [y|e] eqn:E; [|discriminate].
    destruct (for_each f l) as [ys|e]; [|discriminate].
    intros [= <-]. constructor; [exact E|now apply IH].
Qed.

Lemma for_each_raises {A B} (f : A -> outcome B) (l : list A) (x : A) (e : pystr) :
  In x l -> f x = Raised e -> exists e', for_each f l = Raised e'.
Proof.
  induction l as [|y l IH]; intros Hin Hx; [destruct Hin|].
  cbn. unfold bind. destruct Hin as [->|Hin].
  - rewrite Hx. eauto.
  - destruct (f y); [|eauto].
    destruct (IH Hin Hx) as [e' ->]. eauto.
Qed.

Lemma api_query_string_value (params : list (string * pyval)) (qs : pystr) :
  Api.query_string params = Ok qs ->
  Forall (fun p => encodable (str_of (snd p)) = true) params
  /\ qs = join (str "&") (List.map quoted_pair params).
Proof.
  unfold Api.query_string, bind.
  destruct (for_each _ params) as [parts|e] eqn:E; [|discriminate].
  intros [= <-]. apply for_each_value in E.
  assert (H : Forall (fun p => encodable (str_of (snd p)) = true) params
              /\ parts = List.map quoted_pair params).
  { induction E as [|[k v] y l r Hxy E IH]; [split; [constructor|reflexivity]|].
    destruct IH as [IH1 IH2]. unfold bind in Hxy.
    destruct (quote_plus (str_of v)) as [q|e] eqn:Eq; [|discriminate].
    injection Hxy as <-. apply quote_plus_value in Eq as [Henc ->].
    split; [constructor; assumption|]. cbn [List.map]. now rewrite IH2. }
  destruct H as [H1 ->]. now split.
Qed.

Lemma api_query_string_ok (params : list (string * pyval)) :
  Forall (fun p => encodable (str_of (snd p)) = true) params ->
  Api.query_string params = Ok (join (str "&") (List.map quoted_pair params)).
Proof.
  intros H. unfold Api.query_string.
  rewrite (@for_each_ok _ _ _ quoted_pair); [reflexivity|].
  intros [k v] Hin. rewrite Forall_forall in H. specialize (H _ Hin). cbn in H.
  now rewrite quote_plus_ok.
Qed.

Lemma api_query_string_raises (params : list (string * pyval)) :
  Exists (fun p => encodable (str_of (snd p)) = false) params ->
  exists e, Api.query_string params = Raised e.
Proof.
  intros H. apply Exists_exists in H as ([k v] & Hin & Hx). cbn in Hx.
  destruct (quote_plus_raises _ Hx) as [e He].
  unfold Api.query_string.
  destruct (@for_each_raises _ _
              (fun '(k, v) => quoted <- quote_plus (str_of v) ;;
                              Ok (str k ++ str "=" ++ quoted))
              params (k, v) e Hin) as [e' ->]; [now rewrite He|].
  cbn. eauto.
Qed.

Lemma mcp_query_string_eq (params : list (string * pyval)) :
  Mcp.query_string params = Api.query_string params.
Proof. reflexivity. Qed.

Section Search.
Context {U : Unicode} {B : TreeBuilder}.

Variables (query : pystr) (num_results : Z) (language : pystr)
          (safe_search : bool) (kw : Api.kwargs).

Local Abbreviation search stack env m :=
  (Api.search stack env query num_results language safe_search kw m).

(** A query string that cannot be built: the exception leaves the search,
    after the pacing and before any request. *)
Lemma search_raises (stack : nat) (env : oracle) (m : Api.machine) (e : pystr) :
  Api.query_string (Api.build_params query num_results language safe_search kw)
  = Raised e ->
  search stack env m
  = (Raised e, Api.get_session (Api.smart_delay (u_delay (env O)) m)).
Proof. intros H. destruct stack; cbn [Api.search]; now rewrite H. Qed.

Variable qs : pystr.
Hypothesis built :
  Api.query_string (Api.build_params query num_results language safe_search kw)
  = Ok qs.

Local Abbreviation fetched a m := (after_fetch a qs m).

Local Abbreviation final_answer a m1 := (final_answer query num_results a m1).

Lemma final_answer_blocked (a : attempt) (m1 : Api.machine) :
  final_answer a m1 = None <-> blocked_reply a = true.
Proof.
  unfold final_answer, blocked_reply.
  destruct (exchange a) as [[status [html|e]]|e]; try (split; discriminate).
  - destruct (status =? 200)%Z; cbn; [|split; discriminate].
    destruct (Api.blocked html); [tauto|].
    destruct (Api.parse_search_results html); split; discriminate.
  - destruct (status =? 200)%Z; split; discriminate.
Qed.

(** One attempt, case by case on what comes back. *)
Lemma search_attempt (stack : nat) (env : oracle) (m : Api.machine) :
  search stack env m =
  let a := env O in
  let m1 := fetched a m in
  match final_answer a m1 with
  | Some r => (Ok r, m1)
  | None =>
      match stack with
      | O => (Ok (Api.failure (recursion_error a) query (Api.clock m1)), m1)
      | S stack' =>
          match search stack' (rest env) (Api.sleep (uniform 3 7 (u_extra a)) m1) with
          | (Ok r, m') => (Ok r, m')
          | (Raised e, m') => (Ok (Api.failure e query (Api.clock m')), m')
          end
      end
  end.
Proof.
  unfold final_answer, after_fetch, page_response.
  destruct stack; cbn [Api.search]; rewrite built;
    unfold Api._retry_with_different_domain; cbv zeta;
    (destruct (exchange (env O)) as [[status [html|e]]|e]; try reflexivity;
     [destruct (status =? 200)%Z; [|reflexivity];
      destruct (Api.blocked html); [reflexivity|];
      destruct (Api.parse_search_results html); reflexivity
     |destruct (status =? 200)%Z; reflexivity]).
Qed.

(** No exception leaves a search whose query string is built. *)
Lemma search_never_raises (stack : nat) (env : oracle) (m : Api.machine) :
  exists r, fst (search stack env m) = Ok r.
Proof.
  rewrite search_attempt; cbv zeta.
  destruct (final_answer _ _); [cbn; eauto|].
  destruct stack as [|stack']; [cbn; eauto|].
  destruct (search stack' _ _) as [[r|e] m2]; cbn; eauto.
Qed.

(** After a block page: the extra delay, then the search on the rest of the
    oracle, as long as the stack has room. *)
Lemma search_blocked (stack : nat) (env : oracle) (m : Api.machine) :
  blocked_reply (env O) = true ->
  search (S stack) env m =
  search stack (rest env) (Api.sleep (uniform 3 7 (u_extra (env O))) (fetched (env O) m)).
Proof.
  intros Hb. rewrite search_attempt; cbv zeta.
  rewrite (proj2 (final_answer_blocked _ _) Hb).
  destruct (search_never_raises stack (rest env)
              (Api.sleep (uniform 3 7 (u_extra (env O))) (fetched (env O) m))) as [r Hr].
  destruct (search stack _ _) as [[r'|e] m2]; [reflexivity|discriminate].
Qed.

(** A block page when the stack has no room for the retry: the
    RecursionError is answered with a failure. *)
Lemma search_overflow (env : oracle) (m : Api.machine) :
  blocked_reply (env O) = true ->
  search 0 env m =
  (Ok (Api.failure (recursion_error (env O)) query (Api.clock (fetched (env O) m))),
   fetched (env O) m).
Proof.
  intros Hb. rewrite search_attempt; cbv zeta.
  now rewrite (proj2 (final_answer_blocked _ _) Hb).
Qed.

(** Any other reply ends the search with this attempt. *)
Lemma search_not_blocked (stack : nat) (env : oracle) (m : Api.machine) :
  blocked_reply (env O) = false ->
  exists r, final_answer (env O) (fetched (env O) m) = Some r
            /\ search stack env m = (Ok r, fetched (env O) m).
Proof.
  intros Hb. rewrite search_attempt; cbv zeta.
  destruct (final_answer (env O) (fetched (env O) m)) as [r|] eqn:E; [eauto|].
  apply final_answer_blocked in E. congruence.
Qed.

(** A search either ends with its first attempt, or is the search on the
    rest of the oracle with one retry less. *)
Lemma search_cases (stack : nat) (env : oracle) (m : Api.machine) :
  (exists r, search stack env m = (Ok r, fetched (env O) m)
             /\ (final_answer (env O) (fetched (env O) m) = Some r
                 \/ stack = O /\ blocked_reply (env O) = true
                    /\ r = Api.failure (recursion_error (env O)) query
                             (Api.clock (fetched (env O) m))))
  \/ (exists stack',
        stack = S stack' /\ blocked_reply (env O) = true
        /\ search stack env m =
           search stack' (rest env)
             (Api.sleep (uniform 3 7 (u_extra (env O))) (fetched (env O) m))).
Proof.
  destruct (blocked_reply (env O)) eqn:Eb.
  - destruct stack as [|stack'].
    + left. eexists. split; [now apply search_overflow|]. right. now repeat split.
    + right. exists stack'. repeat split. now apply search_blocked.
  - left. destruct (@search_not_blocked stack env m Eb) as (r & Hf & Hs). eauto.
Qed.

(** *** Runs of blocked replies *)

Lemma search_blocked_run (k : nat) :
  forall (stack : nat) (env : oracle) (m : Api.machine),
    (forall i, (i < k)%nat -> blocked_reply (env i) = true) ->
    search (k + stack) env m =
    search stack (from k env) (after_blocks k env qs m).
Proof.
  induction k as [|k IH]; intros stack env m Hb; [reflexivity|].
  cbn [Nat.add after_blocks].
  rewrite search_blocked by (apply Hb; lia).
  rewrite IH; [reflexivity|].
  intros i Hi. apply (Hb (S i)). lia.
Qed.

(** *** The requests of a run *)

Lemma requests_app (a b : list event) : requests (a ++ b) = requests a ++ requests b.
Proof. apply filter_app. Qed.

Lemma smart_delay_requests (u : Q) (m : Api.machine) :
  requests (Api.trace (Api.smart_delay u m)) = requests (Api.trace m).
Proof.
  unfold Api.smart_delay. cbn [Api.trace].
  destruct (Qlt_bool _ _); [|reflexivity].
  cbn [Api.sleep Api.trace]. rewrite requests_app. cbn. apply app_nil_r.
Qed.

Lemma get_session_trace (m : Api.machine) :
  Api.trace (Api.get_session m) = Api.trace m.
Proof. unfold Api.get_session. now destruct (Api.session (Api.self m)). Qed.

Lemma after_fetch_requests (a : attempt) (m : Api.machine) :
  requests (Api.trace (fetched a m)) = requests (Api.trace m) ++ [request_of a qs].
Proof.
  unfold after_fetch, Api.send. cbn [Api.trace].
  rewrite requests_app, get_session_trace, smart_delay_requests.
  reflexivity.
Qed.

Lemma sleep_requests (d : Q) (m : Api.machine) :
  requests (Api.trace (Api.sleep d m)) = requests (Api.trace m).
Proof.
  unfold Api.sleep. cbn [Api.trace]. rewrite requests_app. cbn. apply app_nil_r.
Qed.

Lemma after_blocks_requests (k : nat) :
  forall (env : oracle) (m : Api.machine),
    requests (Api.trace (after_blocks k env qs m)) =
    requests (Api.trace m) ++ List.map (fun i => request_of (env i) qs) (seq 0 k).
Proof.
  induction k as [|k IH]; intros env m.
  - cbn. now rewrite app_nil_r.
  - cbn [after_blocks]. rewrite IH, sleep_requests, after_fetch_requests.
    rewrite <- app_assoc. cbn [app seq List.map]. f_equal. f_equal.
    rewrite <- seq_shift, map_map. reflexivity.
Qed.

Lemma requests_after_run (k : nat) (env : oracle) (m : Api.machine) :
  requests (Api.trace (fetched (from k env O) (after_blocks k env qs m))) =
  requests (Api.trace m) ++ List.map (fun i => request_of (env i) qs) (seq 0 (S k)).
Proof.
  rewrite after_fetch_requests, after_blocks_requests, <- app_assoc.
  f_equal. rewrite seq_S, map_app. cbn [List.map Nat.add].
  unfold from. now rewrite Nat.add_0_r.
Qed.

(** A search that meets [k] block pages and then another reply returns with
    its [k + 1]-th attempt, when the stack has room for [k] retries. *)
Lemma search_returns_after_blocks (k : nat) (stack : nat) (env : oracle)
    (m : Api.machine) :
  (forall i, (i < k)%nat -> blocked_reply (env i) = true) ->
  blocked_reply (env k) = false ->
  (k <= stack)%nat ->
  exists r,
    final_answer (env k) (fetched (env k) (after_blocks k env qs m)) = Some r
    /\ search stack env m = (Ok r, fetched (env k) (after_blocks k env qs m))
    /\ requests (Api.trace (fetched (env k) (after_blocks k env qs m))) =
       requests (Api.trace m) ++ List.map (fun i => request_of (env i) qs) (seq 0 (S k)).
Proof.
  intros Hb Hk Hf.
  replace stack with (k + (stack - k))%nat by lia.
  rewrite search_blocked_run by assumption.
  destruct (@search_not_blocked (stack - k) (from k env) (after_blocks k env qs m))
    as (r & Hr & Hs).
  { unfold from. now rewrite Nat.add_0_r. }
  pose proof (requests_after_run k env m) as Hq.
  unfold from in Hr, Hs, Hq. rewrite Nat.add_0_r in Hr, Hs, Hq.
  exists r. now repeat split.
Qed.

(** A search that meets block pages only ends when the stack does: with the
    request after its last retry, answered by a failure. *)
Lemma search_ends_with_the_stack (stack : nat) (env : oracle) (m : Api.machine) :
  (forall i, (i <= stack)%nat -> blocked_reply (env i) = true) ->
  let m' := fetched (env stack) (after_blocks stack env qs m) in
  search stack env m
  = (Ok (Api.failure (recursion_error (env stack)) query (Api.clock m')), m')
  /\ requests (Api.trace m') =
     requests (Api.trace m) ++ List.map (fun i => request_of (env i) qs) (seq 0 (S stack)).
Proof.
  intros Hb m'.
  pose proof (requests_after_run stack env m) as Hq.
  pose proof (@search_blocked_run stack 0 env m) as Hr.
  rewrite Nat.add_0_r in Hr. rewrite Hr by (intros i Hi; apply Hb; lia).
  rewrite search_overflow by (unfold from; rewrite Nat.add_0_r; apply Hb; lia).
  unfold from in *. rewrite Nat.add_0_r in *. now split.
Qed.

(** *** The pacing state along a search *)

Lemma counted_trans (n1 n2 : Z) (s1 s2 s3 : Api.scraper) :
  counted n1 s1 s2 -> counted n2 s2 s3 -> counted (n1 + n2) s1 s3.
Proof.
  intros [H1 E1] [H2 E2]. split; [lra|].
  intros E. rewrite E2, E1 by lra. lia.
Qed.

Lemma smart_delay_counted (u : Q) (m : Api.machine) :
  counted 1 (Api.self m) (Api.self (Api.smart_delay u m)).
Proof.
  unfold counted, Api.smart_delay, Api.reset_if_due. cbn [Api.self].
  destruct (Qlt_bool 3600 (Api.clock m - Api.rate_limit_reset (Api.self m))) eqn:E;
    cbn [Api.rate_limit_reset Api.request_count].
  - apply Qlt_bool_iff in E. split; lra.
  - split; [lra|reflexivity].
Qed.

Lemma get_session_counted (m : Api.machine) :
  Api.request_count (Api.self (Api.get_session m)) = Api.request_count (Api.self m)
  /\ Api.rate_limit_reset (Api.self (Api.get_session m)) = Api.rate_limit_reset (Api.self m)
  /\ Api.last_request_time (Api.self (Api.get_session m)) = Api.last_request_time (Api.self m)
  /\ Api.clock (Api.get_session m) = Api.clock m.
Proof. unfold Api.get_session. now destruct (Api.session (Api.self m)). Qed.

Lemma after_fetch_counted (a : attempt) (m : Api.machine) :
  counted 1 (Api.self m) (Api.self (fetched a m)).
Proof.
  unfold after_fetch, Api.send. cbn [Api.self].
  destruct (get_session_counted (Api.smart_delay (u_delay a) m)) as (Hc & Hr & _).
  destruct (smart_delay_counted (u_delay a) m) as [H1 H2].
  unfold counted. rewrite Hc, Hr. now split.
Qed.

Lemma after_fetch_fetches (a : attempt) (m : Api.machine) :
  fetches (Api.trace (fetched a m)) = S (fetches (Api.trace m)).
Proof.
  unfold fetches. fold (requests (Api.trace (fetched a m))).
  rewrite after_fetch_requests, length_app. fold (requests (Api.trace m)). cbn. lia.
Qed.

Lemma sleep_fetches (d : Q) (m : Api.machine) :
  fetches (Api.trace (Api.sleep d m)) = fetches (Api.trace m).
Proof.
  unfold fetches. fold (requests (Api.trace (Api.sleep d m))).
  now rewrite sleep_requests.
Qed.

Lemma search_counted (stack : nat) :
  forall (env : oracle) (m : Api.machine) (o : outcome response) (m' : Api.machine),
    search stack env m = (o, m') ->
    (fetches (Api.trace m) < fetches (Api.trace m') <= fetches (Api.trace m) + S stack)%nat
    /\ counted (Z.of_nat (fetches (Api.trace m') - fetches (Api.trace m)))
         (Api.self m) (Api.self m').
Proof.
  assert (Hone : forall env m,
             (fetches (Api.trace m) < fetches (Api.trace (fetched (env O) m))
              <= fetches (Api.trace m) + S stack)%nat
             /\ counted (Z.of_nat (fetches (Api.trace (fetched (env O) m))
                                   - fetches (Api.trace m)))
                  (Api.self m) (Api.self (fetched (env O) m))).
  { intros env m. rewrite after_fetch_fetches. split; [lia|].
    replace (S (fetches (Api.trace m)) - fetches (Api.trace m))%nat with 1%nat by lia.
    apply after_fetch_counted. }
  induction stack as [|stack IH]; intros env m o m'.
  - destruct (search_cases 0 env m) as [(r & -> & _)|(stack' & Es & _)];
      [|discriminate].
    intros [= _ <-]. apply Hone.
  - destruct (search_cases (S stack) env m) as [(r & -> & _)|(stack' & Es & Hb & ->)].
    + intros [= _ <-]. apply Hone.
    + injection Es as <-. intros Hs.
      assert (Hone' : forall env m,
                 (fetches (Api.trace m) < fetches (Api.trace (fetched (env O) m))
                  <= fetches (Api.trace m) + S stack)%nat
                 /\ counted (Z.of_nat (fetches (Api.trace (fetched (env O) m))
                                       - fetches (Api.trace m)))
                      (Api.self m) (Api.self (fetched (env O) m))).
      { intros env0 m0. destruct (Hone env0 m0) as [Ha Hb0]. split; [|exact Hb0].
        rewrite after_fetch_fetches in *. lia. }
      apply (IH Hone') in Hs as [Hlt Hc].
      pose proof (after_fetch_counted (env O) m) as H1.
      pose proof (after_fetch_fetches (env O) m) as Hf.
      rewrite sleep_fetches, Hf in Hlt, Hc. split; [lia|].
      cbn [Api.sleep Api.self] in Hc.
      replace (Z.of_nat (fetches (Api.trace m') - fetches (Api.trace m)))
        with (1 + Z.of_nat (fetches (Api.trace m') - S (fetches (Api.trace m))))%Z by lia.
      eapply counted_trans; eassumption.
Qed.

(** *** The shape of the responses *)

Lemma numbered_firstn (k : nat) (rs : list result) :
  numbered rs -> numbered (firstn k rs).
Proof.
  unfold numbered. intros H.
  rewrite <- firstn_map, H, length_firstn.
  revert k. generalize 1%nat. generalize (List.length rs).
  induction n as [|n IH]; intros st [|k]; try reflexivity.
  cbn. f_equal. apply IH.
Qed.

Lemma slice_to_numbered (n : Z) (rs : list result) :
  numbered rs -> numbered (slice_to rs n).
Proof. unfold slice_to. destruct (0 <=? n)%Z; apply numbered_firstn. Qed.

Lemma slice_to_length (n : Z) (rs : list result) :
  (0 <= n)%Z -> (Z.of_nat (List.length (slice_to rs n)) <= n)%Z.
Proof.
  intros Hn. unfold slice_to.
  destruct (Z.leb_spec 0 n); [|lia].
  rewrite length_firstn. lia.
Qed.

Lemma failure_well_formed (n : Z) (e q : pystr) (t : Q) :
  well_formed n (Api.failure e q t).
Proof. split; [now split|discriminate]. Qed.

(** What ends a search with the attempt that got it is a failure, or the
    response to a page. *)
Lemma final_answer_cases (a : attempt) (m1 : Api.machine) (r : response) :
  final_answer a m1 = Some r ->
  (exists e, r = Api.failure e query (Api.clock m1))
  \/ (exists html top,
        exchange a = Ok (200%Z, Ok html) /\ Api.blocked html = false
        /\ BeautifulSoup html = Ok top
        /\ r = page_response a query num_results (Api.parse_soup (soup_of top))
                 (Api.clock m1)).
Proof.
  unfold final_answer.
  destruct (exchange a) as [[status [html|e]]|e].
  - destruct (status =? 200)%Z eqn:Es; [|intros [= <-]; left; eauto].
    apply Z.eqb_eq in Es as ->.
    destruct (Api.blocked html) eqn:Eb; [discriminate|].
    destruct (Api.parse_search_results html) as [rs|e] eqn:E; intros [= <-];
      [|left; eauto].
    apply api_parse_ok in E as (top & Ht & ->). right. now exists html, top.
  - destruct (status =? 200)%Z; intros [= <-]; left; eauto.
  - intros [= <-]; left; eauto.
Qed.

Lemma final_answer_well_formed (a : attempt) (m1 : Api.machine) (r : response) :
  (0 <= num_results)%Z -> final_answer a m1 = Some r -> well_formed num_results r.
Proof.
  intros Hn Hr.
  apply final_answer_cases in Hr as [[e ->]|(html & top & _ & _ & _ & ->)];
    [apply failure_well_formed|].
  split; [discriminate|]. intros _.
  eexists; split; [reflexivity|]. split.
  - now apply slice_to_length.
  - apply slice_to_numbered, api_parse_soup_invariant.
Qed.

Lemma search_well_formed (stack : nat) :
  forall (env : oracle) (m : Api.machine) (r : response) (m' : Api.machine),
    (0 <= num_results)%Z ->
    search stack env m = (Ok r, m') -> well_formed num_results r.
Proof.
  induction stack as [|stack IH]; intros env m r m' Hn.
  - destruct (search_cases 0 env m)
      as [(r0 & -> & [Hf|(_ & _ & ->)])|(stack' & Es & _)]; [| |discriminate].
    + intros [= <- _]. now apply final_answer_well_formed with (2 := Hf).
    + intros [= <- _]. apply failure_well_formed.
  - destruct (search_cases (S stack) env m)
      as [(r0 & -> & [Hf|(Es & _)])|(stack' & Es & Hb & ->)]; [|discriminate|].
    + intros [= <- _]. now apply final_answer_well_formed with (2 := Hf).
    + injection Es as <-. intros Hs. eapply IH; eassumption.
Qed.

(** A response of a search is a failure, or the response to a page that is
    not blocked and that the tree builder accepts. *)
Lemma search_answer (stack : nat) :
  forall (env : oracle) (m : Api.machine) (r : response) (m' : Api.machine),
    search stack env m = (Ok r, m') ->
    (exists e t, r = Api.failure e query t)
    \/ (exists a html top t,
          exchange a = Ok (200%Z, Ok html) /\ Api.blocked html = false
          /\ BeautifulSoup html = Ok top
          /\ r = page_response a query num_results (Api.parse_soup (soup_of top)) t).
Proof.
  assert (Hone : forall a m1 r,
             final_answer a m1 = Some r ->
             (exists e t, r = Api.failure e query t)
             \/ (exists a html top t,
                   exchange a = Ok (200%Z, Ok html) /\ Api.blocked html = false
                   /\ BeautifulSoup html = Ok top
                   /\ r = page_response a query num_results
                            (Api.parse_soup (soup_of top)) t)).
  { intros a m1 r Hf.
    apply final_answer_cases in Hf as [[e ->]|(html & top & He & Hb & Ht & ->)].
    - left. eauto.
    - right. exists a, html, top. eauto. }
  induction stack as [|stack IH]; intros env m r m'.
  - destruct (search_cases 0 env m)
      as [(r0 & -> & [Hf|(_ & _ & ->)])|(stack' & Es & _)]; [| |discriminate].
    + intros [= <- _]. eapply Hone; eassumption.
    + intros [= <- _]. left. eauto.
  - destruct (search_cases (S stack) env m)
      as [(r0 & -> & [Hf|(Es & _)])|(stack' & Es & Hb & ->)]; [|discriminate|].
    + intros [= <- _]. eapply Hone; eassumption.
    + injection Es as <-. intros Hs. eapply IH; eassumption.
Qed.

End Search.

Lemma block_page_blocked {U : Unicode} : blocked_reply block_page = true.
Proof. vm_compute. reflexivity. Qed.

Lemma empty_page_not_blocked {U : Unicode} : blocked_reply empty_page = false.
Proof. vm_compute. reflexivity. Qed.

Lemma lookup_date_params (d : option pystr) :
  match d with
  | Some d => Api.lookup Api.date_params d
  | None => None
  end = recency_token d.
Proof.
  destruct d as [d|]; [|reflexivity].
  unfold recency_token, Api.date_params. cbn [Api.lookup].
  repeat (destruct (pystr_eqb d _); [reflexivity|]). reflexivity.
Qed.

(** The tool-server search sends nothing before its request. *)
Lemma mcp_prepared_requests (a : attempt) (m : Mcp.machine) :
  requests (Mcp.trace (Mcp.get_session (Mcp.delay_request (u_delay a) (u_extra a) m)))
  = requests (Mcp.trace m).
Proof.
  assert (Hg : forall m0, Mcp.trace (Mcp.get_session m0) = Mcp.trace m0).
  { intros m0. unfold Mcp.get_session. now destruct (Mcp.session (Mcp.self m0)). }
  rewrite Hg. unfold Mcp.delay_request. cbn [Mcp.trace].
  destruct (Qlt_bool _ _); [|reflexivity].
  cbn [Mcp.sleep Mcp.trace]. rewrite requests_app. cbn. apply app_nil_r.
Qed.

(** A search that returns has built its query string. *)
Lemma search_returns_built {U : Unicode} {B : TreeBuilder}
    (query : pystr) (num_results : Z) (language : pystr) (safe_search : bool)
    (kw : Api.kwargs) (stack : nat) (env : oracle) (m : Api.machine)
    (r : response) (m' : Api.machine) :
  Api.search stack env query num_results language safe_search kw m = (Ok r, m') ->
  exists qs,
    Api.query_string (Api.build_params query num_results language safe_search kw)
    = Ok qs.
Proof.
  destruct (Api.query_string _) as [qs|e] eqn:E; [eauto|].
  rewrite (@search_raises _ _ query num_results language safe_search kw stack env m e E).
  discriminate.
Qed.

(** A literal of the source holds no surrogate, nor does the decimal form of
    an integer. *)
Lemma encodable_str (s : string) : encodable (str s) = true.
Proof.
  unfold encodable, str. apply forallb_forall. intros c Hc.
  apply in_map_iff in Hc as (a & <- & _).
  pose proof (N_ascii_bounded a) as Ha.
  unfold is_surrogate.
  destruct (N.leb_spec 55296 (N_of_ascii a)); [lia|reflexivity].
Qed.

Lemma encodable_app (a b : pystr) :
  encodable (a ++ b) = encodable a && encodable b.
Proof. apply forallb_app. Qed.

Lemma encodable_str_of_int (n : Z) : encodable (str_of (VInt n)) = true.
Proof. apply encodable_str. Qed.

(** The parameters of the REST search, in order. *)
Lemma build_params_list (query : pystr) (num_results : Z) (language : pystr)
    (safe_search : bool) (kw : Api.kwargs) :
  Api.build_params query num_results language safe_search kw
  = [("q", VStr (query ++ modifier "site" (Api.kwarg kw "site")
                       ++ modifier "filetype" (Api.kwarg kw "filetype")));
     ("num", VInt (Z.min (num_results + 5) 50));
     ("hl", VStr language);
     ("lr", VStr (str "lang_" ++ language));
     ("safe", VStr (if safe_search then str "active" else str "off"));
     ("start", VInt 0)]
    ++ match recency_token (Api.kwarg kw "date_range") with
       | Some token => [("tbs", VStr (str "qdr:" ++ token))]
       | None => []
       end.
Proof.
  rewrite <- lookup_date_params. unfold Api.build_params.
  destruct (Api.kwarg kw "site") as [s|];
    destruct (Api.kwarg kw "filetype") as [f|];
    destruct (Api.kwarg kw "date_range") as [d|];
    try destruct (Api.lookup Api.date_params d);
    cbn [Api.append_to dict_get dict_set String.eqb Ascii.eqb Bool.eqb str_of modifier app];
    rewrite ?app_nil_r, <- ?app_assoc; reflexivity.
Qed.

Lemma recency_token_encodable (d : option pystr) (token : pystr) :
  recency_token d = Some token -> encodable token = true.
Proof.
  destruct d as [d|]; [|discriminate]. unfold recency_token.
  repeat (destruct (pystr_eqb d _); [intros [= <-]; reflexivity|]). discriminate.
Qed.

(** The query string of the REST search is built exactly when the term, the
    language and the filters in use hold no surrogate. *)
Lemma api_query_string_built (query : pystr) (num_results : Z) (language : pystr)
    (safe_search : bool) (kw : Api.kwargs) :
  if api_encodable query language kw
  then exists qs,
         Api.query_string (Api.build_params query num_results language safe_search kw)
         = Ok qs
  else exists e,
         Api.query_string (Api.build_params query num_results language safe_search kw)
         = Raised e.
Proof.
  rewrite build_params_list. unfold api_encodable.
  assert (Hm : forall label o,
             encodable (modifier label o) = encodable (or_else o [])).
  { intros label [v|]; [|reflexivity]. unfold modifier.
    now rewrite !encodable_app, !encodable_str. }
  assert (Htbs :
            Forall (fun p : string * pyval => encodable (str_of (snd p)) = true)
              match recency_token (Api.kwarg kw "date_range") with
              | Some token => [("tbs", VStr (str "qdr:" ++ token))]
              | None => []
              end).
  { destruct (recency_token _) as [token|] eqn:E; [|constructor].
    repeat constructor. cbn [snd str_of].
    rewrite encodable_app, (recency_token_encodable _ E). reflexivity. }
  destruct (encodable query && encodable language
            && encodable (or_else (Api.kwarg kw "site") [])
            && encodable (or_else (Api.kwarg kw "filetype") [])) eqn:E.
  - apply andb_true_iff in E as [E Hf]. apply andb_true_iff in E as [E Hs].
    apply andb_true_iff in E as [Hq Hl].
    eexists. apply api_query_string_ok.
    apply Forall_app; split; [|exact Htbs].
    repeat constructor; cbn [snd str_of];
      rewrite ?encodable_app, ?Hm, ?encodable_str, ?Hq, ?Hs, ?Hf, ?Hl;
      try reflexivity; try apply encodable_str_of_int.
    destruct safe_search; reflexivity.
  - apply api_query_string_raises. apply Exists_app. left.
    destruct (encodable query) eqn:Hq;
      [|left; cbn [snd str_of]; now rewrite !encodable_app, Hq].
    destruct (encodable language) eqn:Hl; [|right; right; left; exact Hl].
    left. cbn [snd str_of]. rewrite !encodable_app, !Hm, Hq.
    cbn [andb] in E |- *. exact E.
Qed.

(** C1, as the code has it. After a block page the search waits the extra
    delay, between 3 and 7 seconds, and runs again from the top on what the
    world answers next, with the identity and the mirror drawn anew. The
    scraper keeps no count of the attempts and sets no maximum: each retry is
    a call nested in the attempt before, and what bounds them is the stack of
    the interpreter. With room for [stack] nested retries, [k] block pages
    followed by another reply, [k <= stack], give exactly [k + 1] requests
    and the answer to the last; block pages only give [stack + 1] requests
    and then a failure response, the RecursionError of the retry that does
    not fit being caught like any other exception; no search makes more than
    [stack + 1] requests. *)
Theorem blocked_search_retries_while_the_stack_lasts {U : Unicode} {B : TreeBuilder}
    (query : pystr) (num_results : Z) (language : pystr) (safe_search : bool)
    (kw : Api.kwargs) (qs : pystr) :
  Api.query_string (Api.build_params query num_results language safe_search kw)
  = Ok qs ->
  (forall (stack : nat) (env : oracle) (m : Api.machine),
     blocked_reply (env O) = true ->
     Api.search (S stack) env query num_results language safe_search kw m =
     Api.search stack (rest env) query num_results language safe_search kw
       (Api.sleep (uniform 3 7 (u_extra (env O))) (after_fetch (env O) qs m)))
  /\ (forall u : Q, 0 <= u <= 1 -> 3 <= uniform 3 7 u <= 7)
  /\ (forall (k stack : nat) (env : oracle) (m : Api.machine),
        (forall i, (i < k)%nat -> blocked_reply (env i) = true) ->
        blocked_reply (env k) = false ->
        (k <= stack)%nat ->
        exists r m',
          Api.search stack env query num_results language safe_search kw m
          = (Ok r, m')
          /\ final_answer query num_results (env k) m' = Some r
          /\ requests (Api.trace m') =
             requests (Api.trace m)
             ++ List.map (fun i => request_of (env i) qs) (seq 0 (S k)))
  /\ (forall (stack : nat) (env : oracle) (m : Api.machine),
        (forall i, (i <= stack)%nat -> blocked_reply (env i) = true) ->
        exists m',
          Api.search stack env query num_results language safe_search kw m
          = (Ok (Api.failure (recursion_error (env stack)) query (Api.clock m')), m')
          /\ requests (Api.trace m') =
             requests (Api.trace m)
             ++ List.map (fun i => request_of (env i) qs) (seq 0 (S stack)))
  /\ (forall (stack : nat) (env : oracle) (m : Api.machine)
             (o : outcome response) (m' : Api.machine),
        Api.search stack env query num_results language safe_search kw m = (o, m') ->
        (fetches (Api.trace m) < fetches (Api.trace m')
         <= fetches (Api.trace m) + S stack)%nat).
Proof.
  intros built.
  split; [|split; [|split; [|split]]].
  - intros stack env m Hb. now apply search_blocked.
  - intros u Hu. apply uniform_range; [lra|assumption].
  - intros k stack env m Hb Hk Hf.
    destruct (@search_returns_after_blocks _ _ query num_results language safe_search
                kw qs built k stack env m Hb Hk Hf) as (r & Hr & Hs & Hq).
    exists r. eexists. split; [exact Hs|]. split; assumption.
  - intros stack env m Hb.
    destruct (@search_ends_with_the_stack _ _ query num_results language safe_search
                kw qs built stack env m Hb) as [Hs Hq].
    eexists. split; [exact Hs|exact Hq].
  - intros stack env m o m' H.
    exact (proj1 (@search_counted _ _ query num_results language safe_search kw qs
                    built stack env m o m' H)).
Qed.

Lemma blocked_search_retries_while_the_stack_lasts_witness :
  (exists r m',
     @Api.search ascii_tables plain_text 6 (blocked_times 4) (str "rust") 10
       (str "es") false [] fresh = (Ok r, m')
     /\ @final_answer ascii_tables plain_text (str "rust") 10 (blocked_times 4 4%nat) m'
        = Some r
     /\ requests (Api.trace m') =
        requests (Api.trace fresh)
        ++ List.map
             (fun i => request_of (blocked_times 4 i)
                         (str "q=rust&num=15&hl=es&lr=lang_es&safe=off&start=0"))
             (seq 0 5))
  /\ (exists m',
        @Api.search ascii_tables plain_text 2 always_blocked (str "rust") 10
          (str "es") false [] fresh
        = (Ok (Api.failure RecursionError (str "rust") (Api.clock m')), m')
        /\ requests (Api.trace m') =
           requests (Api.trace fresh)
           ++ List.map
                (fun i => request_of (always_blocked i)
                            (str "q=rust&num=15&hl=es&lr=lang_es&safe=off&start=0"))
                (seq 0 3)).
Proof.
  pose proof (@blocked_search_retries_while_the_stack_lasts ascii_tables plain_text
                (str "rust") 10%Z (str "es") false []
                (str "q=rust&num=15&hl=es&lr=lang_es&safe=off&start=0")
                ltac:(vm_compute; reflexivity)) as (_ & _ & Hk & Hs & _).
  split.
  - apply (Hk 4%nat 6%nat (blocked_times 4) fresh).
    + intros i Hi. do 4 (destruct i as [|i]; [vm_compute; reflexivity|]). lia.
    + vm_compute; reflexivity.
    + lia.
  - apply (Hs 2%nat always_blocked fresh).
    intros i _. vm_compute; reflexivity.
Defined.

(** C1 fails as stated: no explicit maximum attempt count, three or another,
    ends the retries. With four block pages in a row, and a stack with room
    for them, the search makes five requests, more than three, and answers
    with the fifth reply, not with a failure. *)
Lemma four_block_pages_give_five_requests :
  exists r m',
    @Api.search ascii_tables plain_text 6 (blocked_times 4) (str "rust") 10
      (str "es") false [] fresh = (Ok r, m')
    /\ success r = true
    /\ fetches (Api.trace m') = 5%nat.
Proof.
  eexists. eexists. split; [vm_compute; reflexivity|]. split; reflexivity.
Qed.

(** The tool-server search, case by case on what comes back. *)
Lemma mcp_search_raises {U : Unicode} {B : TreeBuilder}
    (a : attempt) (query : pystr) (num_results : Z) (lang : pystr) (m : Mcp.machine)
    (e : pystr) :
  Mcp.query_string (Mcp.build_params query num_results lang) = Raised e ->
  Mcp.search a query num_results lang m
  = (Raised e, Mcp.get_session (Mcp.delay_request (u_delay a) (u_extra a) m)).
Proof. intros H. unfold Mcp.search. now rewrite H. Qed.

Lemma mcp_search_attempt {U : Unicode} {B : TreeBuilder}
    (a : attempt) (query : pystr) (num_results : Z) (lang : pystr) (m : Mcp.machine)
    (qs : pystr) :
  Mcp.query_string (Mcp.build_params query num_results lang) = Ok qs ->
  let m1 := mcp_after_fetch a qs m in
  Mcp.search a query num_results lang m =
  match exchange a with
  | Raised e => (Ok (Mcp.failure e query (Mcp.clock m1)), m1)
  | Ok (status, text) =>
      if (status =? 200)%Z then
        match text with
        | Raised e => (Ok (Mcp.failure e query (Mcp.clock m1)), m1)
        | Ok html =>
            match Mcp.parse_search_results html with
            | Ok results =>
                (Ok (Response true query (Some (List.length results))
                       (Some (slice_to results num_results))
                       (Mcp.clock m1)
                       (Some (choice GOOGLE_DOMAINS (pick_domain a))) None None), m1)
            | Raised e => (Ok (Mcp.failure e query (Mcp.clock m1)), m1)
            end
        end
      else (Ok (Mcp.failure (str "HTTP " ++ str_of (VInt status)) query
                  (Mcp.clock m1)), m1)
  end.
Proof.
  intros H. unfold Mcp.search, mcp_after_fetch. rewrite H. cbv zeta.
  destruct (exchange a) as [[status [html|e]]|e]; [| |reflexivity];
    destruct (status =? 200)%Z; try reflexivity.
  destruct (Mcp.parse_search_results html); reflexivity.
Qed.

Lemma mcp_search_never_raises {U : Unicode} {B : TreeBuilder}
    (a : attempt) (query : pystr) (num_results : Z) (lang : pystr) (m : Mcp.machine)
    (qs : pystr) :
  Mcp.query_string (Mcp.build_params query num_results lang) = Ok qs ->
  exists r, Mcp.search a query num_results lang m = (Ok r, mcp_after_fetch a qs m).
Proof.
  intros H. rewrite (mcp_search_attempt a query num_results lang m H). cbv zeta.
  destruct (exchange a) as [[status [html|e]]|e]; [| |eauto];
    destruct (status =? 200)%Z; eauto.
  destruct (Mcp.parse_search_results html); eauto.
Qed.

Lemma mcp_search_returns_built {U : Unicode} {B : TreeBuilder}
    (a : attempt) (query : pystr) (num_results : Z) (lang : pystr) (m : Mcp.machine)
    (r : response) :
  fst (Mcp.search a query num_results lang m) = Ok r ->
  exists qs, Mcp.query_string (Mcp.build_params query num_results lang) = Ok qs.
Proof.
  destruct (Mcp.query_string _) as [qs|e] eqn:E; [eauto|].
  rewrite (mcp_search_raises a query num_results lang m E). discriminate.
Qed.

(** The query string of the tool-server search is built exactly when the
    term and the language hold no surrogate. *)
Lemma mcp_query_string_built (query : pystr) (num_results : Z) (lang : pystr) :
  if encodable query && encodable lang
  then exists qs, Mcp.query_string (Mcp.build_params query num_results lang) = Ok qs
  else exists e, Mcp.query_string (Mcp.build_params query num_results lang) = Raised e.
Proof.
  rewrite mcp_query_string_eq. unfold Mcp.build_params.
  destruct (encodable query) eqn:Hq; cbn [andb].
  - destruct (encodable lang) eqn:Hl.
    + eexists. apply api_query_string_ok.
      repeat constructor; cbn [snd str_of]; try assumption;
        try apply encodable_str_of_int; reflexivity.
    + apply api_query_string_raises. right; right; left. exact Hl.
  - apply api_query_string_raises. left. exact Hq.
Qed.

(** C8, as the code has it. When the query string is built, no exception
    leaves the search: a transport fault, at the request or while the body is
    read, is answered at once by the failure response that carries its
    message, and so is a body that the tree builder rejects; a status other
    than 200, hence any status outside 2xx, is answered at once by the
    failure response that carries the status, after this one request and no
    other. A failure response has its success flag false and its error set.
    The query string is built before the [try],
    exactly when the term, the language and the filters in use hold no
    surrogate; otherwise the exception of the encoding leaves the search,
    after the pacing and before any request. The tool-server search does the
    same. *)
Theorem search_answers_faults_with_failures {U : Unicode} {B : TreeBuilder}
    (query : pystr) (num_results : Z) (language : pystr) (safe_search : bool)
    (kw : Api.kwargs) :
  (forall qs : pystr,
     Api.query_string (Api.build_params query num_results language safe_search kw)
     = Ok qs ->
     (forall (stack : nat) (env : oracle) (m : Api.machine),
        exists r,
          fst (Api.search stack env query num_results language safe_search kw m)
          = Ok r)
     /\ (forall (stack : nat) (env : oracle) (m : Api.machine) (e : pystr),
           (exchange (env O) = Raised e \/ exchange (env O) = Ok (200%Z, Raised e)) ->
           let m1 := after_fetch (env O) qs m in
           Api.search stack env query num_results language safe_search kw m
           = (Ok (Api.failure e query (Api.clock m1)), m1))
     /\ (forall (stack : nat) (env : oracle) (m : Api.machine) (status : Z)
                (text : outcome pystr),
           exchange (env O) = Ok (status, text) -> status <> 200%Z ->
           let m1 := after_fetch (env O) qs m in
           Api.search stack env query num_results language safe_search kw m
           = (Ok (Api.failure (str "HTTP " ++ str_of (VInt status)) query
                    (Api.clock m1)), m1)
           /\ requests (Api.trace m1) =
              requests (Api.trace m) ++ [request_of (env O) qs])
     /\ (forall (stack : nat) (env : oracle) (m : Api.machine) (html e : pystr),
           exchange (env O) = Ok (200%Z, Ok html) ->
           Api.blocked html = false ->
           BeautifulSoup html = Raised e ->
           let m1 := after_fetch (env O) qs m in
           Api.search stack env query num_results language safe_search kw m
           = (Ok (Api.failure e query (Api.clock m1)), m1)))
  /\ (forall (e q : pystr) (t : Q),
        success (Api.failure e q t) = false
        /\ error (Api.failure e q t) = Some e
        /\ results (Api.failure e q t) = None)
  /\ (if api_encodable query language kw
      then exists qs,
             Api.query_string
               (Api.build_params query num_results language safe_search kw) = Ok qs
      else exists e,
             Api.query_string
               (Api.build_params query num_results language safe_search kw) = Raised e)
  /\ (forall (e : pystr) (stack : nat) (env : oracle) (m : Api.machine),
        Api.query_string (Api.build_params query num_results language safe_search kw)
        = Raised e ->
        let run := Api.search stack env query num_results language safe_search kw m in
        fst run = Raised e
        /\ requests (Api.trace (snd run)) = requests (Api.trace m)
        /\ Api.request_count (Api.self (snd run))
           = Api.request_count (Api.self (Api.smart_delay (u_delay (env O)) m)))
  /\ (forall (qs : pystr) (a : attempt) (m : Mcp.machine),
        Mcp.query_string (Mcp.build_params query num_results language) = Ok qs ->
        (exists r, fst (Mcp.search a query num_results language m) = Ok r)
        /\ (forall e : pystr,
              (exchange a = Raised e \/ exchange a = Ok (200%Z, Raised e)) ->
              exists t, fst (Mcp.search a query num_results language m)
                        = Ok (Mcp.failure e query t))
        /\ (forall (status : Z) (text : outcome pystr),
              exchange a = Ok (status, text) -> status <> 200%Z ->
              exists t, fst (Mcp.search a query num_results language m)
                        = Ok (Mcp.failure (str "HTTP " ++ str_of (VInt status))
                                query t)))
  /\ (if encodable query && encodable language
      then exists qs,
             Mcp.query_string (Mcp.build_params query num_results language) = Ok qs
      else exists e,
             forall (a : attempt) (m : Mcp.machine),
               fst (Mcp.search a query num_results language m) = Raised e
               /\ requests (Mcp.trace (snd (Mcp.search a query num_results language m)))
                  = requests (Mcp.trace m)).
Proof.
  split; [|split; [|split; [|split; [|split]]]].
  - intros qs built. split; [|split; [|split]].
    + intros stack env m. now apply search_never_raises with (qs := qs).
    + intros stack env m e He m1. subst m1.
      rewrite (@search_attempt _ _ query num_results language safe_search kw qs built).
      cbv zeta. unfold final_answer.
      destruct He as [-> | ->]; reflexivity.
    + intros stack env m status text He Hs m1. subst m1. split.
      * rewrite (@search_attempt _ _ query num_results language safe_search kw qs built).
        cbv zeta. unfold final_answer. rewrite He.
        apply Z.eqb_neq in Hs. now rewrite Hs.
      * apply after_fetch_requests.
    + intros stack env m html e He Hb Ht m1. subst m1.
      rewrite (@search_attempt _ _ query num_results language safe_search kw qs built).
      cbv zeta. unfold final_answer. rewrite He. cbn [Z.eqb Pos.eqb].
      now rewrite Hb, api_parse_body, Ht.
  - intros e q t. repeat split.
  - apply api_query_string_built.
  - intros e stack env m He run. subst run.
    rewrite (@search_raises _ _ query num_results language safe_search kw stack env m
               e He).
    cbn [fst snd]. split; [reflexivity|]. split.
    + now rewrite get_session_trace, smart_delay_requests.
    + now destruct (get_session_counted (Api.smart_delay (u_delay (env O)) m)) as [-> _].
  - intros qs a m built.
    rewrite (mcp_search_attempt a query num_results language m built). cbv zeta.
    repeat split.
    + destruct (exchange a) as [[status [html|e]]|e]; [| |cbn [fst]; eauto];
        destruct (status =? 200)%Z; cbn [fst]; eauto.
      destruct (Mcp.parse_search_results html); cbn [fst]; eauto.
    + intros e [-> | ->]; cbn [fst Z.eqb Pos.eqb]; eauto.
    + intros status text -> Hs. apply Z.eqb_neq in Hs. rewrite Hs. cbn [fst]. eauto.
  - pose proof (mcp_query_string_built query num_results language) as H.
    destruct (encodable query && encodable language); [exact H|].
    destruct H as [e He]. exists e. intros a m.
    rewrite (mcp_search_raises a query num_results language m He). cbn [fst snd].
    split; [reflexivity|]. apply mcp_prepared_requests.
Qed.

Lemma search_answers_faults_with_failures_witness :
  let qs := str "q=rust&num=15&hl=es&lr=lang_es&safe=off&start=0" in
  (@Api.search ascii_tables plain_text 1 (fun _ => timed_out) (str "rust") 10
     (str "es") false [] fresh
   = (Ok (Api.failure (str "Connection timeout to host") (str "rust")
            (Api.clock (after_fetch timed_out qs fresh))),
      after_fetch timed_out qs fresh))
  /\ (@Api.search ascii_tables plain_text 1 (fun _ => unavailable) (str "rust") 10
        (str "es") false [] fresh
      = (Ok (Api.failure (str "HTTP 503") (str "rust")
               (Api.clock (after_fetch unavailable qs fresh))),
         after_fetch unavailable qs fresh))
  /\ fst (@Api.search ascii_tables plain_text 1 (fun _ => empty_page) [55296%N] 10
            (str "es") false [] fresh)
     = Raised (str "'utf-8' codec can't encode character '\ud800' in position 0: surrogates not allowed")
  /\ (exists r,
        fst (@Mcp.search ascii_tables plain_text timed_out (str "rust") 10 (str "es")
               (Mcp.Machine Mcp.init 1000 []))
        = Ok r).
Proof.
  intros qs.
  pose proof (@search_answers_faults_with_failures ascii_tables plain_text
                (str "rust") 10%Z (str "es") false [])
    as (Hb & _ & _ & _ & Hm & _).
  destruct (Hb qs ltac:(vm_compute; reflexivity)) as (_ & Hfault & Hstatus & _).
  split; [|split; [|split]].
  - apply (Hfault 1%nat (fun _ => timed_out) fresh (str "Connection timeout to host")).
    left; reflexivity.
  - apply (proj1 (Hstatus 1%nat (fun _ => unavailable) fresh 503%Z
                    (Ok (str "Service Unavailable")) eq_refl ltac:(discriminate))).
  - apply (proj1 (proj1 (proj2 (proj2 (proj2
             (@search_answers_faults_with_failures ascii_tables plain_text
                [55296%N] 10%Z (str "es") false []))))
             _ 1%nat (fun _ => empty_page) fresh ltac:(vm_compute; reflexivity))).
  - apply (proj1 (Hm (str "q=rust&num=10&hl=es&lr=lang_es&safe=off") timed_out
                    (Mcp.Machine Mcp.init 1000 []) ltac:(vm_compute; reflexivity))).
Defined.

(** C8 fails as stated: the search does raise to its caller. The query
    string is built before the [try]; for a term that holds a lone surrogate,
    which a JSON body can carry, the encoding raises, the exception leaves
    the search and no request is sent. The tool-server search does the
    same. *)
Lemma search_raises_on_a_surrogate :
  (exists e m',
     @Api.search ascii_tables plain_text 1 (fun _ => empty_page) [55296%N] 10
       (str "es") false [] fresh = (Raised e, m')
     /\ e = str "'utf-8' codec can't encode character '\ud800' in position 0: surrogates not allowed"
     /\ fetches (Api.trace m') = 0%nat)
  /\ (exists e m',
        @Mcp.search ascii_tables plain_text empty_page [55296%N] 10 (str "es")
          (Mcp.Machine Mcp.init 1000 []) = (Raised e, m')
        /\ fetches (Mcp.trace m') = 0%nat).
Proof.
  split.
  - eexists. eexists. split; [vm_compute; reflexivity|]. split; reflexivity.
  - eexists. eexists. split; [vm_compute; reflexivity|]. reflexivity.
Qed.

(** C2. Every response of a search for a requested count that is not
    negative is well formed: a failure carries no results; a success carries
    at most the requested count of results, with the positions 1, 2, ... in
    order. The tool-server search answers the same way. *)
Theorem search_responses_are_well_formed {U : Unicode} {B : TreeBuilder}
    (query : pystr) (num_results : Z) (language : pystr) (safe_search : bool)
    (kw : Api.kwargs) (Hcount : (0 <= num_results)%Z) :
  (forall (stack : nat) (env : oracle) (m : Api.machine) (r : response)
          (m' : Api.machine),
     Api.search stack env query num_results language safe_search kw m = (Ok r, m') ->
     well_formed num_results r)
  /\ (forall (a : attempt) (m : Mcp.machine) (r : response),
        fst (Mcp.search a query num_results language m) = Ok r ->
        well_formed num_results r).
Proof.
  split.
  - intros stack env m r m' H.
    destruct (search_returns_built _ _ _ _ _ _ _ _ H) as [qs built].
    eapply (@search_well_formed _ _ query num_results language safe_search kw qs built);
      eassumption.
  - intros a m r H.
    destruct (mcp_search_returns_built _ _ _ _ _ H) as [qs built].
    revert H. rewrite (mcp_search_attempt a query num_results language m built).
    cbv zeta.
    assert (Hf : forall e q t, well_formed num_results (Mcp.failure e q t)).
    { intros e q t. split; [now split|discriminate]. }
    destruct (exchange a) as [[status [html|e]]|e].
    + destruct (status =? 200)%Z; [|cbn [fst]; intros [= <-]; apply Hf].
      destruct (Mcp.parse_search_results html) as [rs|e] eqn:E; cbn [fst];
        intros [= <-]; [|apply Hf].
      apply mcp_parse_ok in E as (top & _ & ->).
      split; [discriminate|]. intros _.
      eexists; split; [reflexivity|]. split.
      * now apply slice_to_length.
      * apply slice_to_numbered. exact (proj1 (mcp_parse_soup_invariant _)).
    + destruct (status =? 200)%Z; cbn [fst]; intros [= <-]; apply Hf.
    + cbn [fst]. intros [= <-]; apply Hf.
Qed.

Lemma search_responses_are_well_formed_witness :
  exists r m',
    @Api.search ascii_tables canned_page 1 (fun _ => empty_page) (str "rust") 2
      (str "es") false [] fresh = (Ok r, m')
    /\ option_map (List.map summary) (results r)
       = Some (firstn 2 three_results)
    /\ well_formed 2 r.
Proof.
  eexists. eexists. split; [vm_compute; reflexivity|].
  split; [vm_compute; reflexivity|].
  apply (proj1 (@search_responses_are_well_formed ascii_tables canned_page
                  (str "rust") 2%Z (str "es") false [] ltac:(lia))
           1%nat (fun _ => empty_page) fresh _ _ eq_refl).
Defined.



(** ** The query *)

Lemma kwarg_present (kw : Api.kwargs) (k : string) (v : pystr) :
  Api.kwarg kw k = Some v <-> dict_get kw k = Some (Some v) /\ v <> [].
Proof.
  unfold Api.kwarg.
  destruct (dict_get kw k) as [[w|]|].
  - destruct w as [|c w]; cbn [truthy]; split.
    + discriminate.
    + intros [[= <-] H]. now elim H.
    + intros [= <-]. split; [reflexivity|discriminate].
    + intros [[= <-] _]. reflexivity.
  - split; [discriminate|]. intros [[=] _].
  - split; [discriminate|]. intros [[=] _].
Qed.

(** C9, as the code has it. The REST search sends the term with a site and a
    filetype modifier appended, each exactly when the filter is given and not
    empty; the recency token d, w, m or y of the date range day, week, month
    or year as a parameter of its own, tbs, which is absent without a date
    range and for any other value; and min(count + 5, 50) as the number of
    results. The tool-server search sends the term as it gets it and
    min(count, 20) as the number of results; the modifiers are appended by
    its advanced tool, in the same form. *)
Theorem query_parameters (query : pystr) (num_results : Z) (language : pystr)
    (safe_search : bool) (kw : Api.kwargs) :
  let params := Api.build_params query num_results language safe_search kw in
  dict_get params "q"
  = Some (VStr (query ++ modifier "site" (Api.kwarg kw "site")
                      ++ modifier "filetype" (Api.kwarg kw "filetype")))
  /\ dict_get params "tbs"
     = option_map (fun token => VStr (str "qdr:" ++ token))
         (recency_token (Api.kwarg kw "date_range"))
  /\ dict_get params "num" = Some (VInt (Z.min (num_results + 5) 50))
  /\ (forall (k : string) (v : pystr),
        Api.kwarg kw k = Some v <-> dict_get kw k = Some (Some v) /\ v <> [])
  /\ (qs <- Api.query_string
               (Api.build_params (str "rust lang") 10 (str "es") false
                  [("site", Some (str "reddit.com"));
                   ("date_range", Some (str "week"))]) ;;
      Ok (Api.build_url (str "www.google.es") qs))
     = Ok (str "https://www.google.es/search?q=rust+lang+site%3Areddit.com&num=15&hl=es&lr=lang_es&safe=off&start=0&tbs=qdr%3Aw")
  /\ (qs <- Api.query_string
               (Api.build_params (str "rust lang") 10 (str "es") false
                  [("date_range", Some (str "decade"))]) ;;
      Ok (Api.build_url (str "www.google.es") qs))
     = Ok (str "https://www.google.es/search?q=rust+lang&num=15&hl=es&lr=lang_es&safe=off&start=0")
  /\ Mcp.build_params query num_results language
     = [("q", VStr query); ("num", VInt (Z.min num_results 20));
        ("hl", VStr language); ("lr", VStr (str "lang_" ++ language));
        ("safe", VStr (str "off"))]
  /\ (forall site filetype : pystr,
        Mcp.advanced_query query site filetype []
        = query
          ++ modifier "site" (if truthy site then Some site else None)
          ++ modifier "filetype" (if truthy filetype then Some filetype else None)).
Proof.
  intros params. subst params.
  split; [|split; [|split; [|split; [|split; [|split; [|split]]]]]].
  - unfold Api.build_params.
    destruct (Api.kwarg kw "site") as [s|];
      destruct (Api.kwarg kw "filetype") as [f|];
      destruct (Api.kwarg kw "date_range") as [d|];
      try destruct (Api.lookup Api.date_params d);
      cbn [Api.append_to dict_get dict_set String.eqb Ascii.eqb Bool.eqb str_of modifier];
      rewrite ?app_nil_r, <- ?app_assoc; reflexivity.
  - rewrite <- lookup_date_params. unfold Api.build_params.
    destruct (Api.kwarg kw "site") as [s|];
      destruct (Api.kwarg kw "filetype") as [f|];
      destruct (Api.kwarg kw "date_range") as [d|];
      try destruct (Api.lookup Api.date_params d);
      reflexivity.
  - unfold Api.build_params.
    destruct (Api.kwarg kw "site") as [s|];
      destruct (Api.kwarg kw "filetype") as [f|];
      destruct (Api.kwarg kw "date_range") as [d|];
      try destruct (Api.lookup Api.date_params d);
      reflexivity.
  - intros k v. apply kwarg_present.
  - vm_compute. reflexivity.
  - vm_compute. reflexivity.
  - reflexivity.
  - intros site filetype. unfold Mcp.advanced_query.
    destruct (truthy site), (truthy filetype); cbn [modifier];
      rewrite ?app_nil_r, <- ?app_assoc; reflexivity.
Qed.

(** C9 fails as stated: for ten results the tool-server search asks the
    target for ten, not for fifteen. *)
Lemma tool_search_requests_the_count_itself :
  dict_get (Mcp.build_params (str "rust") 10 (str "es")) "num" = Some (VInt 10)
  /\ dict_get (Mcp.build_params (str "rust") 10 (str "es")) "num"
     <> Some (VInt (Z.min (10 + 5) 50)).
Proof. split; [reflexivity|discriminate]. Qed.

(* ================================================================= *)
(** * Further properties of the scraper *)

(** ** Pacing *)

(** X1. The backoff never shrinks as the counter grows: for the same draw, a
    larger request counter gives a delay at least as long. *)
Theorem total_delay_monotone (count count' : Z) (u : Q) :
  (count <= count')%Z -> Api.total_delay count u <= Api.total_delay count' u.
Proof.
  intros H. unfold Api.total_delay.
  destruct (Z.ltb_spec 20 count), (Z.ltb_spec 20 count'),
           (Z.ltb_spec 10 count), (Z.ltb_spec 10 count'); try lia; lra.
Qed.

Lemma total_delay_monotone_witness :
  Api.total_delay 5 (1 # 2) <= Api.total_delay 15 (1 # 2).
Proof. apply total_delay_monotone. lia. Defined.

(** X2. [smart_delay] waits exactly what is missing: when less than the
    computed delay has passed since the last request it sleeps the remainder,
    once, and otherwise it does not sleep; the clock never goes back; and
    with a clock that is not behind the last request, the wait is at most
    6.5 seconds. *)
Theorem smart_delay_waits_the_remainder (u : Q) (m : Api.machine) :
  let since := Api.clock m - Api.last_request_time (Api.self m) in
  let m' := Api.smart_delay u m in
  (since < Api.computed_delay u m ->
   Api.trace m' = Api.trace m ++ [EvSleep (Api.computed_delay u m - since)]
   /\ Api.clock m' == Api.last_request_time (Api.self m) + Api.computed_delay u m)
  /\ (Api.computed_delay u m <= since ->
      Api.trace m' = Api.trace m /\ Api.clock m' = Api.clock m)
  /\ Api.clock m <= Api.clock m'
  /\ (0 <= u <= 1 -> 0 <= since -> Api.clock m' - Api.clock m <= 6.5).
Proof.
  intros since m'. subst since m'.
  pose proof (total_delay_spec
                (Api.request_count (Api.reset_if_due (Api.self m) (Api.clock m))) u)
    as Hspec.
  unfold Api.smart_delay, Api.computed_delay in *.
  set (s := Api.reset_if_due (Api.self m) (Api.clock m)) in *.
  set (total := Api.total_delay (Api.request_count s) u) in *.
  destruct (Qlt_bool (Api.clock m - Api.last_request_time (Api.self m)) total) eqn:E.
  - apply Qlt_bool_iff in E. cbn [Api.sleep Api.trace Api.clock Api.self].
    split; [|split; [|split]].
    + intros _. split; [reflexivity|lra].
    + intros Hle. exfalso. lra.
    + lra.
    + intros Hu Hs.
      assert (Hj : 0.5 <= uniform 0.5 2.5 u <= 2.5)
        by (apply uniform_range; [lra|assumption]).
      assert (Hb : total <= 6.5).
      { rewrite Hspec. unfold pacing_delay.
        destruct (20 <? Api.request_count s)%Z;
          [|destruct (10 <? Api.request_count s)%Z]; lra. }
      lra.
  - apply Qlt_bool_false in E. cbn [Api.trace Api.clock].
    split; [|split; [|split]].
    + intros Hlt. exfalso. lra.
    + intros _. split; reflexivity.
    + lra.
    + intros Hu Hs. lra.
Qed.

Lemma smart_delay_waits_the_remainder_witness :
  Api.trace (Api.smart_delay (1 # 2) (Api.Machine (Api.Scraper SessionOpen 999 3 0) 1000 []))
  = [EvSleep (Api.computed_delay (1 # 2)
                (Api.Machine (Api.Scraper SessionOpen 999 3 0) 1000 [])
              - (1000 - 999))]
  /\ Api.clock (Api.smart_delay (1 # 2) (Api.Machine (Api.init 1000) 5000 [])) = 5000.
Proof.
  split.
  - apply (proj1 (smart_delay_waits_the_remainder (1 # 2)
                    (Api.Machine (Api.Scraper SessionOpen 999 3 0) 1000 []))).
    vm_compute; reflexivity.
  - apply (proj1 (proj2 (smart_delay_waits_the_remainder (1 # 2)
                           (Api.Machine (Api.init 1000) 5000 [])))).
    vm_compute; discriminate.
Defined.

(** X3. The pacing of the tool server: the delay lies in [2.0 s, 3.5 s] up to
    ten requests and in [3.0 s, 6.5 s] beyond; after [delay_request] at least
    that delay separates the clock from the previous request, the counter has
    grown by one (nothing ever resets it) and the last-request timestamp is
    the clock. *)
Theorem delay_request_paces (u1 u2 : Q) (m : Mcp.machine) :
  0 <= u1 <= 1 -> 0 <= u2 <= 1 ->
  let count := Mcp.request_count (Mcp.self m) in
  let delay := Mcp.min_delay count u1 u2 in
  let m' := Mcp.delay_request u1 u2 m in
  ((count <= 10)%Z -> 2.0 <= delay <= 3.5)
  /\ ((10 < count)%Z -> 3.0 <= delay <= 6.5)
  /\ delay <= Mcp.clock m' - Mcp.last_request_time (Mcp.self m)
  /\ Mcp.request_count (Mcp.self m') = (count + 1)%Z
  /\ Mcp.last_request_time (Mcp.self m') = Mcp.clock m'
  /\ requests (Mcp.trace m') = requests (Mcp.trace m).
Proof.
  intros Hu1 Hu2 count delay m'. subst count delay m'.
  assert (H1 : 0.5 <= uniform 0.5 2.0 u1 <= 2.0)
    by (apply uniform_range; [lra|assumption]).
  assert (H2 : 1.0 <= uniform 1.0 3.0 u2 <= 3.0)
    by (apply uniform_range; [lra|assumption]).
  unfold Mcp.delay_request.
  set (d := Mcp.min_delay (Mcp.request_count (Mcp.self m)) u1 u2).
  assert (Hd : d = Mcp.min_delay (Mcp.request_count (Mcp.self m)) u1 u2) by reflexivity.
  unfold Mcp.min_delay in Hd.
  split; [|split; [|split; [|split; [|split]]]].
  - intros Hc. apply Z.ltb_ge in Hc. rewrite Hc in Hd. rewrite Hd. lra.
  - intros Hc. apply Z.ltb_lt in Hc. rewrite Hc in Hd. rewrite Hd. lra.
  - destruct (Qlt_bool (Mcp.clock m - Mcp.last_request_time (Mcp.self m)) d) eqn:E.
    + cbn [Mcp.sleep Mcp.clock]. lra.
    + apply Qlt_bool_false in E. cbn [Mcp.clock]. lra.
  - reflexivity.
  - reflexivity.
  - destruct (Qlt_bool _ d); cbn [Mcp.trace Mcp.sleep]; [|reflexivity].
    unfold requests. rewrite filter_app. cbn. apply app_nil_r.
Qed.

Lemma delay_request_paces_witness :
  3.0 <= Mcp.min_delay 11 (1 # 2) (1 # 2) <= 6.5.
Proof.
  apply (proj1 (proj2 (@delay_request_paces (1 # 2) (1 # 2)
                         (Mcp.Machine (Mcp.Scraper SessionOpen 0 11) 1000 [])
                         ltac:(split; vm_compute; discriminate)
                         ltac:(split; vm_compute; discriminate)))).
  reflexivity.
Defined.

(** ** Text *)

Lemma collapse_space_is_plain (c : N) (b : bool) (s : pystr) :
  In c (collapse_from b s) -> is_space c = true -> c = 32%N.
Proof.
  revert b; induction s as [|x s IH]; intros b; simpl; [tauto|].
  destruct (is_space x) eqn:E; [destruct b|]; simpl; intros H Hc.
  - eapply IH; eassumption.
  - destruct H as [<-|H]; [reflexivity|]. eapply IH; eassumption.
  - destruct H as [<-|H]; [congruence|]. eapply IH; eassumption.
Qed.

(** X4. The only whitespace a cleaned text holds is the plain space: tabs,
    line breaks and the other Unicode spaces of the input never reach the
    output, in either copy of [clean_text]. *)
Theorem clean_text_whitespace_is_plain {U : Unicode} (s : pystr) (c : N) :
  is_space c = true ->
  (In c (Api.clean_text s) -> c = 32%N) /\ (In c (Mcp.clean_text s) -> c = 32%N).
Proof.
  intros Hc. unfold Api.clean_text, Mcp.clean_text.
  destruct (negb (truthy s)); [split; intros []|].
  split; intros H.
  - apply In_firstn, filter_In in H. destruct H as [H _].
    eapply collapse_space_is_plain; eassumption.
  - apply filter_In in H. destruct H as [H _].
    eapply collapse_space_is_plain; eassumption.
Qed.

Lemma clean_text_whitespace_is_plain_witness :
  ~ In 9%N (@Api.clean_text ascii_tables [97; 9; 10; 98]%N).
Proof.
  intros H.
  apply (proj1 (@clean_text_whitespace_is_plain ascii_tables [97; 9; 10; 98]%N 9%N
                  ltac:(reflexivity))) in H.
  discriminate H.
Defined.

Lemma dropwhile_clean (s : pystr) :
  starts_clean s = true -> dropwhile is_space s = s.
Proof.
  destruct s as [|c s]; [reflexivity|]. simpl.
  intros H. apply negb_true_iff in H. now rewrite H.
Qed.

Lemma strip_tidy (s : pystr) :
  starts_clean s = true -> starts_clean (rev s) = true -> strip s = s.
Proof.
  intros H1 H2. unfold strip.
  rewrite (dropwhile_clean s H1), (dropwhile_clean (rev s) H2).
  apply rev_involutive.
Qed.

Lemma collapse_single_spaced_id (s : pystr) :
  forall b : bool,
    (b = true -> starts_clean s = true) ->
    single_spaced s = true ->
    (forall c, In c s -> is_space c = true -> c = 32%N) ->
    collapse_from b s = s.
Proof.
  induction s as [|x s IH]; intros b Hb Hs Hp; [reflexivity|].
  rewrite collapse_from_cons.
  destruct (is_space x) eqn:E.
  - assert (Hx : x = 32%N) by (apply Hp; [now left|assumption]).
    destruct b.
    + specialize (Hb eq_refl). simpl in Hb. rewrite E in Hb. discriminate.
    + subst x. f_equal. apply IH.
      * intros _. destruct s as [|y s]; [reflexivity|].
        rewrite single_spaced_cons in Hs. apply andb_true_iff in Hs as [Hs _].
        rewrite E in Hs. simpl in *. destruct (is_space y); [discriminate|reflexivity].
      * destruct s as [|y s]; [reflexivity|].
        rewrite single_spaced_cons in Hs. now apply andb_true_iff in Hs as [_ Hs].
      * intros c Hc. apply Hp. now right.
  - f_equal. apply IH.
    + discriminate.
    + destruct s as [|y s]; [reflexivity|].
      rewrite single_spaced_cons in Hs. now apply andb_true_iff in Hs as [_ Hs].
    + intros c Hc. apply Hp. now right.
Qed.

(** X5. A text that is already clean comes back unchanged: when it is tidy,
    its only whitespace is the plain space, all its characters are permitted
    and it has at most 500 characters, [clean_text] is the identity on it. *)
Theorem clean_text_fixes_clean_text {U : Unicode} (s : pystr) :
  tidy s = true ->
  forallb (fun c => negb (is_space c) || (c =? 32)%N) s = true ->
  forallb Api.permitted s = true ->
  (List.length s <= 500)%nat ->
  Api.clean_text s = s.
Proof.
  intros Ht Hw Hp Hl.
  unfold tidy in Ht. apply andb_true_iff in Ht as [Ht Hs].
  apply andb_true_iff in Ht as [Hh Hr].
  unfold Api.clean_text. destruct s as [|x s]; [reflexivity|]. cbn [truthy negb].
  rewrite (strip_tidy _ Hh Hr). unfold collapse_ws.
  rewrite collapse_single_spaced_id; [| discriminate | assumption |].
  - rewrite filter_id; [now apply firstn_all2|].
    intros c Hc. rewrite forallb_forall in Hp. now apply Hp.
  - intros c Hc Hsp. rewrite forallb_forall in Hw. specialize (Hw c Hc).
    rewrite Hsp in Hw. simpl in Hw. now apply N.eqb_eq.
Qed.

Lemma clean_text_fixes_clean_text_witness :
  @Api.clean_text ascii_tables (str "Hello World!!") = str "Hello World!!".
Proof.
  apply (@clean_text_fixes_clean_text ascii_tables (str "Hello World!!"));
    [reflexivity | reflexivity | reflexivity | vm_compute; lia].
Defined.

(** ** The request URL *)

Lemma delimiters : str "&=?#/ " = [38; 61; 63; 35; 47; 32]%N.
Proof. reflexivity. Qed.

Lemma url_delimiter_cases (c : N) :
  url_delimiter c = true ->
  c = 38%N \/ c = 61%N \/ c = 63%N \/ c = 35%N \/ c = 47%N \/ c = 32%N.
Proof.
  unfold url_delimiter, mem. rewrite delimiters. cbn [existsb].
  rewrite !orb_true_iff, !N.eqb_eq. intuition discriminate.
Qed.

Lemma hex_digit_safe (d : N) : url_delimiter (hex_digit d) = false.
Proof.
  destruct (url_delimiter (hex_digit d)) eqn:E; [|reflexivity].
  apply url_delimiter_cases in E. unfold hex_digit in E.
  destruct (N.ltb_spec d 10); lia.
Qed.

Lemma quote_byte_safe (b c : N) : In c (quote_byte b) -> url_delimiter c = false.
Proof.
  unfold quote_byte.
  destruct (ascii_alnum b || mem b (str "_.-~")) eqn:E.
  - intros [<-|[]].
    destruct (url_delimiter b) eqn:D; [|reflexivity].
    apply url_delimiter_cases in D.
    destruct D as [->|[->|[->|[->|[->| ->]]]]]; discriminate.
  - destruct (N.eqb_spec b 32).
    + intros [<-|[]]. reflexivity.
    + intros [<-|[<-|[<-|[]]]]; [reflexivity| |]; apply hex_digit_safe.
Qed.

Lemma quoted_has_no_delimiter (bytes : list N) (c : N) :
  In c (flat_map quote_byte bytes) -> url_delimiter c = false.
Proof.
  intros Hc. apply in_flat_map in Hc as (b & _ & Hc).
  now apply quote_byte_safe in Hc.
Qed.

(** X6. An encoded value holds no character that delimits a URL or its
    query: whatever the string, what [quote_plus] yields holds no ampersand,
    equals sign, question mark, hash, slash or space. *)
Theorem quote_plus_has_no_delimiter (s r : pystr) :
  quote_plus s = Ok r ->
  forallb (fun c => negb (url_delimiter c)) r = true.
Proof.
  intros H. apply quote_plus_value in H as [_ ->].
  apply forallb_forall. intros c Hc. apply negb_true_iff.
  now apply quoted_has_no_delimiter in Hc.
Qed.

Lemma quote_plus_has_no_delimiter_witness :
  forallb (fun c => negb (url_delimiter c)) (str "a+b%2Fc%3Fd%3De%26f%23g") = true.
Proof.
  apply (@quote_plus_has_no_delimiter (str "a b/c?d=e&f#g")).
  vm_compute; reflexivity.
Defined.

Lemma occurrences_app (c : N) (a b : pystr) :
  occurrences c (a ++ b) = (occurrences c a + occurrences c b)%nat.
Proof. apply count_occ_app. Qed.

Lemma occurrences_quoted (c : N) (bytes : list N) :
  url_delimiter c = true -> occurrences c (flat_map quote_byte bytes) = 0%nat.
Proof.
  intros Hc. apply count_occ_not_In. intros Hin.
  apply quoted_has_no_delimiter in Hin. congruence.
Qed.

Lemma occurrences_join (c : N) (sep : pystr) (l : list pystr) :
  occurrences c (join sep l) =
  (list_sum (List.map (occurrences c) l)
   + occurrences c sep * Nat.pred (List.length l))%nat.
Proof.
  induction l as [|x [|y l] IH].
  - cbn. lia.
  - cbn [join List.map list_sum fold_right List.length Nat.pred]. lia.
  - change (join sep (x :: y :: l)) with (x ++ sep ++ join sep (y :: l)).
    rewrite !occurrences_app, IH. cbn [List.map list_sum fold_right List.length Nat.pred]. lia.
Qed.

(** The parameters a search sends, by name. *)
Lemma build_params_keys (query : pystr) (num_results : Z) (language : pystr)
    (safe_search : bool) (kw : Api.kwargs) :
  List.map fst (Api.build_params query num_results language safe_search kw) =
  ["q"; "num"; "hl"; "lr"; "safe"; "start"]
  ++ match recency_token (Api.kwarg kw "date_range") with
     | Some _ => ["tbs"]
     | None => []
     end.
Proof.
  rewrite build_params_list, map_app. now destruct (recency_token _).
Qed.

Lemma occurrences_query_string (c : N) (params : list (string * pyval)) :
  url_delimiter c = true ->
  Forall (fun k => occurrences c (str k) = 0%nat) (List.map fst params) ->
  occurrences c (join (str "&") (List.map quoted_pair params)) =
  (occurrences c (str "=") * List.length params
   + occurrences c (str "&") * Nat.pred (List.length params))%nat.
Proof.
  intros Hc Hk.
  rewrite occurrences_join, length_map. f_equal.
  induction params as [|[k v] params IH]; [cbn; lia|].
  inversion Hk as [|k' ks Hk1 Hk2]; subst.
  cbn [List.map List.length fst]. unfold quoted_pair at 1. cbn [fst snd].
  change (list_sum (?a :: ?l)) with (a + list_sum l)%nat.
  rewrite !occurrences_app, Hk1, occurrences_quoted by assumption.
  rewrite IH by assumption. lia.
Qed.

(** X7. The term, the language and the filters cannot add or split
    parameters: whatever they contain, the query string a REST search builds
    has one equals sign per parameter and one ampersand between two
    parameters, the parameters being q, num, hl, lr, safe, start and, with a
    recency token, tbs. *)
Theorem query_string_keeps_its_parameters (query : pystr) (num_results : Z)
    (language : pystr) (safe_search : bool) (kw : Api.kwargs) (qs : pystr) :
  let params := Api.build_params query num_results language safe_search kw in
  let extra := match recency_token (Api.kwarg kw "date_range") with
               | Some _ => 1%nat
               | None => 0%nat
               end in
  Api.query_string params = Ok qs ->
  List.map fst params
  = ["q"; "num"; "hl"; "lr"; "safe"; "start"]
    ++ match recency_token (Api.kwarg kw "date_range") with
       | Some _ => ["tbs"]
       | None => []
       end
  /\ occurrences 61%N qs = (6 + extra)%nat
  /\ occurrences 38%N qs = (5 + extra)%nat
  /\ occurrences 63%N qs = 0%nat
  /\ occurrences 35%N qs = 0%nat.
Proof.
  intros params extra Hqs. subst params extra.
  apply api_query_string_value in Hqs as [_ ->].
  pose proof (build_params_keys query num_results language safe_search kw) as Hk.
  assert (Hlen : List.length (Api.build_params query num_results language safe_search kw)
                 = (6 + match recency_token (Api.kwarg kw "date_range") with
                        | Some _ => 1
                        | None => 0
                        end)%nat).
  { rewrite <- (length_map fst), Hk, length_app.
    now destruct (recency_token _). }
  assert (Hfree : forall c, url_delimiter c = true ->
            Forall (fun k => occurrences c (str k) = 0%nat)
              (List.map fst (Api.build_params query num_results language safe_search kw))).
  { intros c Hc. rewrite Hk.
    apply url_delimiter_cases in Hc.
    destruct Hc as [->|[->|[->|[->|[->| ->]]]]];
      destruct (recency_token _); repeat constructor. }
  split; [exact Hk|].
  repeat split; rewrite occurrences_query_string by (try reflexivity; now apply Hfree);
    rewrite Hlen; destruct (recency_token _); reflexivity.
Qed.

Lemma query_string_keeps_its_parameters_witness :
  occurrences 61%N (str "q=a%26b%3Dc+site%3Ax.org&num=15&hl=es&lr=lang_es&safe=off&start=0&tbs=qdr%3Aw")
  = 7%nat
  /\ occurrences 38%N (str "q=a%26b%3Dc+site%3Ax.org&num=15&hl=es&lr=lang_es&safe=off&start=0&tbs=qdr%3Aw")
     = 6%nat.
Proof.
  destruct (@query_string_keeps_its_parameters (str "a&b=c") 10%Z (str "es") false
              [("site", Some (str "x.org")); ("date_range", Some (str "week"))]
              (str "q=a%26b%3Dc+site%3Ax.org&num=15&hl=es&lr=lang_es&safe=off&start=0&tbs=qdr%3Aw")
              ltac:(vm_compute; reflexivity))
    as (_ & He & Ha & _).
  split; [exact He|exact Ha].
Defined.

(** ** The requests of a search *)

Lemma choice_In (l : list pystr) (k : nat) : l <> [] -> In (choice l k) l.
Proof.
  intros Hl. unfold choice. apply nth_In.
  apply Nat.mod_upper_bound. now destruct l.
Qed.

Section Requests.
Context {U : Unicode} {B : TreeBuilder}.
Variables (query : pystr) (num_results : Z) (language : pystr)
          (safe_search : bool) (kw : Api.kwargs) (qs : pystr).
Hypothesis built :
  Api.query_string (Api.build_params query num_results language safe_search kw)
  = Ok qs.

(** A search has sent the requests of the first attempts of its oracle, at
    least one and no more than its stack has room for. *)
Lemma search_requests (stack : nat) :
  forall (env : oracle) (m : Api.machine) (o : outcome response) (m' : Api.machine),
    Api.search stack env query num_results language safe_search kw m = (o, m') ->
    exists n : nat,
      (1 <= n <= S stack)%nat
      /\ requests (Api.trace m') =
         requests (Api.trace m) ++ List.map (fun i => request_of (env i) qs) (seq 0 n).
Proof.
  induction stack as [|stack IH]; intros env m o m'.
  - destruct (@search_cases _ _ query num_results language safe_search kw qs built
                0 env m) as [(r & -> & _)|(stack' & Es & _)]; [|discriminate].
    intros [= _ <-]. exists 1%nat. split; [lia|]. apply after_fetch_requests.
  - destruct (@search_cases _ _ query num_results language safe_search kw qs built
                (S stack) env m) as [(r & -> & _)|(stack' & Es & Hb & ->)].
    + intros [= _ <-]. exists 1%nat. split; [lia|]. apply after_fetch_requests.
    + injection Es as <-. intros Hs.
      apply IH in Hs as (n & Hn & Hq). exists (S n). split; [lia|].
      rewrite Hq, sleep_requests, after_fetch_requests, <- app_assoc.
      f_equal. cbn [seq List.map app]. f_equal.
      rewrite <- seq_shift, map_map. reflexivity.
Qed.

End Requests.

(** X8. Every request of a REST search goes over https to one of the seven
    Google mirrors, with one of the eight User-Agent strings, and all the
    attempts of one search send the same query string: a retry changes the
    mirror and the User-Agent only. A search that returns has sent at least
    one request, and no more than one and the retries its stack has room
    for. *)
Theorem search_requests_go_to_the_mirrors {U : Unicode} {B : TreeBuilder}
    (query : pystr) (num_results : Z) (language : pystr) (safe_search : bool)
    (kw : Api.kwargs) (stack : nat) (env : oracle) (m : Api.machine)
    (r : response) (m' : Api.machine) :
  Api.search stack env query num_results language safe_search kw m = (Ok r, m') ->
  exists (qs : pystr) (sent : list event),
    Api.query_string (Api.build_params query num_results language safe_search kw)
    = Ok qs
    /\ requests (Api.trace m') = requests (Api.trace m) ++ sent
    /\ (1 <= List.length sent <= S stack)%nat
    /\ Forall
         (fun e =>
            exists domain user_agent,
              In domain GOOGLE_DOMAINS /\ In user_agent USER_AGENTS
              /\ startswith domain (str "www.google.") = true
              /\ e = EvGet (str "https://" ++ domain ++ str "/search?" ++ qs)
                       user_agent)
         sent.
Proof.
  intros Hs. destruct (search_returns_built _ _ _ _ _ _ _ _ Hs) as [qs built].
  destruct (@search_requests _ _ query num_results language safe_search kw qs built
              stack env m _ _ Hs) as (n & Hn & Hq).
  exists qs. eexists. split; [exact built|]. split; [exact Hq|].
  split; [now rewrite length_map, length_seq|].
  apply Forall_forall. intros e He. apply in_map_iff in He as (i & <- & _).
  exists (choice GOOGLE_DOMAINS (pick_domain (env i))),
         (choice USER_AGENTS (pick_agent (env i))).
  assert (Hd : In (choice GOOGLE_DOMAINS (pick_domain (env i))) GOOGLE_DOMAINS)
    by (apply choice_In; discriminate).
  split; [exact Hd|]. split; [apply choice_In; discriminate|].
  split; [|reflexivity].
  assert (Hall : Forall (fun d => startswith d (str "www.google.") = true) GOOGLE_DOMAINS)
    by (repeat constructor).
  rewrite Forall_forall in Hall. now apply Hall.
Qed.

Lemma search_requests_go_to_the_mirrors_witness :
  exists (qs : pystr) (sent : list event),
    Api.query_string (Api.build_params (str "rust") 10 (str "es") false []) = Ok qs
    /\ requests (Api.trace (after_fetch timed_out
                              (str "q=rust&num=15&hl=es&lr=lang_es&safe=off&start=0")
                              fresh))
       = requests (Api.trace fresh) ++ sent
    /\ (1 <= List.length sent <= 2)%nat.
Proof.
  eassert (Hrun : @Api.search ascii_tables plain_text 1 (fun _ => timed_out)
                    (str "rust") 10 (str "es") false [] fresh = (Ok _, _))
    by (vm_compute; reflexivity).
  destruct (search_requests_go_to_the_mirrors _ _ _ _ _ _ _ _ Hrun)
    as (qs0 & sent & Hb & Hq & Hn & _).
  exists qs0, sent. split; [exact Hb|]. split; [exact Hq|]. lia.
Defined.

(** ** The extractors, further *)

Section ExtractorBounds.
Context {U : Unicode}.

Lemma api_loop_length (cs : list tag) (rs : list result) :
  (List.length (Api.parse_loop rs cs) <= List.length rs + List.length cs)%nat.
Proof.
  revert rs; induction cs as [|c cs IH]; intros rs; cbn [Api.parse_loop List.length];
    [lia|].
  destruct (Api.parse_candidate rs c) as [rs'|e] eqn:E.
  - apply api_candidate_cases in E as [->|(r & -> & _)].
    + specialize (IH rs). lia.
    + specialize (IH (rs ++ [r])). rewrite length_app in IH. cbn in IH. lia.
  - specialize (IH rs). lia.
Qed.

Lemma mcp_loop_length (cs : list tag) (rs : list result) :
  (List.length (Mcp.parse_loop rs cs) <= List.length rs + List.length cs)%nat.
Proof.
  revert rs; induction cs as [|c cs IH]; intros rs; cbn [Mcp.parse_loop List.length];
    [lia|].
  destruct (mcp_candidate_cases rs c) as [E|(r & E & _)]; rewrite E.
  - specialize (IH rs). lia.
  - specialize (IH (rs ++ [r])). rewrite length_app in IH. cbn in IH. lia.
Qed.

Lemma slice_to_length_le {A} (l : list A) (n : Z) :
  (List.length (slice_to l n) <= List.length l)%nat.
Proof. unfold slice_to. destruct (0 <=? n)%Z; rewrite length_firstn; lia. Qed.

Lemma api_parse_soup_length (soup : tag) :
  (List.length (Api.parse_soup soup) <= 20)%nat.
Proof.
  unfold Api.parse_soup.
  etransitivity; [apply api_loop_length|]. rewrite length_firstn.
  cbn [List.length]. lia.
Qed.

End ExtractorBounds.

(** X9. The extractors cap their output: the REST extractor returns at most
    20 records and the tool-server extractor at most 15, whatever the page;
    so a REST search returns at most 20 results, also when up to 50 are
    requested. *)
Theorem extractors_cap_their_results {U : Unicode} {B : TreeBuilder} :
  (forall soup : tag, (List.length (Api.parse_soup soup) <= 20)%nat)
  /\ (forall soup : tag, (List.length (Mcp.parse_soup soup) <= 15)%nat)
  /\ (forall (stack : nat) (env : oracle) (query : pystr) (num_results : Z)
             (language : pystr) (safe_search : bool) (kw : Api.kwargs)
             (m : Api.machine) (r : response) (m' : Api.machine),
        Api.search stack env query num_results language safe_search kw m
        = (Ok r, m') ->
        (List.length (or_else (results r) []) <= 20)%nat).
Proof.
  split; [exact api_parse_soup_length|]. split.
  - intros soup. unfold Mcp.parse_soup.
    etransitivity; [apply mcp_loop_length|]. rewrite length_firstn. cbn [List.length]. lia.
  - intros stack env query num_results language safe_search kw m r m' H.
    destruct (search_returns_built _ _ _ _ _ _ _ _ H) as [qs built].
    destruct (@search_answer _ _ query num_results language safe_search kw qs built
                stack env m r m' H)
      as [(e & t & ->)|(a & html & top & t & _ & _ & _ & ->)]; [cbn; lia|].
    cbn [results page_response or_else].
    etransitivity; [apply slice_to_length_le|]. apply api_parse_soup_length.
Qed.

Lemma extractors_cap_their_results_witness :
  exists r m',
    @Api.search ascii_tables canned_page 1 (fun _ => empty_page) (str "rust") 50
      (str "es") false [] fresh = (Ok r, m')
    /\ (List.length (or_else (results r) []) <= 20)%nat.
Proof.
  eexists. eexists. split; [vm_compute; reflexivity|].
  eapply (proj2 (proj2 (@extractors_cap_their_results ascii_tables canned_page))
            1%nat (fun _ => empty_page) (str "rust") 50%Z (str "es") false [] fresh).
  vm_compute; reflexivity.
Defined.

Section ExtractorRecords.
Context {U : Unicode}.

(** The record a candidate appends, field by field. *)
Lemma api_candidate_record (rs rs' : list result) (t : tag) :
  Api.parse_candidate rs t = Ok rs' ->
  rs' = rs \/
  exists (container : tag) (link : pystr),
    Api.find_container 5 t = Ok container
    /\ rs' = rs ++ [Result (Api.clean_text (get_text t)) link
                      (Api.first_snippet container Api.snippet_selectors)
                      (Api.first_date (get_text container) Api.date_patterns)
                      (List.length rs + 1)].
Proof.
  unfold Api.parse_candidate, bind.
  destruct (Api.find_container 5 t) as [container|e]; [|discriminate].
  destruct (negb (truthy (Api.clean_text (get_text t))));
    [intros [= <-]; now left|].
  match goal with
  | |- (if ?c then _ else _) = _ -> _ => destruct c
  end; intros [= <-]; [right|now left].
  eauto.
Qed.

Lemma clean_text_capped (s : pystr) :
  (List.length (Api.clean_text s) <= 500)%nat
  /\ forallb Api.permitted (Api.clean_text s) = true.
Proof.
  unfold Api.clean_text. destruct (negb (truthy s)); [split; [cbn; lia|reflexivity]|].
  split; [apply firstn_le_length|].
  apply forallb_forall. intros c Hc.
  apply In_firstn, filter_In in Hc. tauto.
Qed.

Lemma first_snippet_capped (container : tag) (sels : list selector) :
  (List.length (Api.first_snippet container sels) <= 500)%nat
  /\ forallb Api.permitted (Api.first_snippet container sels) = true.
Proof.
  induction sels as [|sel sels IH]; cbn [Api.first_snippet];
    [split; [cbn; lia|reflexivity]|].
  destruct (select_one container sel) as [e|]; [|exact IH].
  destruct (truthy (strip (get_text e))); [apply clean_text_capped|exact IH].
Qed.

Lemma api_loop_capped (cs : list tag) (rs : list result) :
  Forall capped rs -> Forall capped (Api.parse_loop rs cs).
Proof.
  revert rs; induction cs as [|c cs IH]; intros rs Hrs; [exact Hrs|].
  cbn [Api.parse_loop].
  destruct (Api.parse_candidate rs c) as [rs'|e] eqn:E; [|now apply IH].
  apply api_candidate_record in E as [->|(container & link & _ & ->)]; [now apply IH|].
  apply IH, Forall_app. split; [assumption|]. constructor; [|constructor].
  destruct (clean_text_capped (get_text c)) as [H1 H2].
  destruct (first_snippet_capped container Api.snippet_selectors) as [H3 H4].
  repeat split; assumption.
Qed.

(** The titles of the results are titles of candidates, in their order. *)
Lemma api_loop_order (cs : list tag) (rs : list result) :
  exists l,
    List.map title (Api.parse_loop rs cs) = List.map title rs ++ l
    /\ subseq l (List.map (fun t => Api.clean_text (get_text t)) cs).
Proof.
  revert rs; induction cs as [|c cs IH]; intros rs.
  - exists []. cbn. rewrite app_nil_r. split; [reflexivity|constructor].
  - cbn [Api.parse_loop List.map].
    destruct (Api.parse_candidate rs c) as [rs'|e] eqn:E.
    + apply api_candidate_record in E as [->|(container & link & _ & ->)].
      * destruct (IH rs) as (l & Hl & Hs). exists l. split; [exact Hl|now constructor].
      * destruct (IH (rs ++ [Result (Api.clean_text (get_text c)) link
                               (Api.first_snippet container Api.snippet_selectors)
                               (Api.first_date (get_text container) Api.date_patterns)
                               (List.length rs + 1)])) as (l & Hl & Hs).
        exists (Api.clean_text (get_text c) :: l). split.
        -- rewrite Hl, map_app, <- app_assoc. reflexivity.
        -- now constructor.
    + destruct (IH rs) as (l & Hl & Hs). exists l. split; [exact Hl|now constructor].
Qed.

End ExtractorRecords.

(** X10. The titles and snippets of the REST extractor are bounded and clean:
    every record it returns has a title and a snippet of at most 500
    characters, made of permitted characters only. *)
Theorem records_are_capped {U : Unicode} (soup : tag) :
  Forall capped (Api.parse_soup soup).
Proof. apply api_loop_capped. constructor. Qed.

(** X11. The REST extractor keeps the order of the page: the titles of its
    records are the cleaned texts of some of the first 20 title elements of
    the first matching selector, in document order, none repeated or
    moved. *)
Theorem results_keep_the_source_order {U : Unicode} (soup : tag) :
  subseq (List.map title (Api.parse_soup soup))
    (List.map (fun t => Api.clean_text (get_text t))
       (firstn 20 (Api.first_matching soup Api.selectors))).
Proof.
  unfold Api.parse_soup.
  destruct (api_loop_order (firstn 20 (Api.first_matching soup Api.selectors)) [])
    as (l & Hl & Hs).
  rewrite Hl. exact Hs.
Qed.

(** ** Which links are accepted *)

Lemma startswith_app_app (p s q : pystr) :
  startswith (p ++ s) (p ++ q) = startswith s q.
Proof.
  induction p as [|c p IH]; [reflexivity|].
  cbn [app startswith]. now rewrite N.eqb_refl.
Qed.

Lemma startswith_longer (s p q : pystr) :
  startswith s p = false -> startswith s (p ++ q) = false.
Proof.
  revert s; induction p as [|c p IH]; intros s; [discriminate|].
  destruct s as [|a s]; [reflexivity|]. cbn [app startswith].
  destruct (N.eqb a c); [apply IH|reflexivity].
Qed.

Lemma startswith_firstn (i : nat) (s p : pystr) :
  startswith (firstn i s) p = true -> startswith s p = true.
Proof.
  revert i s; induction p as [|c p IH]; intros i s; [reflexivity|].
  destruct i as [|i], s as [|a s]; try discriminate.
  cbn [firstn startswith]. intros H. apply andb_true_iff in H as [-> H].
  now apply IH in H.
Qed.

Lemma firstn_startswith (i : nat) (s p : pystr) :
  (List.length p <= i)%nat -> startswith s p = true ->
  startswith (firstn i s) p = true.
Proof.
  revert i s; induction p as [|c p IH]; intros i s Hi; [reflexivity|].
  destruct s as [|a s]; [discriminate|].
  destruct i as [|i]; [cbn in Hi; lia|].
  cbn [firstn startswith]. intros H. apply andb_true_iff in H as [-> H].
  apply IH; [cbn in Hi; lia|assumption].
Qed.

(** Where a string is found, its first character stands. *)
Lemma find_head (c : N) (sub s : pystr) (i : nat) :
  find (c :: sub) s = Some i -> nth_error s i = Some c.
Proof.
  revert i; induction s as [|a s IH]; intros i.
  - cbn. discriminate.
  - cbn [find]. destruct (startswith (a :: s) (c :: sub)) eqn:E.
    + intros [= <-]. cbn [startswith] in E. apply andb_true_iff in E as [E _].
      apply N.eqb_eq in E. now subst.
    + destruct (find (c :: sub) s) as [j|]; [|discriminate].
      intros [= <-]. now apply IH.
Qed.

(** Cutting a string at a character that is none of h, t, p keeps whether it
    starts with http. *)
Lemma cut_keeps_http (c : N) (sub s : pystr) :
  mem c (str "http") = false ->
  startswith (match find (c :: sub) s with Some i => firstn i s | None => s end)
    (str "http")
  = startswith s (str "http").
Proof.
  intros Hc. destruct (find (c :: sub) s) as [i|] eqn:E; [|reflexivity].
  destruct (startswith s (str "http")) eqn:Es.
  - apply firstn_startswith; [|assumption].
    apply find_head in E. apply startswith_inv in Es as [t ->].
    do 4 (destruct i as [|i];
          [cbn in E; injection E as <-; vm_compute in Hc; discriminate|]).
    cbn. lia.
  - destruct (startswith (firstn i s) (str "http")) eqn:Ef; [|reflexivity].
    apply startswith_firstn in Ef. congruence.
Qed.

(** X12. A link is accepted by the REST extractor exactly when its href
    starts with http or with the redirect prefix followed by http: for every
    href, the unwrapped URL passes the test of the extractor if and only if
    the href has one of these two forms. *)
Theorem accepted_links (href : pystr) :
  startswith (Api.extract_url href) (str "http")
  = startswith href (str "http") || startswith href (str "/url?q=http").
Proof.
  unfold Api.extract_url.
  destruct href as [|a href]; [reflexivity|]. cbn [truthy negb].
  destruct (startswith (a :: href) (str "/url?q=")) eqn:Er.
  - apply startswith_inv in Er as [rest Hr]. rewrite Hr.
    assert (Hh : startswith (str "/url?q=" ++ rest) (str "http") = false) by reflexivity.
    rewrite Hh. cbn [orb].
    change (str "/url?q=http") with (str "/url?q=" ++ str "http").
    rewrite startswith_app_app.
    rewrite (@split_second (str "/url?q=") rest) by discriminate.
    change (str "&") with [38%N]. rewrite split_first.
    change (str "/url?q=") with (47%N :: str "url?q=").
    rewrite (@cut_keeps_http 38%N [] _ eq_refl).
    apply (@cut_keeps_http 47%N (str "url?q=") rest eq_refl).
  - change (str "/url?q=http") with (str "/url?q=" ++ str "http").
    rewrite (startswith_longer _ _ (str "http") Er), orb_false_r.
    destruct (startswith (a :: href) (str "http")) eqn:Eh; [exact Eh|].
    destruct (startswith (a :: href) (str "/search")); [reflexivity|exact Eh].
Qed.

(** ** The container of a title *)

Lemma find_container_result (n : nat) :
  forall t : tag,
    match Api.find_container n t with
    | Ok c =>
        (n = 0%nat /\ c = t)
        \/ exists k : nat,
             (k < n)%nat
             /\ nth_error (above t) k = Some (here c)
             /\ above c = skipn (S k) (above t)
             /\ forallb (fun a => negb (marked_div a)) (firstn k (above t)) = true
             /\ (marked_div (here c) = true \/ S k = n)
    | Raised _ =>
        (List.length (above t) < n)%nat
        /\ forallb (fun a => negb (marked_div a)) (above t) = true
    end.
Proof.
  induction n as [|n IH]; intros t; cbn [Api.find_container].
  - left. now split.
  - unfold parent. destruct (above t) as [|a up] eqn:Ea.
    + split; [cbn; lia|reflexivity].
    + change (String.eqb (name (Tag a up)) "div"
              && (has_attr (here (Tag a up)) "data-ved"
                  || has_attr (here (Tag a up)) "class"))
        with (marked_div a).
      destruct (marked_div a) eqn:Em.
      * right. exists 0%nat. cbn. repeat split; try lia; now left.
      * specialize (IH (Tag a up)).
        destruct (Api.find_container n (Tag a up)) as [c|e].
        -- right. destruct IH as [[-> ->]|(k & Hk & Hn & Ha & Hf & Hm)].
           ++ exists 0%nat. cbn. repeat split; lia.
           ++ exists (S k). cbn [above here] in *.
              split; [lia|]. split; [exact Hn|]. split; [exact Ha|].
              split; [cbn [firstn forallb]; now rewrite Em|].
              destruct Hm as [Hm|Hm]; [now left|right; lia].
        -- destruct IH as [Hl Hf]. cbn [above] in *. split; [cbn; lia|].
           cbn [forallb]. now rewrite Em.
Qed.

(** X13. The container of a title is the nearest of its first five ancestors
    that is a [div] with a [data-ved] or a [class] attribute, or the fifth
    ancestor when none of the five is one. The search raises only when the
    title has fewer than five ancestors and none of them is such a [div]: a
    title at least five levels below the document is never skipped by this
    exception. *)
Theorem find_container_finds_the_nearest_div (t : tag) :
  (forall c : tag,
     Api.find_container 5 t = Ok c ->
     exists k : nat,
       (k < 5)%nat
       /\ nth_error (above t) k = Some (here c)
       /\ above c = skipn (S k) (above t)
       /\ forallb (fun a => negb (marked_div a)) (firstn k (above t)) = true
       /\ (marked_div (here c) = true \/ k = 4%nat))
  /\ (forall e : pystr,
        Api.find_container 5 t = Raised e ->
        (List.length (above t) < 5)%nat
        /\ forallb (fun a => negb (marked_div a)) (above t) = true)
  /\ ((5 <= List.length (above t))%nat ->
      exists c : tag, Api.find_container 5 t = Ok c).
Proof.
  pose proof (find_container_result 5 t) as H.
  destruct (Api.find_container 5 t) as [c|e].
  - split; [|split].
    + intros c' [= <-]. destruct H as [[H _]|(k & Hk & Hn & Ha & Hf & Hm)];
        [discriminate|].
      exists k. repeat split; try assumption.
      destruct Hm as [Hm|Hm]; [now left|right; lia].
    + discriminate.
    + eauto.
  - split; [|split].
    + discriminate.
    + intros e' _. exact H.
    + intros Hl. lia.
Qed.

Lemma find_container_finds_the_nearest_div_witness :
  (List.length (above (nth 2 (Api.first_matching page_faulty_block Api.selectors)
                         page_faulty_block)) < 5)%nat
  /\ forallb (fun a => negb (marked_div a))
       (above (nth 2 (Api.first_matching page_faulty_block Api.selectors)
                 page_faulty_block)) = true.
Proof.
  apply (proj1 (proj2 (find_container_finds_the_nearest_div
                         (nth 2 (Api.first_matching page_faulty_block Api.selectors)
                            page_faulty_block)))
           (str "'NoneType' object has no attribute 'name'")).
  vm_compute; reflexivity.
Defined.

(** ** The responses of a search, further *)

(** X14. A successful REST response counts what was extracted, not what is
    returned: [results_count] and [total_found] are the number of records the
    extractor found on the page, and [results] are the first of them, as
    many as requested; so the count may exceed the length of the results, and
    it never falls below it. *)
Theorem results_count_is_the_extracted_count {U : Unicode} {B : TreeBuilder}
    (query : pystr) (num_results : Z) (language : pystr) (safe_search : bool)
    (kw : Api.kwargs) (stack : nat) (env : oracle) (m : Api.machine)
    (r : response) (m' : Api.machine) :
  Api.search stack env query num_results language safe_search kw m = (Ok r, m') ->
  success r = true ->
  exists (html : pystr) (extracted : list result),
    Api.parse_search_results html = Ok extracted
    /\ numbered extracted
    /\ results_count r = Some (List.length extracted)
    /\ total_found r = Some (List.length extracted)
    /\ results r = Some (slice_to extracted num_results)
    /\ (List.length (slice_to extracted num_results) <= List.length extracted)%nat
    /\ ((0 <= num_results)%Z ->
        slice_to extracted num_results = firstn (Z.to_nat num_results) extracted).
Proof.
  intros Hs Hok.
  destruct (search_returns_built _ _ _ _ _ _ _ _ Hs) as [qs built].
  destruct (@search_answer _ _ query num_results language safe_search kw qs built
              stack env m r m' Hs)
    as [(e & t & ->)|(a & html & top & t & _ & _ & Ht & ->)]; [discriminate|].
  exists html, (Api.parse_soup (soup_of top)).
  split; [now rewrite api_parse_body, Ht|].
  split; [exact (proj1 (api_parse_soup_invariant _))|].
  repeat split.
  - apply slice_to_length_le.
  - intros Hn. unfold slice_to. apply Z.leb_le in Hn. now rewrite Hn.
Qed.

Lemma results_count_is_the_extracted_count_witness :
  exists r m',
    @Api.search ascii_tables canned_page 1 (fun _ => empty_page) (str "rust") 2
      (str "es") false [] fresh = (Ok r, m')
    /\ results_count r = Some 3%nat
    /\ option_map (@List.length result) (results r) = Some 2%nat.
Proof.
  eassert (Hrun : @Api.search ascii_tables canned_page 1 (fun _ => empty_page)
                    (str "rust") 2 (str "es") false [] fresh = (Ok _, _))
    by (vm_compute; reflexivity).
  destruct (results_count_is_the_extracted_count _ _ _ _ _ _ _ _ Hrun eq_refl)
    as (html & extracted & _ & _ & Hc & _).
  eexists. eexists. split; [exact Hrun|].
  split; reflexivity.
Defined.

(** ** The block test *)

Lemma lower_app {U : Unicode} (a b : pystr) : lower (a ++ b) = lower a ++ lower b.
Proof. apply flat_map_app. Qed.

Lemma contains_middle (sub a b : pystr) : contains sub (a ++ sub ++ b) = true.
Proof.
  unfold contains.
  assert (H : exists i, find sub (a ++ sub ++ b) = Some i).
  { induction a as [|x a [i IH]].
    - exists 0%nat. cbn [app].
      destruct (sub ++ b) eqn:E; cbn [find]; rewrite <- ?E, startswith_app; reflexivity.
    - cbn [app find].
      destruct (startswith (x :: a ++ sub ++ b) sub); [eauto|].
      rewrite IH. cbn. eauto. }
  destruct H as [i ->]. reflexivity.
Qed.

(** X15. The block test looks for its two phrases anywhere in the body and in
    any letter case: a body that holds a word whose lower-case form is
    captcha, or detected unusual traffic, is taken for a block page whatever
    else it holds, and a reply with status 200 and such a body is not
    parsed but retried. *)
Theorem block_phrases_match_in_any_case {U : Unicode} {B : TreeBuilder}
    (before phrase after : pystr) :
  lower phrase = str "captcha" \/ lower phrase = str "detected unusual traffic" ->
  Api.blocked (before ++ phrase ++ after) = true
  /\ (forall (stack : nat) (env : oracle) (query : pystr) (num_results : Z)
             (language : pystr) (safe_search : bool) (kw : Api.kwargs)
             (qs : pystr) (m : Api.machine),
        Api.query_string (Api.build_params query num_results language safe_search kw)
        = Ok qs ->
        exchange (env O) = Ok (200%Z, Ok (before ++ phrase ++ after)) ->
        Api.search (S stack) env query num_results language safe_search kw m =
        Api.search stack (rest env) query num_results language safe_search kw
          (Api.sleep (uniform 3 7 (u_extra (env O))) (after_fetch (env O) qs m))).
Proof.
  intros Hp.
  assert (Hb : Api.blocked (before ++ phrase ++ after) = true).
  { unfold Api.blocked. rewrite !lower_app.
    destruct Hp as [-> | ->]; rewrite contains_middle;
      [apply orb_true_r|reflexivity]. }
  split; [exact Hb|].
  intros stack env query num_results language safe_search kw qs m built He.
  apply search_blocked; [exact built|]. unfold blocked_reply. now rewrite He, Hb.
Qed.

Lemma block_phrases_match_in_any_case_witness :
  @Api.blocked ascii_tables (str "<html>Please solve this " ++ str "CAPTCHA"
                             ++ str " to continue</html>") = true.
Proof.
  apply (@block_phrases_match_in_any_case ascii_tables plain_text
           (str "<html>Please solve this ") (str "CAPTCHA") (str " to continue</html>")).
  left. reflexivity.
Defined.

(** ** The tool-server search *)

Lemma mcp_after_fetch_state (a : attempt) (qs : pystr) (m : Mcp.machine) :
  requests (Mcp.trace (mcp_after_fetch a qs m))
  = requests (Mcp.trace m)
    ++ [EvGet (Mcp.build_url (choice GOOGLE_DOMAINS (pick_domain a)) qs)
          (choice USER_AGENTS (pick_agent a))]
  /\ Mcp.request_count (Mcp.self (mcp_after_fetch a qs m))
     = (Mcp.request_count (Mcp.self m) + 1)%Z
  /\ Mcp.session (Mcp.self (mcp_after_fetch a qs m)) = SessionOpen.
Proof.
  unfold mcp_after_fetch, Mcp.send. cbn [Mcp.trace Mcp.self].
  rewrite requests_app, mcp_prepared_requests. split; [reflexivity|].
  unfold Mcp.get_session.
  destruct (Mcp.session (Mcp.self (Mcp.delay_request _ _ m))) eqn:E;
    cbn [Mcp.self Mcp.request_count Mcp.session]; rewrite ?E; split; reflexivity.
Qed.

Lemma mcp_prepared_state (a : attempt) (m : Mcp.machine) :
  let m1 := Mcp.get_session (Mcp.delay_request (u_delay a) (u_extra a) m) in
  Mcp.request_count (Mcp.self m1) = (Mcp.request_count (Mcp.self m) + 1)%Z
  /\ Mcp.session (Mcp.self m1) = SessionOpen.
Proof.
  cbv zeta. unfold Mcp.get_session.
  destruct (Mcp.session (Mcp.self (Mcp.delay_request _ _ m))) eqn:E;
    cbn [Mcp.self Mcp.request_count Mcp.session]; rewrite ?E; split; reflexivity.
Qed.

(** X16. When its query string is built, which is when the term and the
    language hold no surrogate, the tool-server search sends exactly one
    request per call, to a Google mirror with one of the User-Agent strings,
    and no exception leaves it; it has no block test: every reply with status
    200 and a body that is read and parsed is answered with a success, a
    block page too. Otherwise the exception of the encoding leaves the
    search and nothing is sent. Either way the call is counted and the
    session is left open. *)
Theorem mcp_search_sends_one_request_or_raises {U : Unicode} {B : TreeBuilder}
    (a : attempt) (query : pystr) (num_results : Z) (lang : pystr) (m : Mcp.machine) :
  let run := Mcp.search a query num_results lang m in
  (forall qs : pystr,
     Mcp.query_string (Mcp.build_params query num_results lang) = Ok qs ->
     requests (Mcp.trace (snd run)) =
     requests (Mcp.trace m)
     ++ [EvGet (Mcp.build_url (choice GOOGLE_DOMAINS (pick_domain a)) qs)
           (choice USER_AGENTS (pick_agent a))]
     /\ (exists r, fst run = Ok r)
     /\ (forall (html : pystr) (rs : list result),
           exchange a = Ok (200%Z, Ok html) ->
           Mcp.parse_search_results html = Ok rs ->
           exists r, fst run = Ok r
                     /\ success r = true
                     /\ results r = Some (slice_to rs num_results)))
  /\ (forall e : pystr,
        Mcp.query_string (Mcp.build_params query num_results lang) = Raised e ->
        fst run = Raised e
        /\ requests (Mcp.trace (snd run)) = requests (Mcp.trace m))
  /\ (if encodable query && encodable lang
      then exists qs,
             Mcp.query_string (Mcp.build_params query num_results lang) = Ok qs
      else exists e,
             Mcp.query_string (Mcp.build_params query num_results lang) = Raised e)
  /\ In (choice GOOGLE_DOMAINS (pick_domain a)) GOOGLE_DOMAINS
  /\ In (choice USER_AGENTS (pick_agent a)) USER_AGENTS
  /\ Mcp.request_count (Mcp.self (snd run)) = (Mcp.request_count (Mcp.self m) + 1)%Z
  /\ Mcp.session (Mcp.self (snd run)) = SessionOpen.
Proof.
  intros run. subst run.
  split; [|split; [|split; [|split; [|split]]]].
  - intros qs built.
    destruct (mcp_search_never_raises a query num_results lang m built) as [r Hr].
    destruct (mcp_after_fetch_state a qs m) as (Hq & _).
    split; [now rewrite Hr|]. split; [rewrite Hr; cbn [fst]; eauto|].
    intros html rs He Hp.
    rewrite (mcp_search_attempt a query num_results lang m built). cbv zeta.
    rewrite He, Hp. cbn [Z.eqb Pos.eqb fst]. eexists. split; [reflexivity|].
    split; reflexivity.
  - intros e He. rewrite (mcp_search_raises a query num_results lang m He).
    cbn [fst snd]. split; [reflexivity|apply mcp_prepared_requests].
  - apply mcp_query_string_built.
  - apply choice_In; discriminate.
  - apply choice_In; discriminate.
  - destruct (Mcp.query_string (Mcp.build_params query num_results lang))
      as [qs|e] eqn:E.
    + destruct (mcp_search_never_raises a query num_results lang m E) as [r ->].
      destruct (mcp_after_fetch_state a qs m) as (_ & Hc & Ho). now split.
    + rewrite (mcp_search_raises a query num_results lang m E). cbn [snd].
      apply mcp_prepared_state.
Qed.

Lemma mcp_search_sends_one_request_or_raises_witness :
  (exists r,
     fst (@Mcp.search ascii_tables plain_text block_page (str "rust") 10 (str "es")
            (Mcp.Machine Mcp.init 1000 [])) = Ok r
     /\ success r = true)
  /\ fst (@Mcp.search ascii_tables plain_text block_page [55296%N] 10 (str "es")
            (Mcp.Machine Mcp.init 1000 []))
     = Raised (str "'utf-8' codec can't encode character '\ud800' in position 0: surrogates not allowed").
Proof.
  split.
  - destruct (proj2 (proj2 (proj1
                (@mcp_search_sends_one_request_or_raises ascii_tables plain_text
                   block_page (str "rust") 10%Z (str "es")
                   (Mcp.Machine Mcp.init 1000 []))
                (str "q=rust&num=10&hl=es&lr=lang_es&safe=off")
                ltac:(vm_compute; reflexivity)))
                (str "Our systems have detected unusual traffic")
                [] eq_refl ltac:(vm_compute; reflexivity))
      as (r & Hr & Hs & _).
    exists r. split; assumption.
  - apply (proj1 (proj1 (proj2
             (@mcp_search_sends_one_request_or_raises ascii_tables plain_text
                block_page [55296%N] 10%Z (str "es") (Mcp.Machine Mcp.init 1000 [])))
             _ ltac:(vm_compute; reflexivity))).
Defined.

(** ** The session *)

Section Session.
Context {U : Unicode} {B : TreeBuilder}.

Lemma after_fetch_session (a : attempt) (qs : pystr) (m : Api.machine) :
  Api.session (Api.self (after_fetch a qs m)) = SessionOpen.
Proof.
  unfold after_fetch, Api.send, Api.get_session. cbn [Api.self].
  now destruct (Api.session (Api.self (Api.smart_delay (u_delay a) m))) eqn:E.
Qed.

Lemma get_session_open (m : Api.machine) :
  Api.session (Api.self (Api.get_session m)) = SessionOpen.
Proof. unfold Api.get_session. now destruct (Api.session (Api.self m)) eqn:E. Qed.

Lemma search_session (query : pystr) (num_results : Z) (language : pystr)
    (safe_search : bool) (kw : Api.kwargs) (stack : nat) :
  forall (env : oracle) (m : Api.machine) (o : outcome response) (m' : Api.machine),
    Api.search stack env query num_results language safe_search kw m = (o, m') ->
    Api.session (Api.self m') = SessionOpen.
Proof.
  destruct (Api.query_string (Api.build_params query num_results language
                                safe_search kw)) as [qs|e] eqn:built.
  - induction stack as [|stack IH]; intros env m o m'.
    + destruct (@search_cases _ _ query num_results language safe_search kw qs built
                  0 env m) as [(r & -> & _)|(stack' & Es & _)]; [|discriminate].
      intros [= _ <-]. apply after_fetch_session.
    + destruct (@search_cases _ _ query num_results language safe_search kw qs built
                  (S stack) env m) as [(r & -> & _)|(stack' & Es & Hb & ->)].
      * intros [= _ <-]. apply after_fetch_session.
      * injection Es as <-. apply IH.
  - intros env m o m'.
    rewrite (@search_raises _ _ query num_results language safe_search kw stack env m
               e built).
    intros [= _ <-]. apply get_session_open.
Qed.

End Session.

(** X17. The session is opened when needed and only [close] closes it: a
    search leaves the session open, whether it found none, an open one or a
    closed one, and whether it returns or raises; [close] leaves no session
    open, touches neither the pacing state nor the clock nor the trace, and
    closing twice is closing once; after a [close] the next [get_session]
    opens a session again. *)
Theorem session_lifecycle {U : Unicode} {B : TreeBuilder} :
  (forall (query : pystr) (num_results : Z) (language : pystr) (safe_search : bool)
          (kw : Api.kwargs) (stack : nat) (env : oracle) (m : Api.machine)
          (o : outcome response) (m' : Api.machine),
     Api.search stack env query num_results language safe_search kw m = (o, m') ->
     Api.session (Api.self m') = SessionOpen)
  /\ (forall m : Api.machine,
        Api.session (Api.self (Rest.close m)) <> SessionOpen
        /\ Rest.close (Rest.close m) = Rest.close m
        /\ Api.request_count (Api.self (Rest.close m)) = Api.request_count (Api.self m)
        /\ Api.last_request_time (Api.self (Rest.close m))
           = Api.last_request_time (Api.self m)
        /\ Api.rate_limit_reset (Api.self (Rest.close m))
           = Api.rate_limit_reset (Api.self m)
        /\ Api.clock (Rest.close m) = Api.clock m
        /\ Api.trace (Rest.close m) = Api.trace m
        /\ Api.session (Api.self (Api.get_session (Rest.close m))) = SessionOpen).
Proof.
  split.
  - intros. eapply search_session; eassumption.
  - intros [[s l c r] t tr]. unfold Rest.close, Api.get_session. cbn.
    destruct s; cbn; repeat split; discriminate.
Qed.

Lemma session_lifecycle_witness :
  Api.session
    (Api.self (after_fetch timed_out
                 (str "q=rust&num=15&hl=es&lr=lang_es&safe=off&start=0")
                 (Rest.close fresh))) = SessionOpen.
Proof.
  apply (proj1 (@session_lifecycle ascii_tables plain_text)
           (str "rust") 10%Z (str "es") false [] 1%nat (fun _ => timed_out)
           (Rest.close fresh)
           (Ok (Api.failure (str "Connection timeout to host") (str "rust")
                  (Api.clock (after_fetch timed_out
                                (str "q=rust&num=15&hl=es&lr=lang_es&safe=off&start=0")
                                (Rest.close fresh)))))).
  vm_compute; reflexivity.
Defined.

(** ** The REST endpoints *)

Section Endpoints.
Context {U : Unicode} {B : TreeBuilder} {P : Pydantic}.

Lemma answer_reply (query : pystr) (num_results : Z) (language : pystr)
    (safe_search : bool) (kw : Api.kwargs) (stack : nat) (env : oracle)
    (m : Api.machine) (reply : Rest.http_reply) (m' : Api.machine) :
  Rest.count_in_bounds num_results = true ->
  Rest.answer (Api.search stack env query num_results language safe_search kw m)
  = (reply, m') ->
  endpoint_reply num_results
    (Api.query_string (Api.build_params query num_results language safe_search kw))
    m m' reply.
Proof.
  intros Hb. unfold Rest.answer.
  destruct (Api.query_string (Api.build_params query num_results language
                                safe_search kw)) as [qs|e] eqn:built.
  - destruct (Api.search stack env query num_results language safe_search kw m)
      as [o m1] eqn:Hs.
    pose proof (@search_counted _ _ query num_results language safe_search kw qs built
                  stack env m o m1 Hs) as [[Hlt _] _].
    destruct (@search_never_raises _ _ query num_results language safe_search kw qs
                built stack env m) as [r Hr].
    rewrite Hs in Hr. cbn [fst] in Hr. subst o.
    destruct (@search_answer _ _ query num_results language safe_search kw qs built
                stack env m r m1 Hs)
      as [(e & t & ->)|(a & html & top & t & _ & _ & _ & ->)]; cbn [bind Rest.validate].
    + intros [= <- <-]. cbn [endpoint_reply]. split; [exact Hb|].
      split; [reflexivity|]. left. split; [eauto|]. split; [reflexivity|exact Hlt].
    + intros [= <- <-].
      cbn [endpoint_reply Rest.v_success Rest.v_error Rest.v_results
             Rest.v_results_count page_response success error results
             results_count source].
      split; [exact Hb|]. split; [eauto|].
      unfold Rest.count_in_bounds in Hb. apply andb_true_iff in Hb as [H1 H50].
      apply Z.leb_le in H1. apply Z.leb_le in H50.
      split; [reflexivity|]. split; [reflexivity|].
      split; [apply slice_to_numbered; exact (proj1 (api_parse_soup_invariant _))|].
      split; [|apply slice_to_length_le].
      apply Z.min_glb.
      * apply slice_to_length. lia.
      * pose proof (slice_to_length_le (Api.parse_soup (soup_of top)) num_results).
        pose proof (api_parse_soup_length (soup_of top)). lia.
  - rewrite (@search_raises _ _ query num_results language safe_search kw stack env m
               e built).
    cbn [bind]. intros [= <- <-]. cbn [endpoint_reply].
    split; [exact Hb|]. split; [reflexivity|]. right. split; [reflexivity|].
    unfold fetches.
    fold (requests (Api.trace (Api.get_session (Api.smart_delay (u_delay (env O)) m)))).
    fold (requests (Api.trace m)).
    now rewrite get_session_trace, smart_delay_requests.
Qed.

End Endpoints.

(** X18. The four search endpoints answer in four ways only. A count outside
    1..50 is rejected and nothing is done. A search that succeeds is answered
    with the model, its success flag set and its error empty, its results
    numbered in order, no more than requested, than 20 and than
    [results_count]. A search that fails, by a transport fault, a status
    other than 200 or the end of the stack, is answered with the status 500,
    and the detail is the message of the validation of the failure dict,
    which lacks [results_count], [results] and [source]: no endpoint ever
    answers with a model whose success flag is false, and the error of the
    search is not passed on. A search that raises, its query string holding
    a surrogate, is answered with the status 500 and the message of the
    encoding, no request being sent. *)
Theorem rest_endpoints_answer {U : Unicode} {B : TreeBuilder} {P : Pydantic}
    (stack : nat) (env : oracle) (m : Api.machine) (reply : Rest.http_reply)
    (m' : Api.machine) :
  (forall (q : pystr) (num : Z) (lang : pystr) (safe : bool),
     Rest.search_google stack env q num lang safe m = (reply, m') ->
     endpoint_reply num
       (Api.query_string (Api.build_params q num lang safe [])) m m' reply)
  /\ (forall request : Rest.AdvancedSearchRequest,
        Rest.advanced_search stack env request m = (reply, m') ->
        endpoint_reply (Rest.req_num_results request)
          (Api.query_string
             (Api.build_params (Rest.req_query request) (Rest.req_num_results request)
                (Rest.req_language request) (Rest.req_safe_search request)
                [("site", Rest.req_site request);
                 ("filetype", Rest.req_filetype request);
                 ("date_range", Rest.req_date_range request)]))
          m m' reply)
  /\ (forall (site_domain q : pystr) (num : Z) (lang : pystr),
        Rest.search_in_site stack env site_domain q num lang m = (reply, m') ->
        endpoint_reply num
          (Api.query_string
             (Api.build_params q num lang false [("site", Some site_domain)]))
          m m' reply)
  /\ (forall (file_type q : pystr) (num : Z) (lang : pystr),
        Rest.search_filetype stack env file_type q num lang m = (reply, m') ->
        endpoint_reply num
          (Api.query_string
             (Api.build_params q num lang false [("filetype", Some file_type)]))
          m m' reply).
Proof.
  split; [|split; [|split]].
  - intros q num lang safe. unfold Rest.search_google.
    destruct (Rest.count_in_bounds num) eqn:Hb.
    + now apply answer_reply.
    + intros [= <- <-]. now split.
  - intros request. unfold Rest.advanced_search.
    destruct (Rest.count_in_bounds (Rest.req_num_results request)) eqn:Hb.
    + now apply answer_reply.
    + intros [= <- <-]. now split.
  - intros site_domain q num lang. unfold Rest.search_in_site.
    destruct (Rest.count_in_bounds num) eqn:Hb.
    + now apply answer_reply.
    + intros [= <- <-]. now split.
  - intros file_type q num lang. unfold Rest.search_filetype.
    destruct (Rest.count_in_bounds num) eqn:Hb.
    + now apply answer_reply.
    + intros [= <- <-]. now split.
Qed.

Lemma rest_endpoints_answer_witness :
  @endpoint_reply plain_messages 10
    (Api.query_string (Api.build_params (str "rust") 10 (str "es") false []))
    fresh
    (after_fetch timed_out (str "q=rust&num=15&hl=es&lr=lang_es&safe=off&start=0")
       fresh)
    (Rest.HTTPException 500
       (@validation_error plain_messages ["results_count"; "results"; "source"]))
  /\ @endpoint_reply plain_messages 10
       (Api.query_string
          (Api.build_params [55296%N] 10 (str "es") false
             [("site", None); ("filetype", None); ("date_range", None)]))
       fresh
       (Api.get_session (Api.smart_delay (u_delay timed_out) fresh))
       (Rest.HTTPException 500
          (str "'utf-8' codec can't encode character '\ud800' in position 0: surrogates not allowed")).
Proof.
  split.
  - apply (proj1 (@rest_endpoints_answer ascii_tables plain_text plain_messages
                    1%nat (fun _ => timed_out) fresh _ _)
             (str "rust") 10%Z (str "es") false).
    vm_compute; reflexivity.
  - apply (proj1 (proj2 (@rest_endpoints_answer ascii_tables plain_text plain_messages
                           1%nat (fun _ => timed_out) fresh _ _))
             (Rest.Request [55296%N] None None None (str "es") 10 false)).
    vm_compute; reflexivity.
Defined.

(** X19. The reset endpoint zeroes the counter and forgets the session but
    keeps the last-request timestamp: after it the counter is 0, there is no
    session, no request has been sent, and the next computed delay is back in
    [2.5 s, 4.5 s] whatever the counter was; the next request is still
    spaced by that delay from the last one sent before the reset. *)
Theorem reset_scraper_zeroes_the_counter (u : Q) (m : Api.machine) :
  0 <= u <= 1 ->
  let m' := Rest.reset_scraper m in
  Api.request_count (Api.self m') = 0%Z
  /\ Api.session (Api.self m') = NoSession
  /\ Api.rate_limit_reset (Api.self m') = Api.clock m
  /\ Api.last_request_time (Api.self m') = Api.last_request_time (Api.self m)
  /\ Api.clock m' = Api.clock m
  /\ Api.trace m' = Api.trace m
  /\ 2.5 <= Api.computed_delay u m' <= 4.5
  /\ Api.computed_delay u m'
     <= Api.clock (Api.smart_delay u m') - Api.last_request_time (Api.self m)
  /\ Rest.total_requests (Rest.get_stats m') = 0%Z
  /\ Rest.session_active (Rest.get_stats m') = false
  /\ Rest.last_request (Rest.get_stats m') = Rest.last_request (Rest.get_stats m).
Proof.
  intros Hu m'. subst m'.
  assert (Hj : 0.5 <= uniform 0.5 2.5 u <= 2.5) by (apply uniform_range; [lra|assumption]).
  destruct m as [[s l c r] t tr].
  assert (Hm : Rest.reset_scraper (Api.Machine (Api.Scraper s l c r) t tr)
               = Api.Machine (Api.Scraper NoSession l 0 t) t tr).
  { unfold Rest.reset_scraper, Rest.close. cbn. now destruct s. }
  rewrite Hm. cbn [Api.self Api.request_count Api.session Api.rate_limit_reset
                   Api.last_request_time Api.clock Api.trace].
  assert (Hd : Api.computed_delay u (Api.Machine (Api.Scraper NoSession l 0 t) t tr)
               == 2.0 + uniform 0.5 2.5 u).
  { unfold Api.computed_delay. rewrite total_delay_spec, reset_if_due_count.
    cbn [Api.self Api.clock Api.rate_limit_reset Api.request_count].
    destruct (Qlt_bool 3600 (t - t)); unfold pacing_delay;
      change (20 <? 0)%Z with false; change (10 <? 0)%Z with false; cbv iota; lra. }
  repeat split; try reflexivity; try (rewrite Hd; lra).
  unfold Api.smart_delay.
  fold (Api.computed_delay u (Api.Machine (Api.Scraper NoSession l 0 t) t tr)).
  cbn [Api.self Api.clock Api.last_request_time].
  destruct (Qlt_bool (t - l) _) eqn:E.
  - cbn [Api.sleep Api.clock]. lra.
  - apply Qlt_bool_false in E. cbn [Api.clock]. lra.
Qed.

Lemma reset_scraper_zeroes_the_counter_witness :
  2.5 <= Api.computed_delay (1 # 2)
           (Rest.reset_scraper (Api.Machine (Api.Scraper SessionOpen 990 25 0) 1000 []))
      <= 4.5.
Proof.
  apply (@reset_scraper_zeroes_the_counter (1 # 2)
           (Api.Machine (Api.Scraper SessionOpen 990 25 0) 1000 [])).
  split; vm_compute; discriminate.
Defined.

(** ** The tool handler *)

(** X20. A tool call that cannot be served sends nothing: a search tool
    called without a query, or with an empty one, answers the payload
    "Query parameter is required", and a tool of another name answers
    "Unknown tool" with the name; in both cases no request is sent and the
    scraper is left as it was. *)
Theorem tool_calls_without_query_send_nothing {U : Unicode} {B : TreeBuilder}
    (tool : pystr) (args : Tools.arguments) (a : attempt) (m : Mcp.machine) :
  ((tool = str "google_search" \/ tool = str "google_search_advanced") ->
   or_else (Tools.arg_query args) [] = [] ->
   Tools.handle_call_tool tool args a m
   = (Ok (Tools.ErrorPayload (str "Query parameter is required")), m))
  /\ (tool <> str "google_search" -> tool <> str "google_search_advanced" ->
      Tools.handle_call_tool tool args a m
      = (Ok (Tools.ErrorPayload (str "Unknown tool: " ++ tool)), m)).
Proof.
  unfold Tools.handle_call_tool, pystr_eqb.
  split.
  - intros [-> | ->] Hq; rewrite Hq; reflexivity.
  - intros H1 H2.
    destruct (list_eq_dec N.eq_dec tool (str "google_search")); [contradiction|].
    destruct (list_eq_dec N.eq_dec tool (str "google_search_advanced"));
      [contradiction|reflexivity].
Qed.

Lemma tool_calls_without_query_send_nothing_witness :
  @Tools.handle_call_tool ascii_tables plain_text (str "google_search")
    (Tools.Arguments None (Some 5%Z) None None None None) empty_page
    (Mcp.Machine Mcp.init 1000 [])
  = (Ok (Tools.ErrorPayload (str "Query parameter is required")),
     Mcp.Machine Mcp.init 1000 []).
Proof.
  apply (proj1 (@tool_calls_without_query_send_nothing ascii_tables plain_text
                  (str "google_search")
                  (Tools.Arguments None (Some 5%Z) None None None None) empty_page
                  (Mcp.Machine Mcp.init 1000 []))).
  - left; reflexivity.
  - reflexivity.
Defined.

(** A search tool hands on what its one search gives: the dict as a
    payload, or the exception. *)
Lemma tool_hands_on {U : Unicode} {B : TreeBuilder}
    (run : outcome response * Mcp.machine) :
  match run with
  | (Ok result, m) => (Ok (Tools.ResultPayload result), m)
  | (Raised e, m) => (Raised e, m)
  end
  = (result <- fst run ;; Ok (Tools.ResultPayload result), snd run).
Proof. now destruct run as [[r|e] m]. Qed.

(** X21. A search tool called with a query runs exactly one search and hands
    on what it gives. The simple tool searches the query in the language
    given, Spanish by default, for the count given, 10 by default; the
    advanced tool searches the query with its site and filetype modifiers,
    always in Spanish, and its answer does not depend on the date range it is
    given. When what is searched holds no surrogate the tool answers with
    the dict of the search and exactly one request is sent; otherwise the
    exception of the encoding leaves the tool and nothing is sent. *)
Theorem tool_calls_search_once {U : Unicode} {B : TreeBuilder}
    (args : Tools.arguments) (a : attempt) (m : Mcp.machine) (q : pystr) :
  Tools.arg_query args = Some q -> q <> [] ->
  let num := or_else (Tools.arg_num_results args) 10%Z in
  let language := or_else (Tools.arg_language args) (str "es") in
  let advanced_query :=
    q ++ modifier "site" (match Tools.arg_site args with
                          | Some s => if truthy s then Some s else None
                          | None => None
                          end)
      ++ modifier "filetype" (match Tools.arg_filetype args with
                              | Some f => if truthy f then Some f else None
                              | None => None
                              end) in
  let simple := Mcp.search a q num language m in
  let advanced := Mcp.search a advanced_query num (str "es") m in
  Tools.handle_call_tool (str "google_search") args a m
  = (result <- fst simple ;; Ok (Tools.ResultPayload result), snd simple)
  /\ Tools.handle_call_tool (str "google_search_advanced") args a m
     = (result <- fst advanced ;; Ok (Tools.ResultPayload result), snd advanced)
  /\ (forall d : option pystr,
        Tools.handle_call_tool (str "google_search_advanced") (with_date_range d args) a m
        = Tools.handle_call_tool (str "google_search_advanced") args a m)
  /\ (if encodable q && encodable language
      then (exists r, fst simple = Ok r)
           /\ List.length (requests (Mcp.trace (snd simple)))
              = S (List.length (requests (Mcp.trace m)))
      else (exists e, fst simple = Raised e)
           /\ requests (Mcp.trace (snd simple)) = requests (Mcp.trace m))
  /\ (if encodable advanced_query
      then (exists r, fst advanced = Ok r)
           /\ List.length (requests (Mcp.trace (snd advanced)))
              = S (List.length (requests (Mcp.trace m)))
      else (exists e, fst advanced = Raised e)
           /\ requests (Mcp.trace (snd advanced)) = requests (Mcp.trace m)).
Proof.
  intros Hq Hne num language advanced_query simple advanced.
  assert (Ht : truthy q = true) by (destruct q; [contradiction|reflexivity]).
  assert (Hadv : Mcp.advanced_query q (or_else (Tools.arg_site args) [])
                   (or_else (Tools.arg_filetype args) [])
                   (or_else (Tools.arg_date_range args) [])
                 = advanced_query).
  { subst advanced_query. unfold Mcp.advanced_query.
    destruct (Tools.arg_site args) as [s|], (Tools.arg_filetype args) as [f|];
      cbn [or_else truthy modifier];
      try destruct (truthy s); try destruct (truthy f); cbn [modifier];
      rewrite ?app_nil_r, <- ?app_assoc; reflexivity. }
  assert (Hrun : forall query lang,
             let run := Mcp.search a query num lang m in
             if encodable query && encodable lang
             then (exists r, fst run = Ok r)
                  /\ List.length (requests (Mcp.trace (snd run)))
                     = S (List.length (requests (Mcp.trace m)))
             else (exists e, fst run = Raised e)
                  /\ requests (Mcp.trace (snd run)) = requests (Mcp.trace m)).
  { intros query lang run. subst run.
    pose proof (mcp_query_string_built query num lang) as Hb.
    destruct (encodable query && encodable lang); destruct Hb as [x Hx].
    - destruct (mcp_search_never_raises a query num lang m Hx) as [r ->].
      cbn [fst snd]. split; [eauto|].
      destruct (mcp_after_fetch_state a x m) as [-> _].
      rewrite length_app. cbn. lia.
    - rewrite (mcp_search_raises a query num lang m Hx). cbn [fst snd].
      split; [eauto|apply mcp_prepared_requests]. }
  split; [|split; [|split; [|split]]].
  - unfold Tools.handle_call_tool.
    change (pystr_eqb (str "google_search") (str "google_search")) with true.
    cbv iota. rewrite Hq. cbn [or_else].
    rewrite Ht. cbn [negb]. fold num. fold language. fold simple.
    apply tool_hands_on.
  - unfold Tools.handle_call_tool.
    change (pystr_eqb (str "google_search_advanced") (str "google_search")) with false.
    change (pystr_eqb (str "google_search_advanced") (str "google_search_advanced"))
      with true.
    cbv iota. rewrite Hq. cbn [or_else]. rewrite Ht. cbn [negb]. fold num.
    rewrite Hadv. fold advanced. apply tool_hands_on.
  - intros d. reflexivity.
  - apply (Hrun q language).
  - pose proof (Hrun advanced_query (str "es")) as H.
    rewrite encodable_str, andb_true_r in H. exact H.
Qed.

Lemma tool_calls_search_once_witness :
  List.length
    (requests
       (Mcp.trace
          (snd (@Mcp.search ascii_tables plain_text empty_page (str "rust") 5 (str "es")
                  (Mcp.Machine Mcp.init 1000 [])))))
  = S (List.length (requests (Mcp.trace (Mcp.Machine Mcp.init 1000 []))))
  /\ @Tools.handle_call_tool ascii_tables plain_text (str "google_search")
       (Tools.Arguments (Some [55296%N]) None None None None None) empty_page
       (Mcp.Machine Mcp.init 1000 [])
     = (Raised (str "'utf-8' codec can't encode character '\ud800' in position 0: surrogates not allowed"),
        snd (@Mcp.search ascii_tables plain_text empty_page [55296%N] 10 (str "es")
               (Mcp.Machine Mcp.init 1000 []))).
Proof.
  split.
  - apply (proj2 (proj1 (proj2 (proj2 (proj2
             (@tool_calls_search_once ascii_tables plain_text
                (Tools.Arguments (Some (str "rust")) (Some 5%Z) None None None None)
                empty_page (Mcp.Machine Mcp.init 1000 []) (str "rust")
                eq_refl ltac:(discriminate))))))).
  - apply (proj1 (@tool_calls_search_once ascii_tables plain_text
                    (Tools.Arguments (Some [55296%N]) None None None None None)
                    empty_page (Mcp.Machine Mcp.init 1000 []) [55296%N]
                    eq_refl ltac:(discriminate))).
Defined.

(** ** The duration of a search *)

Section Duration.
Context {U : Unicode} {B : TreeBuilder}.
Variables (query : pystr) (num_results : Z) (language : pystr)
          (safe_search : bool) (kw : Api.kwargs) (qs : pystr).
Hypothesis built :
  Api.query_string (Api.build_params query num_results language safe_search kw)
  = Ok qs.

Lemma smart_delay_clock (u : Q) (m : Api.machine) :
  Api.clock m <= Api.clock (Api.smart_delay u m).
Proof.
  unfold Api.smart_delay. cbn [Api.clock].
  destruct (Qlt_bool _ _) eqn:E; cbn [Api.sleep Api.clock]; [|lra].
  apply Qlt_bool_iff in E. lra.
Qed.

Lemma after_fetch_clock (a : attempt) (m : Api.machine) :
  Api.clock m + elapsed a <= Api.clock (after_fetch a qs m).
Proof.
  unfold after_fetch, Api.send. cbn [Api.clock].
  destruct (get_session_counted (Api.smart_delay (u_delay a) m)) as (_ & _ & _ & ->).
  pose proof (smart_delay_clock (u_delay a) m). lra.
Qed.

Lemma search_duration (stack : nat) :
  forall (env : oracle) (m : Api.machine) (o : outcome response) (m' : Api.machine),
    (forall i, 0 <= u_extra (env i) <= 1 /\ 0 <= elapsed (env i)) ->
    Api.search stack env query num_results language safe_search kw m = (o, m') ->
    exists n : nat,
      fetches (Api.trace m') = (fetches (Api.trace m) + S n)%nat
      /\ Api.clock m + 3 * inject_Z (Z.of_nat n) <= Api.clock m'.
Proof.
  assert (Hone : forall env m,
             (forall i, 0 <= u_extra (env i) <= 1 /\ 0 <= elapsed (env i)) ->
             exists n : nat,
               fetches (Api.trace (after_fetch (env O) qs m))
               = (fetches (Api.trace m) + S n)%nat
               /\ Api.clock m + 3 * inject_Z (Z.of_nat n)
                  <= Api.clock (after_fetch (env O) qs m)).
  { intros env m Henv. exists 0%nat.
    rewrite (@after_fetch_fetches qs). split; [lia|].
    pose proof (after_fetch_clock (env O) m). destruct (Henv O) as [_ He].
    change (inject_Z (Z.of_nat 0)) with 0. lra. }
  induction stack as [|stack IH]; intros env m o m' Henv.
  - destruct (@search_cases _ _ query num_results language safe_search kw qs built
                0 env m) as [(r & -> & _)|(stack' & Es & _)]; [|discriminate].
    intros [= _ <-]. now apply Hone.
  - destruct (@search_cases _ _ query num_results language safe_search kw qs built
                (S stack) env m) as [(r & -> & _)|(stack' & Es & Hb & ->)].
    + intros [= _ <-]. now apply Hone.
    + injection Es as <-. intros Hs.
      apply IH in Hs as (n & Hn & Ht); [|intros i; apply (Henv (S i))].
      pose proof (after_fetch_clock (env O) m) as Hc.
      destruct (Henv O) as [Hu He].
      exists (S n). split.
      * rewrite Hn, sleep_fetches, (@after_fetch_fetches qs). lia.
      * cbn [Api.sleep Api.clock] in Ht.
        assert (H3 : 3 <= uniform 3 7 (u_extra (env O)) <= 7)
          by (apply uniform_range; [lra|assumption]).
        rewrite Nat2Z.inj_succ, <- Z.add_1_r, inject_Z_plus.
        change (inject_Z 1) with 1. lra.
Qed.

End Duration.

(** X22. Every retry costs at least three seconds: when its random draws lie
    in [0, 1] and its exchanges take no negative time, a REST search that
    returns after n + 1 requests, that is after n block pages, has taken at
    least 3 n seconds. *)
Theorem search_takes_three_seconds_per_retry {U : Unicode} {B : TreeBuilder}
    (query : pystr) (num_results : Z) (language : pystr) (safe_search : bool)
    (kw : Api.kwargs) (stack : nat) (env : oracle) (m : Api.machine)
    (r : response) (m' : Api.machine) :
  (forall i, 0 <= u_extra (env i) <= 1 /\ 0 <= elapsed (env i)) ->
  Api.search stack env query num_results language safe_search kw m = (Ok r, m') ->
  exists n : nat,
    fetches (Api.trace m') = (fetches (Api.trace m) + S n)%nat
    /\ Api.clock m + 3 * inject_Z (Z.of_nat n) <= Api.clock m'.
Proof.
  intros Henv Hs.
  destruct (search_returns_built _ _ _ _ _ _ _ _ Hs) as [qs built].
  eapply (@search_duration _ _ query num_results language safe_search kw qs built);
    eassumption.
Qed.

Lemma search_takes_three_seconds_per_retry_witness :
  exists (m' : Api.machine) (n : nat),
    fetches (Api.trace m') = (fetches (Api.trace fresh) + S n)%nat
    /\ Api.clock fresh + 3 * inject_Z (Z.of_nat n) <= Api.clock m'
    /\ fetches (Api.trace m') = 5%nat.
Proof.
  eassert (Hrun : @Api.search ascii_tables plain_text 5 (blocked_times 4)
                    (str "rust") 10 (str "es") false [] fresh = (Ok _, _))
    by (vm_compute; reflexivity).
  destruct (@search_takes_three_seconds_per_retry ascii_tables plain_text
              (str "rust") 10%Z (str "es") false [] 5%nat (blocked_times 4) fresh _ _
              (fun i => ltac:(unfold blocked_times; destruct (Nat.ltb i 4);
                              repeat split; vm_compute; discriminate))
              Hrun)
    as (n & Hn & Ht).
  eexists. exists n. split; [exact Hn|]. split; [exact Ht|]. reflexivity.
Defined.

(** ** The date of a record *)

Section Dates.
Context {U : Unicode}.

Lemma re_search_substring (r : regex) (s m : pystr) :
  re_search r s = Some m -> exists before after, s = before ++ m ++ after.
Proof.
  induction s as [|c s IH].
  - cbn [re_search]. destruct (match_here r []) as [n|]; [|discriminate].
    intros [= <-]. exists [], (skipn n []). cbn [app]. now rewrite firstn_skipn.
  - cbn [re_search]. destruct (match_here r (c :: s)) as [n|].
    + intros [= <-]. exists [], (skipn n (c :: s)). cbn [app].
      now rewrite firstn_skipn.
    + intros H. destruct (IH H) as (before & after & ->).
      now exists (c :: before), after.
Qed.

Lemma match_here_least (r : regex) :
  forall (s : pystr) (n : nat),
    match_here r s = Some n -> (least r <= n <= List.length s)%nat.
Proof.
  induction r as [|p r IH]; intros s n.
  - cbn. intros [= <-]. lia.
  - cbn [match_here].
    set (hi := match p_max p with
               | Some m => Nat.min m (run_length (p_class p) s)
               | None => run_length (p_class p) s
               end).
    assert (Hrun : (run_length (p_class p) s <= List.length s)%nat).
    { clear. induction s as [|c s IHs]; cbn; [lia|].
      destruct (in_class (p_class p) c); cbn; lia. }
    assert (Hhi : (hi <= List.length s)%nat).
    { subst hi. destruct (p_max p); lia. }
    destruct (Nat.ltb_spec hi (p_min p)) as [|Hle]; [discriminate|].
    assert (Hd : (p_min p + (hi - p_min p) <= List.length s)%nat) by lia.
    revert Hd. generalize (hi - p_min p)%nat as d.
    unfold least. cbn [List.map]. change (list_sum (?a :: ?l)) with (a + list_sum l)%nat.
    fold (least r).
    induction d as [|d IHd]; intros Hd.
    + destruct (match_here r (skipn (p_min p + 0) s)) as [k|] eqn:E; [|discriminate].
      intros [= <-]. apply IH in E. rewrite length_skipn in E. lia.
    + destruct (match_here r (skipn (p_min p + S d) s)) as [k|] eqn:E.
      * intros [= <-]. apply IH in E. rewrite length_skipn in E. lia.
      * apply IHd. lia.
Qed.

Lemma re_search_least (r : regex) (s m : pystr) :
  re_search r s = Some m -> (least r <= List.length m)%nat.
Proof.
  induction s as [|c s IH].
  - cbn [re_search]. destruct (match_here r []) as [n|] eqn:E; [|discriminate].
    intros [= <-]. apply match_here_least in E. rewrite length_firstn. lia.
  - cbn [re_search]. destruct (match_here r (c :: s)) as [n|] eqn:E.
    + intros [= <-]. apply match_here_least in E. rewrite length_firstn. lia.
    + exact IH.
Qed.

End Dates.

(** X23. The date of a record is taken verbatim from the text of its
    container: the date found in a text is empty, or it is a piece of that
    text, unchanged, of at least eight characters. *)
Theorem dates_are_taken_verbatim {U : Unicode} (text : pystr) :
  let date := Api.first_date text Api.date_patterns in
  date = []
  \/ (exists before after : pystr,
        text = before ++ date ++ after /\ (8 <= List.length date)%nat).
Proof.
  cbv zeta. unfold Api.date_patterns. cbn [Api.first_date].
  destruct (re_search date_day_month_year text) as [m|] eqn:E1.
  { right. destruct (re_search_substring _ _ E1) as (b & a & ->).
    exists b, a. split; [reflexivity|]. apply re_search_least in E1. exact E1. }
  destruct (re_search date_slashes text) as [m|] eqn:E2.
  { right. destruct (re_search_substring _ _ E2) as (b & a & ->).
    exists b, a. split; [reflexivity|]. apply re_search_least in E2. exact E2. }
  destruct (re_search date_month_day_year text) as [m|] eqn:E3.
  { right. destruct (re_search_substring _ _ E3) as (b & a & ->).
    exists b, a. split; [reflexivity|]. apply re_search_least in E3.
    cbn in E3. lia. }
  now left.
Qed.
